(** * The dynamic-pricing decision engine

    A shallow embedding of the pricing engine of the ML service:
    - [ml/service/main.py], handler [pricing_optimize_v1] and its helpers
      [require_api_key] and [load_product_catalog], and the handlers
      [pricing_optimize], [demand_forecast], [farmer_score] and
      [route_optimize];
    - [ml/modules/dynamic_pricing/serve_models.py] ([load_xgb], [load_dqn],
      [predict_with_models]);
    - [ml/modules/dynamic_pricing/train_dqn.py] ([PricingEnv.step]);
    - [ml/modules/dynamic_pricing/serve.py] ([load_model],
      [recommend_price]);
    - [ml/modules/competitors/serve.py] ([get_competitor_price]);
    - [ml/modules/demand_forecasting/serve.py] ([forecast_product],
      [_load_uncertainty]).

    Conventions of the embedding.
    - A Python [float] is an exact rational ([Q]): the rounding of each
      operation to a double, NaN, and the overflow of float arithmetic to
      an infinity are outside the model.  The one infinite value the
      handler writes down itself,
      [float("-inf")], is the constructor [NegInf] of [xfloat].  Python's
      [max] and [min] keep their first argument unless a later one is
      strictly greater (smaller); this is the behaviour of [Qmax] and
      [Qmin].
    - A raised exception is the constructor [Raise] of [outcome]; division
      is [py_div], which raises on a zero divisor.
    - A Python [int] is unbounded ([Z]).  Converting one to a float,
      [float(n)] or an [int] operand of float arithmetic, is [py_float]: it
      raises [OverflowError] beyond the range of a double, and keeps the
      value exact within it.
    - A date is its day number ([toordinal]); adding days is [add_days],
      which raises [OverflowError] when the result leaves the years 1 to
      9999, as [datetime + timedelta] does.
    - Module-level globals (the lazily filled caches) are the fields of
      [Globals]; everything the process reads but never writes (environment
      variables, files, the network feed, the clock, the string-hash seed)
      is a field of [World].  Effectful functions are computations in the
      state-and-exception monad [M]. *)

From Stdlib Require Import QArith Qminmax Qabs Qround ZArith List String Ascii Bool Lia Lqa.
Import ListNotations.
Local Open Scope Q_scope.

(** ** Python primitives *)

Module Py.

Inductive exn : Type :=
| ZeroDivisionError
| ValueError
| IndexError
| AssertionError
| OverflowError
| HTTPException (status_code : Z)
| Exception.

Inductive outcome (A : Type) : Type :=
| Ok (a : A)
| Raise (e : exn).
Arguments Ok {A} a.
Arguments Raise {A} e.

Definition obind {A B : Type} (c : outcome A) (k : A -> outcome B) : outcome B :=
  match c with
  | Ok a => k a
  | Raise e => Raise e
  end.

(** [a > b], [a < b], [a <= b] on floats, as booleans. *)
Definition Qltb (a b : Q) : bool :=
  match a ?= b with Lt => true | _ => false end.
Definition Qgtb (a b : Q) : bool := Qltb b a.

(** [a / b] *)
Definition py_div (a b : Q) : outcome Q :=
  if Qeq_bool b 0 then Raise ZeroDivisionError else Ok (a / b).

(** [float(n)] of an int.  The conversion rounds to the nearest double and
    raises [OverflowError] when that is beyond the largest one, which is
    the case from [2^1024 - 2^970] on. *)
Definition float_limit : Z := (2 ^ 1024 - 2 ^ 970)%Z.

Definition py_float (n : Z) : outcome Q :=
  if (Z.abs n <? float_limit)%Z then Ok (inject_Z n) else Raise OverflowError.

(** [start + timedelta(days=d)] on day numbers: [timedelta] takes at most
    999999999 days, and the sum must be a day of the years 1 to 9999, the
    last of which has the number 3652059. *)
Definition max_ordinal : Z := 3652059.

Definition add_days (start d : Z) : outcome Z :=
  if ((Z.abs d <=? 999999999) && (1 <=? start + d) && (start + d <=? max_ordinal))%Z
  then Ok (start + d)%Z
  else Raise OverflowError.

(** [[f(x) for x in l]], stopping at the first [f(x)] that raises *)
Fixpoint traverse {A B : Type} (f : A -> outcome B) (l : list A) : outcome (list B) :=
  match l with
  | [] => Ok []
  | x :: l' =>
      match f x with
      | Ok y =>
          match traverse f l' with
          | Ok ys => Ok (y :: ys)
          | Raise e => Raise e
          end
      | Raise e => Raise e
      end
  end.

(** [max(l)] of a list: the first maximal element; [ValueError] on []. *)
Definition py_max_list (l : list Q) : outcome Q :=
  match l with
  | [] => Raise ValueError
  | x :: xs => Ok (fold_left Qmax xs x)
  end.

(** [l[0]] *)
Definition py_head (l : list Q) : outcome Q :=
  match l with
  | [] => Raise IndexError
  | x :: _ => Ok x
  end.

(** [round(x, 2)]: nearest multiple of 1/100, ties to the even one. *)
Definition round_half_even (x : Q) : Z :=
  let f := Qfloor x in
  match Qcompare (x - inject_Z f) (1 # 2) with
  | Lt => f
  | Gt => (f + 1)%Z
  | Eq => if Z.even f then f else (f + 1)%Z
  end.

Definition round2 (x : Q) : Q := round_half_even (x * 100) # 100.

(** [float("-inf")] next to the finite floats. *)
Inductive xfloat : Type :=
| NegInf
| Fin (q : Q).

(** [r > b] for a finite [r]. *)
Definition gt_x (r : Q) (b : xfloat) : bool :=
  match b with
  | NegInf => true
  | Fin q => Qgtb r q
  end.

(** [round(b - x, 2)] for a finite [x]. *)
Definition round2_sub_x (b : xfloat) (x : Q) : xfloat :=
  match b with
  | NegInf => NegInf
  | Fin q => Fin (round2 (q - x))
  end.

(** [str.upper] and [str.lower], on ASCII. *)
Definition upper_ascii (c : ascii) : ascii :=
  let n := nat_of_ascii c in
  if ((97 <=? n) && (n <=? 122))%nat then ascii_of_nat (n - 32) else c.

Definition lower_ascii (c : ascii) : ascii :=
  let n := nat_of_ascii c in
  if ((65 <=? n) && (n <=? 90))%nat then ascii_of_nat (n + 32) else c.

Fixpoint upper (s : string) : string :=
  match s with
  | EmptyString => EmptyString
  | String c s' => String (upper_ascii c) (upper s')
  end.

Fixpoint lower (s : string) : string :=
  match s with
  | EmptyString => EmptyString
  | String c s' => String (lower_ascii c) (lower s')
  end.

(** [d.get(k)] and [d.get(k, default)] on a dict with string keys. *)
Fixpoint dict_lookup {V : Type} (d : list (string * V)) (k : string) : option V :=
  match d with
  | [] => None
  | (k', v) :: d' => if String.eqb k k' then Some v else dict_lookup d' k
  end.

Definition dict_get {V : Type} (d : list (string * V)) (k : string) (default : V) : V :=
  match dict_lookup d k with
  | Some v => v
  | None => default
  end.

End Py.
Import Py.

Notation "'let!' x ':=' c 'in' k" := (obind c (fun x => k))
  (at level 10, x pattern, c at level 100, k at level 200).

(** ** The process: read-only world, mutable globals, and the monad [M] *)

(** The learned artefacts are opaque estimators.  [XgbRegressor] is
    [float(xgb.predict([feat])[0])], [QNetwork] is [dqn(state)], and
    [DemandModel] is what [forecast_product] does with a loaded model once
    the dates of the feature rows are computed: the data frame of the rows
    for the product, the start date and the number of days, its alignment
    with the trained columns, and [model.predict]; each may raise. *)
Definition XgbRegressor : Type := list Q -> outcome Q.
Definition QNetwork : Type := list Q -> outcome (list Q).
Definition DemandModel : Type := string -> Z -> nat -> outcome (list Q).

Record CatalogEntry : Type := {
  entry_name : string;
  entry_unitCost : Q
}.

Record World : Type := {
  (** [ML_SERVICE_API_KEY], read at import *)
  API_KEY : string;
  (** [float(os.getenv(name))]: [None] when the variable is unset *)
  getenv_float : string -> option (outcome Q);
  (** [os.getenv(name)] *)
  getenv_str : string -> option string;
  (** [hash(s) % 2 == 0], fixed for the life of the process *)
  hash_even : string -> bool;
  (** the mapping [load_product_catalog] builds from [PRODUCT_CATALOG_PATH];
      empty when the file is missing or malformed *)
  products_json : list (string * CatalogEntry);
  (** [ml/models/dynamic_pricing_xgb.pkl]: [None] when the file is missing,
      else what [joblib.load] does *)
  dynamic_pricing_xgb_pkl : option (outcome XgbRegressor);
  (** [ml/models/dynamic_pricing_dqn.pt], likewise *)
  dynamic_pricing_dqn_pt : option (outcome QNetwork);
  (** [demand_forecasting.pkl], likewise *)
  demand_forecasting_pkl : option (outcome DemandModel);
  (** the dict [_load_from_file] builds from [COMPETITOR_PRICE_PATH] *)
  competitors_json : list (string * Q);
  (** what [_fetch_http] returns: [None] when no URL is configured or on
      any failure of the call *)
  competitor_api : string -> option Q;
  (** the day number of [datetime.now(timezone.utc)] *)
  utc_now : Z;
  (** what [_load_uncertainty] returns *)
  demand_uncertainty : Q
}.

Record Globals : Type := {
  _xgb_model : option XgbRegressor;
  _dqn_state : option QNetwork;
  _model : option DemandModel;
  _comp_cache : option (list (string * Q));
  _catalog_cache : option (list (string * CatalogEntry))
}.

Definition set_xgb_model (v : option XgbRegressor) (g : Globals) : Globals :=
  {| _xgb_model := v; _dqn_state := _dqn_state g; _model := _model g;
     _comp_cache := _comp_cache g; _catalog_cache := _catalog_cache g |}.
Definition set_dqn_state (v : option QNetwork) (g : Globals) : Globals :=
  {| _xgb_model := _xgb_model g; _dqn_state := v; _model := _model g;
     _comp_cache := _comp_cache g; _catalog_cache := _catalog_cache g |}.
Definition set_model (v : option DemandModel) (g : Globals) : Globals :=
  {| _xgb_model := _xgb_model g; _dqn_state := _dqn_state g; _model := v;
     _comp_cache := _comp_cache g; _catalog_cache := _catalog_cache g |}.
Definition set_comp_cache (v : option (list (string * Q))) (g : Globals) : Globals :=
  {| _xgb_model := _xgb_model g; _dqn_state := _dqn_state g; _model := _model g;
     _comp_cache := v; _catalog_cache := _catalog_cache g |}.
Definition set_catalog_cache (v : option (list (string * CatalogEntry))) (g : Globals) : Globals :=
  {| _xgb_model := _xgb_model g; _dqn_state := _dqn_state g; _model := _model g;
     _comp_cache := _comp_cache g; _catalog_cache := v |}.

(** Globals as they are when the process starts. *)
Definition fresh_globals : Globals :=
  {| _xgb_model := None; _dqn_state := None; _model := None;
     _comp_cache := None; _catalog_cache := None |}.

(** A computation reads and writes the globals and returns or raises; what
    it wrote before raising stays written. *)
Definition M (A : Type) : Type := Globals -> outcome A * Globals.

Definition ret {A : Type} (a : A) : M A := fun g => (Ok a, g).

Definition bind {A B : Type} (c : M A) (k : A -> M B) : M B :=
  fun g =>
    match c g with
    | (Ok a, g') => k a g'
    | (Raise e, g') => (Raise e, g')
    end.

Definition lift {A : Type} (o : outcome A) : M A := fun g => (o, g).

Definition raise {A : Type} (e : exn) : M A := fun g => (Raise e, g).

Definition read {A : Type} (f : Globals -> A) : M A := fun g => (Ok (f g), g).

Definition write (f : Globals -> Globals) : M unit := fun g => (Ok tt, f g).

(** [try: c  except Exception: h] *)
Definition try_except {A : Type} (c : M A) (h : M A) : M A :=
  fun g =>
    match c g with
    | (Ok a, g') => (Ok a, g')
    | (Raise _, g') => h g'
    end.

Notation "x <- c ;; k" := (bind c (fun x => k))
  (at level 61, c at next level, right associativity).
Notation "c ;;; k" := (bind c (fun _ => k))
  (at level 61, right associativity).

(** [float(os.getenv(name, default))] *)
Definition getenv_float_default (w : World) (name : string) (default : Q) : outcome Q :=
  match getenv_float w name with
  | None => Ok default
  | Some o => o
  end.

(** [os.getenv(name, default)] *)
Definition getenv_default (w : World) (name : string) (default : string) : string :=
  match getenv_str w name with
  | None => default
  | Some s => s
  end.

(** ** ml/modules/dynamic_pricing/serve_models.py *)

Module Serve_models.
Section WithWorld.
Variable w : World.

Definition load_xgb : M (option XgbRegressor) :=
  cached <- read _xgb_model ;;
  match cached with
  | Some m => ret (Some m)
  | None =>
      match dynamic_pricing_xgb_pkl w with
      | None => ret None
      | Some joblib_load =>
          try_except
            (m <- lift joblib_load ;;
             write (set_xgb_model (Some m)) ;;;
             ret (Some m))
            (ret None)
      end
  end.

Definition load_dqn : M (option QNetwork) :=
  cached <- read _dqn_state ;;
  match cached with
  | Some m => ret (Some m)
  | None =>
      match dynamic_pricing_dqn_pt w with
      | None => ret None
      | Some torch_load =>
          try_except
            (qnet <- lift torch_load ;;
             write (set_dqn_state (Some qnet)) ;;;
             ret (Some qnet))
            (ret None)
      end
  end.

Definition grade_map : list (string * Q) := [("A"%string, 2); ("B"%string, 1); ("C"%string, 0)].

Definition actions : list Q := [-0.10; -0.05; 0.0; 0.05; 0.10].

(** [int(torch.argmax(qvals).item())]: the index of the first maximal value. *)
Fixpoint argmax_from (l : list Q) (i : nat) (best : Q) (best_i : nat) : nat :=
  match l with
  | [] => best_i
  | x :: l' =>
      if Qgtb x best then argmax_from l' (S i) x i
      else argmax_from l' (S i) best best_i
  end.

Definition argmax (qvals : list Q) : outcome nat :=
  match qvals with
  | [] => Raise Exception
  | x :: l => Ok (argmax_from l 1 x 0)
  end.

(** [actions[idx]] *)
Definition actions_at (idx : nat) : outcome Q :=
  match nth_error actions idx with
  | Some a => Ok a
  | None => Raise IndexError
  end.

(** The fourth feature of the policy's state vector:
    [competitor_price/base_price if base_price>0 else 1.0]. *)
Definition competitor_ratio (competitor_price base_price : Q) : outcome Q :=
  if Qgtb base_price 0 then py_div competitor_price base_price else Ok 1.0.

Definition quality_of (quality_grade : string) : Q :=
  if String.eqb (upper quality_grade) "A" then 1.0
  else if String.eqb (upper quality_grade) "B" then 0.85
  else 0.7.

Definition predict_with_models
    (base_price competitor_price expected_demand : Q) (quality_grade : string)
    (inventory expiry_hours : Z) (unit_cost : Q) (candidates : list Q)
  : M (option Q) :=
  (* Try XGB first *)
  xgb <- load_xgb ;;
  from_xgb <-
    match xgb with
    | Some xgb =>
        (* the feature row is built in front of the [try] *)
        inv <- lift (py_float inventory) ;;
        let feat := [base_price;
                     dict_get grade_map (upper quality_grade) 1;
                     inv;
                     expected_demand;
                     competitor_price] in
        try_except (pred <- lift (xgb feat) ;; ret (Some pred)) (ret None)
    | None => ret None
    end ;;
  match from_xgb with
  | Some pred => ret (Some pred)
  | None =>
      (* Try DQN policy *)
      dqn <- load_dqn ;;
      match dqn with
      | Some dqn =>
          try_except
            (inv <- lift (py_float inventory) ;;
             ratio <- lift (competitor_ratio competitor_price base_price) ;;
             expiry <- lift (py_float expiry_hours) ;;
             let state := [inv;
                           expected_demand;
                           quality_of quality_grade;
                           ratio;
                           expiry] in
             qvals <- lift (dqn state) ;;
             idx <- lift (argmax qvals) ;;
             action <- lift (actions_at idx) ;;
             let pred := base_price * (1.0 + action) in
             ret (Some pred))
            (ret None)
      | None => ret None
      end
  end.

End WithWorld.
End Serve_models.

(** ** ml/modules/competitors/serve.py *)

Module Competitors.
Section WithWorld.
Variable w : World.

Definition _load_from_file : M (list (string * Q)) :=
  cached <- read _comp_cache ;;
  match cached with
  | Some data => ret data
  | None =>
      let data := competitors_json w in
      write (set_comp_cache (Some data)) ;;;
      ret data
  end.

Definition _fetch_http (product_id : string) : M (option Q) :=
  ret (competitor_api w product_id).

Definition get_competitor_price (product_id : string) (base_price : Q) : M Q :=
  (* 1) Try HTTP feed *)
  p <- _fetch_http product_id ;;
  match p with
  | Some p => ret (Qmax 0.1 p)
  | None =>
      (* 2) Try local file *)
      data <- _load_from_file ;;
      match dict_lookup data product_id with
      | Some mp => ret (Qmax 0.1 mp)
      | None =>
          (* 3) Fallback to factor relative to base price *)
          factor <- lift (getenv_float_default w "COMPETITOR_PRICE_FACTOR" 0.98) ;;
          ret (Qmax 0.1 (base_price * factor))
      end
  end.

End WithWorld.
End Competitors.

(** ** ml/modules/demand_forecasting/serve.py *)

Module Demand_forecasting.

Record Prediction : Type := {
  date : Z;
  quantity : Q;
  quantityLow : Q;
  quantityHigh : Q
}.

Section WithWorld.
Variable w : World.

Definition load_model : M (option DemandModel) :=
  cached <- read _model ;;
  match cached, demand_forecasting_pkl w with
  | None, Some joblib_load =>
      m <- lift joblib_load ;;
      write (set_model (Some m)) ;;;
      ret (Some m)
  | _, _ => ret cached
  end.

(** [_build_feature_rows] as far as it can fail: the dates of the rows,
    [start_date + timedelta(days=i)] for [i] in [range(days)]. *)
Definition _build_feature_rows (start_date : Z) (days : nat) : outcome (list Z) :=
  traverse (fun i => add_days start_date (Z.of_nat i)) (seq 0 days).

Definition forecast_product (product_id : string) (days : nat) : M (list Prediction) :=
  model <- load_model ;;
  let start_date := utc_now w in
  let uncertainty := demand_uncertainty w in
  match model with
  | None =>
      let base := 10.0 in
      lift (traverse (fun d =>
                        let! day := add_days start_date (Z.of_nat d) in
                        Ok {| date := day;
                              quantity := base;
                              quantityLow := Qmax 0.0 (base * (1.0 - uncertainty));
                              quantityHigh := base * (1.0 + uncertainty) |})
                     (seq 0 days))
  | Some model =>
      lift (_build_feature_rows start_date days) ;;;
      preds <- lift (model product_id start_date days) ;;
      lift (traverse (fun ip =>
                        let q := Qmax 0.0 (snd ip) in
                        let! day := add_days start_date (Z.of_nat (fst ip)) in
                        Ok {| date := day;
                              quantity := q;
                              quantityLow := Qmax 0.0 (q * (1.0 - uncertainty));
                              quantityHigh := q * (1.0 + uncertainty) |})
                     (combine (seq 0 (List.length preds)) preds))
  end.

End WithWorld.
End Demand_forecasting.

(** ** ml/modules/dynamic_pricing/train_dqn.py *)

Module Train_dqn.

(** [(inv, demand, quality, competitor, expiry_h)] *)
Definition State : Type := (Q * Q * Q * Q * Q)%type.

Record PricingEnv : Type := {
  action_space : list Q;
  state : option State
}.

Definition PricingEnv_init : PricingEnv :=
  {| action_space := [-0.10; -0.05; 0.0; 0.05; 0.10]; state := None |}.

(** The price the environment charges for an action. *)
Definition step_price (action base_price unit_cost : Q) : Q :=
  Qmax (Qmax (base_price * (1 + action)) (unit_cost * 1.15)) (base_price * 0.70).

(** The reward of one simulated step (lines 39-51 of the file). *)
Definition step_reward (st : State) (action base_price unit_cost : Q) : outcome Q :=
  let '(inv, demand, quality, competitor, expiry_h) := st in
  let price := step_price action base_price unit_cost in
  (* demand adjustment by price vs competitor *)
  let! q := py_div (base_price * competitor - price) base_price in
  let elasticity := 0.1 * q in
  let expected :=
    Qmax 0.0 (demand * quality *
              (if Qgtb expiry_h 48 then 1.0 else (if Qgtb expiry_h 24 then 0.7 else 0.5))) in
  let sold := Qmin inv (expected * (1.0 + elasticity)) in
  let revenue := sold * price in
  let waste_penalty := if Qgtb expiry_h 48 then 0.2 else (if Qgtb expiry_h 24 then 0.5 else 0.8) in
  let waste_cost := Qmax 0.0 (inv - sold) * unit_cost * waste_penalty in
  let! d := py_div (Qabs (price - base_price * competitor)) base_price in
  let satisfaction_bonus := if Qltb d 0.03 then 0.05 * revenue else 0.0 in
  Ok (revenue - waste_cost + satisfaction_bonus).

(** [PricingEnv.step]; [next_state] is the state the random [reset] draws. *)
Definition step (self : PricingEnv) (next_state : State) (action base_price unit_cost : Q)
  : outcome (PricingEnv * (State * Q * bool)) :=
  match state self with
  | None => Raise AssertionError
  | Some st =>
      let! reward := step_reward st action base_price unit_cost in
      (* single-step episode *)
      let done := true in
      Ok ({| action_space := action_space self; state := Some next_state |},
          (next_state, reward, done))
  end.

End Train_dqn.

(** ** ml/service/main.py: the v1 pricing handler *)

Module Main.

Record PricingV1Request : Type := {
  product_id : string;
  current_inventory : Z;
  quality_grade : string;
  time_to_expiry_hours : Z
}.

Record PricingV1Response : Type := {
  recommended_price : Q;
  price_adjustment_reason : string;
  expected_demand : Q;
  revenue_impact : xfloat
}.

(** *** The pure steps of the handler, in the order of the source *)

(** line 361: [(req.quality_grade or "B").upper()] *)
Definition grade_of (quality_grade : string) : string :=
  upper (if String.eqb quality_grade "" then "B"%string else quality_grade).

Definition grade_markup_map : list (string * Q) :=
  [("A"%string, 2.0); ("B"%string, 1.6); ("C"%string, 1.3)].

(** line 363 *)
Definition markup_of (grade : string) : Q := dict_get grade_markup_map grade 1.5.

(** lines 364 and 367 *)
Definition base_price_of (unit_cost markup min_margin : Q) : Q :=
  let base_price := if Qgtb unit_cost 0 then unit_cost * markup else 1.0 in
  if Qgtb unit_cost 0 then Qmax base_price (unit_cost * (1.0 + min_margin)) else base_price.

Definition quality_factor_map : list (string * Q) :=
  [("A"%string, 1.0); ("B"%string, 0.85); ("C"%string, 0.7)].

(** line 372 *)
Definition quality_factor_of (grade : string) : Q := dict_get quality_factor_map grade 0.85.

(** line 374 *)
Definition expiry_factor_of (expiry_hours : Z) : Q :=
  if (48 <? expiry_hours)%Z then 1.0 else (if (24 <? expiry_hours)%Z then 0.7 else 0.5).

(** line 375 *)
Definition expected_demand_of (demand_baseline quality_factor expiry_factor : Q) : Q :=
  Qmax 0.0 (demand_baseline * quality_factor * expiry_factor).

Definition steps : list Q := [-0.10; -0.05; 0.0; 0.05; 0.10].

(** lines 382-384 *)
Definition min_allowed_price_of (base_price unit_cost min_margin max_discount : Q) : Q :=
  let min_price_discount := base_price * (1.0 - max_discount) in
  let min_price_margin := if Qgtb unit_cost 0 then unit_cost * (1.0 + min_margin) else 0.0 in
  Qmax (Qmax min_price_discount min_price_margin) 0.1.

(** lines 379 and 385: the candidate list the rest of the handler uses *)
Definition candidates_of (base_price min_allowed_price : Q) : list Q :=
  let candidates := map (fun s => base_price * (1 + s)) steps in
  map (fun p => Qmax p min_allowed_price) candidates.

Section Decision.
(** The locals that are fixed when the price is chosen. *)
Variables (competitor_price base_price expected_demand inventory unit_cost : Q).
Variable expiry_hours : Z.
Variable min_allowed_price : Q.
Variable candidates : list Q.

(** lines 430-438: the reward of candidate [p] in the search loop *)
Definition search_reward (p : Q) : outcome Q :=
  let! q := py_div (competitor_price - p) base_price in
  let elasticity := 0.1 * q in
  let demand_adj := Qmax 0.0 (expected_demand * (1.0 + elasticity)) in
  let sold := Qmin inventory demand_adj in
  let revenue := sold * p in
  let waste_penalty_factor :=
    if (48 <? expiry_hours)%Z then 0.2 else (if (24 <? expiry_hours)%Z then 0.5 else 0.8) in
  let leftover := Qmax 0.0 (inventory - sold) in
  let waste_cost := leftover * unit_cost * waste_penalty_factor in
  let! d := py_div (Qabs (p - competitor_price)) base_price in
  let satisfaction_bonus := if Qltb d 0.03 then 0.05 * revenue else 0.0 in
  let reward := revenue - waste_cost + satisfaction_bonus in
  Ok reward.

(** lines 417-425: the reward accounted to the model's price *)
Definition model_reward (best_price : Q) : outcome Q :=
  let! q := py_div (competitor_price - best_price) base_price in
  let elasticity := 0.1 * q in
  let demand_adj := Qmax 0.0 (expected_demand * (1.0 + elasticity)) in
  let sold := Qmin inventory demand_adj in
  let revenue := sold * best_price in
  let waste_penalty_factor :=
    if (48 <? expiry_hours)%Z then 0.2 else (if (24 <? expiry_hours)%Z then 0.5 else 0.8) in
  let leftover := Qmax 0.0 (inventory - sold) in
  let waste_cost := leftover * unit_cost * waste_penalty_factor in
  let! d := py_div (Qabs (best_price - competitor_price)) base_price in
  let satisfaction_bonus := if Qltb d 0.03 then 0.05 * revenue else 0.0 in
  let best_reward := revenue - waste_cost + satisfaction_bonus in
  Ok best_reward.

(** lines 429-441: the loop over the candidates *)
Fixpoint search_loop (ps : list Q) (best_reward : xfloat) (best_price : Q)
  : outcome (xfloat * Q) :=
  match ps with
  | [] => Ok (best_reward, best_price)
  | p :: ps' =>
      let! reward := search_reward p in
      if gt_x reward best_reward
      then search_loop ps' (Fin reward) p
      else search_loop ps' best_reward best_price
  end.

(** lines 400 and 428-441 *)
Definition exhaustive_search : outcome (xfloat * Q) :=
  let best_reward := NegInf in
  let! best_price := py_head candidates in
  search_loop candidates best_reward best_price.

(** lines 407-416 and, the same statements again, lines 442-451; the
    result is the new [best_price] and the flag [competitor_adjusted] *)
Definition competitor_adjustment (best_price : Q) : outcome (Q * bool) :=
  if Qgtb competitor_price 0 then
    let! ratio := py_div best_price competitor_price in
    if Qgtb ratio 1.05 && (Qgtb inventory 30 || (expiry_hours <=? 24)%Z) then
      let adjust := 0.3 * (competitor_price - best_price) in
      let! max_cand := py_max_list candidates in
      Ok (Qmax min_allowed_price (Qmin max_cand (best_price + adjust)), true)
    else if Qltb ratio 0.95 && Qltb inventory 10 then
      let adjust := 0.2 * (competitor_price - best_price) in
      let! max_cand := py_max_list candidates in
      Ok (Qmax min_allowed_price (Qmin max_cand (best_price + adjust)), true)
    else Ok (best_price, false)
  else Ok (best_price, false).

(** lines 399-451: the chosen price, its reward, and the two flags
    [competitor_adjusted] and [used_model] *)
Definition choose_price (model_price : option Q) : outcome (Q * xfloat * bool * bool) :=
  match model_price with
  | Some model_price =>
      let mp := model_price in
      let mp := Qmax mp min_allowed_price in
      let! max_cand := match candidates with [] => Ok mp | _ => py_max_list candidates end in
      let best_price := Qmin max_cand mp in
      let! adjusted := competitor_adjustment best_price in
      let best_price := fst adjusted in
      let! best_reward := model_reward best_price in
      Ok (best_price, Fin best_reward, snd adjusted, true)
  | None =>
      let! found := exhaustive_search in
      let! adjusted := competitor_adjustment (snd found) in
      Ok (fst adjusted, fst found, snd adjusted, false)
  end.

End Decision.

(** *** The handler *)

(** The locals of [pricing_optimize_v1] when it returns; [best_price] is
    recorded twice, as it is before and after the A/B step. *)
Record Locals : Type := {
  unit_cost : Q;
  grade : string;
  markup : Q;
  min_margin : Q;
  base_price : Q;
  demand_baseline : Q;
  quality_factor : Q;
  expected_demand_in : Q;
  competitor_price : Q;
  max_discount : Q;
  min_allowed_price : Q;
  candidates : list Q;
  model_price : option Q;
  used_model : bool;
  competitor_adjusted : bool;
  best_reward : xfloat;
  best_price_chosen : Q;
  bucket : string;
  best_price : Q;
  recommended : Q;
  impact : xfloat;
  expected_demand_out : Q;
  reason : string
}.

Section WithWorld.
Variable w : World.

Definition require_api_key (x_api_key : string) : M unit :=
  if negb (String.eqb (API_KEY w) "") && negb (String.eqb x_api_key (API_KEY w))
  then raise (HTTPException 401)
  else ret tt.

Definition load_product_catalog : M (list (string * CatalogEntry)) :=
  cached <- read _catalog_cache ;;
  match cached with
  | Some mapping => ret mapping
  | None =>
      let mapping := products_json w in
      write (set_catalog_cache (Some mapping)) ;;;
      ret mapping
  end.

Definition pricing_v1_locals (req : PricingV1Request) (x_api_key : string) : M Locals :=
  require_api_key x_api_key ;;;
  catalog <- load_product_catalog ;;
  let unit_cost :=
    match dict_lookup catalog (product_id req) with
    | Some entry => entry_unitCost entry
    | None => 0.0
    end in
  let grade := grade_of (quality_grade req) in
  let markup := markup_of grade in
  min_margin <- lift (getenv_float_default w "PRICING_MIN_MARGIN" 0.15) ;;
  let base_price := base_price_of unit_cost markup min_margin in
  preds <- Demand_forecasting.forecast_product w (product_id req) 3 ;;
  let demand_baseline :=
    match preds with
    | pred :: _ => Demand_forecasting.quantity pred
    | [] => 0.0
    end in
  let quality_factor := quality_factor_of grade in
  let expiry_hours := time_to_expiry_hours req in
  let expiry_factor := expiry_factor_of expiry_hours in
  let expected_demand := expected_demand_of demand_baseline quality_factor expiry_factor in
  competitor_price <- Competitors.get_competitor_price w (product_id req) base_price ;;
  max_discount <- lift (getenv_float_default w "PRICING_MAX_DISCOUNT" 0.30) ;;
  let min_allowed_price := min_allowed_price_of base_price unit_cost min_margin max_discount in
  let candidates := candidates_of base_price min_allowed_price in
  model_price <-
    Serve_models.predict_with_models w base_price competitor_price expected_demand grade
      (current_inventory req) expiry_hours unit_cost candidates ;;
  inventory <- lift (py_float (current_inventory req)) ;;
  chosen <- lift (choose_price competitor_price base_price expected_demand inventory
                    unit_cost expiry_hours min_allowed_price candidates model_price) ;;
  let '(best_price_chosen, best_reward, competitor_adjusted, used_model) := chosen in
  let ab_enabled := String.eqb (lower (getenv_default w "PRICING_AB_ENABLED" "true")) "true" in
  let bucket :=
    (if ab_enabled then (if hash_even w (product_id req) then "B" else "A") else "A")%string in
  let best_price :=
    if ab_enabled && String.eqb bucket "B" then best_price_chosen * 0.98
    else best_price_chosen in
  let recommended := round2 best_price in
  let base_sold := Qmin inventory expected_demand in
  let base_rev := base_sold * base_price in
  let impact := round2_sub_x best_reward base_rev in
  q <- lift (py_div (competitor_price - recommended) base_price) ;;
  let final_elasticity := 0.1 * q in
  let expected_demand_out := Qmax 0.0 (expected_demand * (1.0 + final_elasticity)) in
  let reason :=
    (if used_model then "Model-driven price"
     else if Qltb recommended base_price then "Expiry-driven discount"
     else "Demand/margin-driven markup")%string in
  let reason :=
    if competitor_adjusted
    then (if used_model then "Competitor-adjusted model price"
          else "Competitor-adjusted heuristic price")%string
    else reason in
  ret {| unit_cost := unit_cost; grade := grade; markup := markup;
         min_margin := min_margin; base_price := base_price;
         demand_baseline := demand_baseline; quality_factor := quality_factor; expected_demand_in := expected_demand;
         competitor_price := competitor_price; max_discount := max_discount;
         min_allowed_price := min_allowed_price; candidates := candidates;
         model_price := model_price; used_model := used_model;
         competitor_adjusted := competitor_adjusted; best_reward := best_reward;
         best_price_chosen := best_price_chosen; bucket := bucket;
         best_price := best_price; recommended := recommended; impact := impact;
         expected_demand_out := expected_demand_out; reason := reason |}.

(** lines 476-481: the dict the handler returns *)
Definition response_of (l : Locals) : PricingV1Response :=
  {| recommended_price := recommended l;
     price_adjustment_reason := reason l;
     expected_demand := round2 (expected_demand_out l);
     revenue_impact := impact l |}.

Definition pricing_optimize_v1 (req : PricingV1Request) (x_api_key : string)
  : M PricingV1Response :=
  l <- pricing_v1_locals req x_api_key ;;
  ret (response_of l).

End WithWorld.
End Main.

(** ** Worked requests *)

Module Examples.
Import Main.

(** No artefact on disk, no competitor feed, every variable unset; the
    catalogue knows one product, and its id hashes to an odd number. *)
Definition bare_world : World :=
  {| API_KEY := "";
     getenv_float := fun _ => None;
     getenv_str := fun _ => None;
     hash_even := fun _ => false;
     products_json := [("tomato"%string, {| entry_name := "Tomato"; entry_unitCost := 2.0 |})];
     dynamic_pricing_xgb_pkl := None;
     dynamic_pricing_dqn_pt := None;
     demand_forecasting_pkl := None;
     competitors_json := [];
     competitor_api := fun _ => None;
     utc_now := 738886;
     demand_uncertainty := 0.15 |}.

Definition tomato_request : PricingV1Request :=
  {| product_id := "tomato"; current_inventory := 100;
     quality_grade := "A"; time_to_expiry_hours := 72 |}.

(** The same request with a grade outside A, B, C. *)
Definition ungraded_request : PricingV1Request :=
  {| product_id := "tomato"; current_inventory := 100;
     quality_grade := "d"; time_to_expiry_hours := 72 |}.

(** A regressor on disk that predicts the price 1 for every row, and a
    product id that hashes to an even number. *)
Definition cheap_model_world : World :=
  {| API_KEY := "";
     getenv_float := fun _ => None;
     getenv_str := fun _ => None;
     hash_even := fun _ => true;
     products_json := [("tomato"%string, {| entry_name := "Tomato"; entry_unitCost := 2.0 |})];
     dynamic_pricing_xgb_pkl := Some (Ok (fun _ => Ok 1));
     dynamic_pricing_dqn_pt := None;
     demand_forecasting_pkl := None;
     competitors_json := [];
     competitor_api := fun _ => None;
     utc_now := 738886;
     demand_uncertainty := 0.15 |}.

End Examples.

(** ** Further worlds *)

Module More_examples.
Import Main.

(** [bare_world] with some of its fields replaced. *)
Definition world_with
    (api_key : string)
    (env : string -> option (outcome Q))
    (xgb : option (outcome XgbRegressor))
    (dqn : option (outcome QNetwork))
    (demand : option (outcome DemandModel))
    (feed : string -> option Q) : World :=
  {| API_KEY := api_key;
     getenv_float := env;
     getenv_str := fun _ => None;
     hash_even := fun _ => false;
     products_json := products_json Examples.bare_world;
     dynamic_pricing_xgb_pkl := xgb;
     dynamic_pricing_dqn_pt := dqn;
     demand_forecasting_pkl := demand;
     competitors_json := [];
     competitor_api := feed;
     utc_now := 738886;
     demand_uncertainty := 0.15 |}.

(** COMPETITOR_PRICE_FACTOR is set to something that is not a number. *)
Definition bad_factor_world : World :=
  world_with ""
    (fun name => if String.eqb name "COMPETITOR_PRICE_FACTOR"
                 then Some (Raise ValueError) else None)
    None None None (fun _ => None).

(** The service has an API key configured. *)
Definition locked_world : World :=
  world_with "secret" (fun _ => None) None None None (fun _ => None).

(** The demand model's file is there and cannot be unpickled. *)
Definition broken_forecast_world : World :=
  world_with "" (fun _ => None) None None (Some (Raise Exception)) (fun _ => None).

(** The clock stands at the last day of the year 9999. *)
Definition last_day_world : World :=
  {| API_KEY := "";
     getenv_float := fun _ => None;
     getenv_str := fun _ => None;
     hash_even := fun _ => false;
     products_json := products_json Examples.bare_world;
     dynamic_pricing_xgb_pkl := None;
     dynamic_pricing_dqn_pt := None;
     demand_forecasting_pkl := None;
     competitors_json := [];
     competitor_api := fun _ => None;
     utc_now := max_ordinal;
     demand_uncertainty := 0.15 |}.

(** A demand model that forecasts the quantities -3, 4, 5. *)
Definition forecasting_world : World :=
  world_with "" (fun _ => None) None None
    (Some (Ok (fun _ _ _ => Ok [-3; 4; 5]))) (fun _ => None).

(** No regressor, and a policy network that always prefers the last
    action. *)
Definition policy_world : World :=
  world_with "" (fun _ => None) None
    (Some (Ok (fun _ => Ok [0; 0; 0; 0; 1]))) None (fun _ => None).

(** A regressor that predicts 4.1 next to the same policy network. *)
Definition both_models_world : World :=
  world_with "" (fun _ => None)
    (Some (Ok (fun _ => Ok 4.1)))
    (Some (Ok (fun _ => Ok [0; 0; 0; 0; 1]))) None (fun _ => None).

(** A stock count that no float can hold. *)
Definition huge_request : PricingV1Request :=
  {| product_id := "tomato"; current_inventory := 2 ^ 1024;
     quality_grade := "A"; time_to_expiry_hours := 72 |}.

(** A request for a product the catalogue does not list. *)
Definition unlisted_request : PricingV1Request :=
  {| product_id := "durian"; current_inventory := 20;
     quality_grade := "B"; time_to_expiry_hours := 30 |}.

End More_examples.

(** ** ml/modules/dynamic_pricing/serve.py: the first pricing endpoint *)

Module Dynamic_pricing_serve.

(** [float(model.predict(X)[0])] of the persisted price model *)
Definition PriceModel : Type := list Q -> outcome Q.

Record Recommendation : Type := {
  recommended_price : Q;
  bucket : string
}.

Section WithConfig.
(** [PRICING_MAX_DISCOUNT] and [PRICING_AB_ENABLED] as read at import, and
    [ml/models/dynamic_pricing.pkl]: [None] when the file is missing, else
    what [joblib.load] does. *)
Variable MAX_DISCOUNT : Q.
Variable AB_ENABLED : bool.
Variable dynamic_pricing_pkl : option (outcome PriceModel).

(** The module's global [_model] is threaded through: a call takes its
    value and returns the new one beside the result. *)
Definition load_model (_model : option PriceModel)
  : outcome (option PriceModel) * option PriceModel :=
  match _model, dynamic_pricing_pkl with
  | None, Some (Ok m) => (Ok (Some m), Some m)
  | None, Some (Raise e) => (Raise e, None)
  | _, _ => (Ok _model, _model)
  end.

Definition recommend_price
    (base_price competitor_price demand_index : Q) (stock_level : Z) (ab_bucket : string)
    (_model : option PriceModel)
  : outcome Recommendation * option PriceModel :=
  match load_model _model with
  | (Raise e, _model) => (Raise e, _model)
  | (Ok model, _model) =>
      let predicted :=
        match model with
        | None =>
            let discount :=
              (0.05 + demand_index * 0.1) * (if (50 <? stock_level)%Z then 1 else 0.5) in
            Ok (Qmax 0.1 (base_price * (1 + demand_index) * (1 - discount)))
        | Some model =>
            let! stock := py_float stock_level in
            model [base_price; competitor_price; demand_index; stock]
        end in
      match predicted with
      | Raise e => (Raise e, _model)
      | Ok rec =>
          (* Clamp to respect max discount *)
          let min_price := Qmax 0.1 (base_price * (1 - MAX_DISCOUNT)) in
          let rec := Qmax rec min_price in
          (* A/B adjustment if enabled *)
          let rec :=
            if AB_ENABLED && String.eqb (upper ab_bucket) "B" then rec * 0.98 else rec in
          (Ok {| recommended_price := round2 rec; bucket := ab_bucket |}, _model)
      end
  end.

End WithConfig.
End Dynamic_pricing_serve.

(** ** ml/modules/demand_forecasting/serve.py: the uncertainty *)

Module Demand_uncertainty.

(** [_load_uncertainty].  [env_val] is [float(os.getenv("DEMAND_UNCERTAINTY"))]
    ([None] when the variable is unset); [meta] is what the [try] block on
    the meta file computes, [float(meta.get("uncertainty", 0.15))], or the
    exception it ends in ([None] when the file is missing). *)
Definition _load_uncertainty (env_val : option (outcome Q)) (meta : option (outcome Q)) : Q :=
  match env_val with
  | Some (Ok v) => v
  | _ =>
      match meta with
      | Some (Ok u) => Qmax 0.0 (Qmin 1.0 u)
      | _ => 0.15
      end
  end.

Definition get_uncertainty (env_val : option (outcome Q)) (meta : option (outcome Q)) : Q :=
  _load_uncertainty env_val meta.

End Demand_uncertainty.

(** ** ml/service/main.py: further handlers *)

Module Main_more.
Import Main.

(** [round(x, 3)] *)
Definition round3 (x : Q) : Q := round_half_even (x * 1000) # 1000.

(** [l[:n]] *)
Definition slice_to {A : Type} (l : list A) (n : Z) : list A :=
  if (0 <=? n)%Z then firstn (Z.to_nat n) l
  else firstn (Z.to_nat (Z.of_nat (List.length l) + n)) l.

(** [sum(xs)] of floats: from the integer 0, left to right *)
Definition py_sum (xs : list Q) : Q := fold_left Qplus xs 0.

(** [float(x or 0.0)] for an optional float *)
Definition or_zero (x : option Q) : Q :=
  match x with
  | Some v => if Qeq_bool v 0 then 0.0 else v
  | None => 0.0
  end.

(** *** POST /ml/pricing/optimize *)

Record PricingRequest : Type := {
  basePrice : Q;
  competitorPrice : Q;
  demandIndex : Q;
  stockLevel : Z;
  abBucket : option string
}.

Section Pricing.
Variable w : World.
Variable MAX_DISCOUNT : Q.
Variable AB_ENABLED : bool.
Variable dynamic_pricing_pkl : option (outcome Dynamic_pricing_serve.PriceModel).

(** The globals of the service and the [_model] of dynamic_pricing/serve.py
    side by side. *)
Definition pricing_optimize (req : PricingRequest) (x_api_key : string)
    (g : Globals) (_model : option Dynamic_pricing_serve.PriceModel)
  : outcome Dynamic_pricing_serve.Recommendation
    * (Globals * option Dynamic_pricing_serve.PriceModel) :=
  match require_api_key w x_api_key g with
  | (Raise e, g) => (Raise e, (g, _model))
  | (Ok _, g) =>
      let ab_bucket :=
        match abBucket req with
        | Some s => if String.eqb s "" then "A"%string else s
        | None => "A"%string
        end in
      let result :=
        Dynamic_pricing_serve.recommend_price MAX_DISCOUNT AB_ENABLED dynamic_pricing_pkl
          (basePrice req) (competitorPrice req) (demandIndex req) (stockLevel req)
          ab_bucket _model in
      (fst result, (g, snd result))
  end.

End Pricing.

(** *** POST /ml/demand-forecast *)

Record DemandForecastRequest : Type := {
  farmerId : string;
  productIds : list string;
  days : option Z;
  stockOnHand : option (list (string * Z));
  leadTimeDays : option Z;
  unitCosts : option (list (string * Q));
  budget : option Q
}.

Record ForecastItem : Type := {
  productId : string;
  productName : option string;
  predictions : list Demand_forecasting.Prediction;
  recommendedProcurement : Z;
  uncertainty : Q;
  unitCost : option Q;
  totalCost : option Q
}.

Record DemandForecastResponse : Type := {
  forecasts : list ForecastItem;
  response_totalCost : option Q;
  response_budget : option Q;
  budgetRemaining : option Q
}.

(** [x or default] for an optional integer *)
Definition int_or (x : option Z) (default : Z) : Z :=
  match x with
  | Some v => if (v =? 0)%Z then default else v
  | None => default
  end.

(** [d or {}] for an optional dict *)
Definition dict_or_empty {V : Type} (d : option (list (string * V))) : list (string * V) :=
  match d with
  | Some d => d
  | None => []
  end.

Section Forecast.
Variable w : World.
(** [PROCUREMENT_MIN] and [PROCUREMENT_MAX] as read at import *)
Variables (PROCUREMENT_MIN PROCUREMENT_MAX : Z).

(** lines 208-214: the quantity to procure for one product.  The sum of
    no quantities is the integer 0, from which the stock is subtracted as
    an integer; a sum of floats has the stock converted to a float. *)
Definition recommended_for (preds : list Demand_forecasting.Prediction)
    (lead_time stock : Z) : outcome Z :=
  let window := slice_to preds lead_time in
  let total_demand := py_sum (map Demand_forecasting.quantity window) in
  let! stock_as_operand :=
    match window with
    | [] => Ok (inject_Z stock)
    | _ :: _ => py_float stock
    end in
  let recommended := Z.max 0 (Qceiling (total_demand - stock_as_operand)) in
  let recommended :=
    if (0 <? PROCUREMENT_MIN)%Z then Z.max recommended PROCUREMENT_MIN else recommended in
  Ok (if (0 <? PROCUREMENT_MAX)%Z then Z.min recommended PROCUREMENT_MAX else recommended).

(** lines 207-238: the body of the loop over the product ids *)
Definition forecast_item (catalog : list (string * CatalogEntry))
    (stock_on_hand : list (string * Z)) (unit_costs : list (string * Q))
    (days lead_time : Z) (pid : string) : M ForecastItem :=
  preds <- Demand_forecasting.forecast_product w pid (Z.to_nat days) ;;
  let stock := dict_get stock_on_hand pid 0%Z in
  recommended <- lift (recommended_for preds lead_time stock) ;;
  (* Get unit cost from request or catalog *)
  let unit_cost :=
    match dict_lookup unit_costs pid with
    | Some unit_cost => unit_cost
    | None =>
        match dict_lookup catalog pid with
        | Some catalog_entry => entry_unitCost catalog_entry
        | None => 0.0
        end
    end in
  (* Get product name from catalog *)
  let product_name :=
    match dict_lookup catalog pid with
    | Some catalog_entry => Some (entry_name catalog_entry)
    | None => None
    end in
  item_total_cost <-
    lift (if Qgtb unit_cost 0
          then (let! quantity := py_float recommended in Ok (quantity * unit_cost))
          else Ok 0.0) ;;
  ret {| productId := pid;
         productName := product_name;
         predictions := preds;
         recommendedProcurement := recommended;
         uncertainty := demand_uncertainty w;
         unitCost := if Qgtb unit_cost 0 then Some unit_cost else None;
         totalCost := if Qgtb unit_cost 0 then Some item_total_cost else None |}.

Fixpoint forecast_items (catalog : list (string * CatalogEntry))
    (stock_on_hand : list (string * Z)) (unit_costs : list (string * Q))
    (days lead_time : Z) (pids : list string) (forecasts : list ForecastItem)
  : M (list ForecastItem) :=
  match pids with
  | [] => ret forecasts
  | pid :: pids' =>
      item <- forecast_item catalog stock_on_hand unit_costs days lead_time pid ;;
      forecast_items catalog stock_on_hand unit_costs days lead_time pids'
        (forecasts ++ [item])
  end.

(** [sum(float(item.get("totalCost") or 0.0) for item in forecasts)] *)
Definition total_cost_of (forecasts : list ForecastItem) : Q :=
  py_sum (map (fun item => or_zero (totalCost item)) forecasts).

(** lines 244-251: the body of the budget loop *)
Definition scale_item (scale : Q) (item : ForecastItem) : outcome ForecastItem :=
  let rec := recommendedProcurement item in
  let! quantity := py_float rec in
  let new_rec := Z.max 0 (Qfloor (quantity * scale)) in
  (* Apply max clamp (min clamp ignored when enforcing budget) *)
  let new_rec := if (0 <? PROCUREMENT_MAX)%Z then Z.min new_rec PROCUREMENT_MAX else new_rec in
  let unit_cost := or_zero (unitCost item) in
  let! total_cost :=
    if Qgtb unit_cost 0
    then (let! new_quantity := py_float new_rec in Ok (Some (new_quantity * unit_cost)))
    else Ok None in
  Ok {| productId := productId item;
        productName := productName item;
        predictions := predictions item;
        recommendedProcurement := new_rec;
        uncertainty := uncertainty item;
        unitCost := unitCost item;
        totalCost := total_cost |}.

(** lines 239-254: budget-aware scaling and the response.  Sums, products
    and the quotient [budget / total_cost] are exact here where the source
    rounds each to a double. *)
Definition apply_budget (budget : option Q) (forecasts : list ForecastItem)
  : outcome DemandForecastResponse :=
  let total_cost := total_cost_of forecasts in
  let! scaled :=
    match budget with
    | Some b =>
        if Qgtb total_cost 0 && Qgtb total_cost b then
          let! scale := py_div b total_cost in
          let! forecasts := traverse (scale_item scale) forecasts in
          Ok (forecasts, total_cost_of forecasts)
        else Ok (forecasts, total_cost)
    | None => Ok (forecasts, total_cost)
    end in
  let forecasts := fst scaled in
  let total_cost := snd scaled in
  let budget_remaining :=
    match budget with
    | Some b => Some (b - total_cost)
    | None => None
    end in
  Ok {| forecasts := forecasts;
        response_totalCost := if Qgtb total_cost 0 then Some total_cost else None;
        response_budget := budget;
        budgetRemaining := budget_remaining |}.

Definition demand_forecast (req : DemandForecastRequest) (x_api_key : string)
  : M DemandForecastResponse :=
  require_api_key w x_api_key ;;;
  let days := int_or (days req) 7 in
  let stock_on_hand := dict_or_empty (stockOnHand req) in
  let lead_time := int_or (leadTimeDays req) (Z.min 3 days) in
  catalog <- load_product_catalog w ;;
  let unit_costs := dict_or_empty (unitCosts req) in
  forecasts <- forecast_items catalog stock_on_hand unit_costs days lead_time
                 (productIds req) [] ;;
  lift (apply_budget (budget req) forecasts).

End Forecast.

(** *** POST /ml/farmer-score *)

Record FarmerScoreRequest : Type := {
  fs_farmerId : string;
  metrics : option (list (string * Q))
}.

Record FarmerScoreResponse : Type := {
  score : Q;
  breakdown : list (string * Q)
}.

Definition default_metrics : list (string * Q) :=
  [("on_time"%string, 0.8); ("quality"%string, 0.85); ("consistency"%string, 0.75)].

Definition weights : list (string * Q) :=
  [("on_time"%string, 0.3); ("quality"%string, 0.5); ("consistency"%string, 0.2)].

Definition farmer_score (w : World) (req : FarmerScoreRequest) (x_api_key : string)
  : M FarmerScoreResponse :=
  require_api_key w x_api_key ;;;
  let metrics :=
    match metrics req with
    | Some (kv :: m) => kv :: m
    | _ => default_metrics
    end in
  let score := py_sum (map (fun kw => dict_get metrics (fst kw) 0.0 * snd kw) weights) in
  ret {| score := round3 score; breakdown := metrics |}.

(** *** POST /ml/route-optimize *)

Record RouteWaypoint : Type := {
  wp_id : string;
  (** the string-valued entries of the address dict *)
  address : list (string * string);
  coordinates : list (string * Q)
}.

Record RouteLeg : Type := {
  startAddress : string;
  endAddress : string;
  distance : Z;
  duration : Z
}.

Record OptimizedRoute : Type := {
  route_id : string;
  route_waypoints : list RouteWaypoint;
  totalDistance : Z;
  totalDuration : Z;
  estimatedFuelCost : Q;
  legs : list RouteLeg
}.

(** lines 497-507: the loop, from waypoint [i] on, [previous] being
    [req.waypoints[i-1]] *)
Fixpoint route_loop (previous : RouteWaypoint) (rest : list RouteWaypoint)
    (acc : list RouteLeg * Z * Z) : list RouteLeg * Z * Z :=
  match rest with
  | [] => acc
  | wp :: rest' =>
      let '(legs, total_distance, total_duration) := acc in
      route_loop wp rest'
        (legs ++ [{| startAddress := dict_get (address previous) "street" ""%string;
                     endAddress := dict_get (address wp) "street" ""%string;
                     distance := 1000;
                     duration := 300 |}],
         (total_distance + 1000)%Z,
         (total_duration + 300)%Z)
  end.

(** [timestamp_id] is the string [f"route-{datetime.now(timezone.utc).timestamp()}"]. *)
Definition route_optimize (w : World) (timestamp_id : string)
    (waypoints : list RouteWaypoint) (x_api_key : string) : M OptimizedRoute :=
  require_api_key w x_api_key ;;;
  let '(legs, total_distance, total_duration) :=
    match waypoints with
    | [] => ([], 0%Z, 0%Z)
    | first :: rest => route_loop first rest ([], 0%Z, 0%Z)
    end in
  q <- lift (py_div (inject_Z total_distance) 1000) ;;
  ret {| route_id := timestamp_id;
         route_waypoints := waypoints;
         totalDistance := total_distance;
         totalDuration := total_duration;
         estimatedFuelCost := round2 (q * 0.2);
         legs := legs |}.

End Main_more.

(** ** Auxiliary definitions for the further handlers *)

Module Aux_more.
Import Main_more.

(** What every item the forecast handler builds satisfies: a quantity to
    procure within its bounds, and a total cost that is the quantity times
    the unit cost exactly when there is a positive unit cost. *)
Definition item_consistent (PROCUREMENT_MAX : Z) (item : ForecastItem) : Prop :=
  (0 <= recommendedProcurement item)%Z
  /\ ((0 < PROCUREMENT_MAX)%Z -> (recommendedProcurement item <= PROCUREMENT_MAX)%Z)
  /\ match unitCost item with
     | Some unit_cost =>
         0 < unit_cost
         /\ totalCost item = Some (inject_Z (recommendedProcurement item) * unit_cost)
     | None => totalCost item = None
     end.

(** A request of two products, one with a unit cost in the request. *)
Definition two_products : DemandForecastRequest :=
  {| farmerId := "f1";
     productIds := ["tomato"%string; "durian"%string];
     days := None;
     stockOnHand := Some [("tomato"%string, 5%Z)];
     leadTimeDays := None;
     unitCosts := Some [("durian"%string, 3.5)];
     budget := Some 40 |}.

End Aux_more.

(** ** The specification's own formulas *)

Module Spec.

(** The reward of a candidate price as the specification of the reward
    model writes it down. *)
Definition reward (competitorPrice basePrice expectedDemand inventory unitCost : Q)
    (expiryHours : Z) (price : Q) : Q :=
  let elasticity := 0.1 * (competitorPrice - price) / basePrice in
  let demandAdjusted := Qmax 0 (expectedDemand * (1 + elasticity)) in
  let sold := Qmin inventory demandAdjusted in
  let revenue := sold * price in
  let wastePenaltyFactor :=
    if (48 <? expiryHours)%Z then 0.2 else if (24 <? expiryHours)%Z then 0.5 else 0.8 in
  let wasteCost := Qmax 0 (inventory - sold) * unitCost * wastePenaltyFactor in
  let satisfactionBonus :=
    if Qltb (Qabs (price - competitorPrice) / basePrice) 0.03 then 0.05 * revenue else 0 in
  revenue - wasteCost + satisfactionBonus.

(** The price floor as the specification of the candidate generator
    writes it down. *)
Definition floor (basePrice unitCost minMarginFraction maxDiscountFraction : Q) : Q :=
  Qmax (Qmax (basePrice * (1 - maxDiscountFraction)) (unitCost * (1 + minMarginFraction))) 0.1.

End Spec.

(** ** Auxiliary definitions for the proofs *)

Module Aux.
Import Main.

(** The value [search_reward] returns when it returns. *)
Definition reward_value (competitor_price base_price expected_demand inventory unit_cost : Q)
    (expiry_hours : Z) (p : Q) : Q :=
  match search_reward competitor_price base_price expected_demand inventory unit_cost
          expiry_hours p with
  | Ok r => r
  | Raise _ => 0
  end.

(** The computation returns, whatever the globals are. *)
Definition returns {A : Type} (c : M A) : Prop :=
  forall g, exists a g', c g = (Ok a, g').

(** The regressor gives no price: its file is missing, or loading it
    raises, or its prediction raises. *)
Definition xgb_gives_nothing (w : World) : Prop :=
  match dynamic_pricing_xgb_pkl w with
  | None => True
  | Some (Raise _) => True
  | Some (Ok xgb) => forall feat, exists e, xgb feat = Raise e
  end.

(** The policy network gives no price, likewise. *)
Definition dqn_gives_nothing (w : World) : Prop :=
  match dynamic_pricing_dqn_pt w with
  | None => True
  | Some (Raise _) => True
  | Some (Ok dqn) => forall state, exists e, dqn state = Raise e
  end.

(** [n] forecast dates from [start] on all lie in the years 1 to 9999. *)
Definition dates_fit (start : Z) (n : nat) : Prop :=
  n = 0%nat \/ (1 <= start /\ start + Z.of_nat n - 1 <= max_ordinal)%Z.

Definition dates_fitb (start : Z) (n : nat) : bool :=
  (n =? 0)%nat || ((1 <=? start) && (start + Z.of_nat n - 1 <=? max_ordinal))%Z.

(** The row [forecast_product] builds for day [i] and quantity [q]. *)
Definition forecast_row (w : World) (i : nat) (q : Q) : Demand_forecasting.Prediction :=
  {| Demand_forecasting.date := (utc_now w + Z.of_nat i)%Z;
     Demand_forecasting.quantity := q;
     Demand_forecasting.quantityLow := Qmax 0.0 (q * (1.0 - demand_uncertainty w));
     Demand_forecasting.quantityHigh := q * (1.0 + demand_uncertainty w) |}.

(** What [forecast_product] does once [load_model] has returned. *)
Definition forecast_rows (w : World) (product_id : string) (days : nat)
    (model : option DemandModel) : outcome (list Demand_forecasting.Prediction) :=
  match model with
  | None =>
      if dates_fitb (utc_now w) days
      then Ok (map (fun d => forecast_row w d 10.0) (seq 0 days))
      else Raise OverflowError
  | Some model =>
      if dates_fitb (utc_now w) days
      then
        let! ps := model product_id (utc_now w) days in
        if dates_fitb (utc_now w) (List.length ps)
        then Ok (map (fun ip => forecast_row w (fst ip) (Qmax 0.0 (snd ip)))
                     (combine (seq 0 (List.length ps)) ps))
        else Raise OverflowError
      else Raise OverflowError
  end.

(** The regressor and the policy network a call works with: the cached one,
    or else the one its file gives. *)
Definition xgb_in_use (w : World) (g : Globals) : option XgbRegressor :=
  match _xgb_model g with
  | Some xgb => Some xgb
  | None => match dynamic_pricing_xgb_pkl w with Some (Ok xgb) => Some xgb | _ => None end
  end.

Definition dqn_in_use (w : World) (g : Globals) : option QNetwork :=
  match _dqn_state g with
  | Some dqn => Some dqn
  | None => match dynamic_pricing_dqn_pt w with Some (Ok dqn) => Some dqn | _ => None end
  end.

(** The regressor stage of [predict_with_models]: the feature row, built
    outside the [try], and the guarded prediction. *)
Definition xgb_stage (xgb : option XgbRegressor)
    (base_price competitor_price expected_demand : Q) (quality_grade : string)
    (inventory : Z) : outcome (option Q) :=
  match xgb with
  | None => Ok None
  | Some xgb =>
      let! inv := py_float inventory in
      match xgb [base_price; dict_get Serve_models.grade_map (upper quality_grade) 1;
                 inv; expected_demand; competitor_price] with
      | Ok pred => Ok (Some pred)
      | Raise _ => Ok None
      end
  end.

(** The guarded body of the policy stage. *)
Definition dqn_price (dqn : QNetwork)
    (base_price competitor_price expected_demand : Q) (quality_grade : string)
    (inventory expiry_hours : Z) : outcome Q :=
  let! inv := py_float inventory in
  let! ratio := Serve_models.competitor_ratio competitor_price base_price in
  let! expiry := py_float expiry_hours in
  let! qvals := dqn [inv; expected_demand; Serve_models.quality_of quality_grade;
                     ratio; expiry] in
  let! idx := Serve_models.argmax qvals in
  let! action := Serve_models.actions_at idx in
  Ok (base_price * (1.0 + action)).

Definition dqn_stage (dqn : option QNetwork)
    (base_price competitor_price expected_demand : Q) (quality_grade : string)
    (inventory expiry_hours : Z) : option Q :=
  match dqn with
  | None => None
  | Some dqn =>
      match dqn_price dqn base_price competitor_price expected_demand quality_grade
              inventory expiry_hours with
      | Ok p => Some p
      | Raise _ => None
      end
  end.

(** What a cache may become while the world stays as it is: it keeps its
    value, or it was empty and now holds what loading gives. *)
Definition filled {A : Type} (loadable : option A) (before after : option A) : Prop :=
  after = before \/ (before = None /\ exists v, loadable = Some v /\ after = Some v).

Definition loaded {A : Type} (file : option (outcome A)) : option A :=
  match file with
  | Some (Ok v) => Some v
  | _ => None
  end.

Definition extends (w : World) (g g' : Globals) : Prop :=
  filled (loaded (dynamic_pricing_xgb_pkl w)) (_xgb_model g) (_xgb_model g')
  /\ filled (loaded (dynamic_pricing_dqn_pt w)) (_dqn_state g) (_dqn_state g')
  /\ filled (loaded (demand_forecasting_pkl w)) (_model g) (_model g')
  /\ filled (Some (competitors_json w)) (_comp_cache g) (_comp_cache g')
  /\ filled (Some (products_json w)) (_catalog_cache g) (_catalog_cache g').

(** Running the computation only fills caches, and on any globals that
    extend the ones it leaves it gives the same result and writes nothing. *)
Definition stable {A : Type} (w : World) (c : M A) : Prop :=
  forall g r g1,
    c g = (r, g1) ->
    extends w g g1 /\ forall g2, extends w g1 g2 -> c g2 = (r, g2).

End Aux.

(** * Properties *)

Import Main.

(** ** Comparisons, division and lists *)

Lemma Qltb_true (a b : Q) : Qltb a b = true <-> a < b.
Proof.
  unfold Qltb. rewrite Qlt_alt. destruct (a ?= b); split; congruence.
Qed.

Lemma Qltb_false (a b : Q) : Qltb a b = false <-> b <= a.
Proof.
  split; intros H.
  - apply Qnot_lt_le. intros Hlt. apply Qltb_true in Hlt. congruence.
  - destruct (Qltb a b) eqn:E; [|reflexivity].
    apply Qltb_true in E. apply Qlt_not_le in E. contradiction.
Qed.

Lemma Qgtb_true (a b : Q) : Qgtb a b = true <-> b < a.
Proof. apply Qltb_true. Qed.

Lemma Qgtb_false (a b : Q) : Qgtb a b = false <-> a <= b.
Proof. apply Qltb_false. Qed.

Lemma Qltb_compat (a a' b b' : Q) : a == a' -> b == b' -> Qltb a b = Qltb a' b'.
Proof.
  intros Ha Hb. unfold Qltb. now rewrite Ha, Hb.
Qed.

Lemma py_div_nonzero (a b : Q) : ~ b == 0 -> py_div a b = Ok (a / b).
Proof.
  intros Hb. unfold py_div.
  destruct (Qeq_bool b 0) eqn:E; [|reflexivity].
  apply Qeq_bool_iff in E. contradiction.
Qed.

Lemma py_div_pos (a b : Q) : 0 < b -> py_div a b = Ok (a / b).
Proof.
  intros Hb. apply py_div_nonzero. intros E. rewrite E in Hb. discriminate.
Qed.

Lemma fold_left_Qmax_ge_init (l : list Q) (x : Q) : x <= fold_left Qmax l x.
Proof.
  revert x. induction l as [|y l IH]; intros x; simpl.
  - apply Qle_refl.
  - eapply Qle_trans; [apply Q.le_max_l | apply IH].
Qed.

Lemma fold_left_Qmax_lower (l : list Q) (x m : Q) :
  m <= x -> m <= fold_left Qmax l x.
Proof.
  intros H. eapply Qle_trans; [exact H | apply fold_left_Qmax_ge_init].
Qed.

(** ** Grades and the base price *)

Lemma markup_of_positive (grade : string) : 0 < markup_of grade.
Proof.
  unfold markup_of, dict_get, grade_markup_map, dict_lookup.
  repeat match goal with |- context [String.eqb ?a ?b] => destruct (String.eqb a b) end;
    reflexivity.
Qed.

Lemma base_price_of_positive (unit_cost markup min_margin : Q) :
  0 < markup -> 0 < base_price_of unit_cost markup min_margin.
Proof.
  intros Hm. unfold base_price_of.
  destruct (Qgtb unit_cost 0) eqn:E.
  - apply Qgtb_true in E.
    eapply Qlt_le_trans; [|apply Q.le_max_l].
    apply Qmult_lt_0_compat; assumption.
  - reflexivity.
Qed.

(** ** The candidate generator *)

(** For a unit cost that is not negative, the floor the handler computes
    has the value of the specification's formula. *)
Lemma min_allowed_price_of_spec (base_price unit_cost min_margin max_discount : Q) :
  0 <= unit_cost ->
  min_allowed_price_of base_price unit_cost min_margin max_discount
  == Spec.floor base_price unit_cost min_margin max_discount.
Proof.
  intros Hu. unfold min_allowed_price_of, Spec.floor.
  destruct (Qgtb unit_cost 0) eqn:E.
  - assert (H1 : base_price * (1.0 - max_discount) == base_price * (1 - max_discount)) by lra.
    assert (H2 : unit_cost * (1.0 + min_margin) == unit_cost * (1 + min_margin)) by lra.
    now rewrite H1, H2.
  - apply Qgtb_false in E.
    assert (H0 : unit_cost == 0) by lra.
    assert (H1 : base_price * (1.0 - max_discount) == base_price * (1 - max_discount)) by lra.
    assert (H2 : unit_cost * (1 + min_margin) == 0.0) by (rewrite H0; lra).
    now rewrite H1, H2.
Qed.

Lemma candidates_of_ge_floor (base_price min_allowed_price : Q) :
  Forall (fun p => min_allowed_price <= p) (candidates_of base_price min_allowed_price).
Proof.
  unfold candidates_of. rewrite Forall_map. rewrite Forall_map.
  apply Forall_forall. intros s _. apply Q.le_max_r.
Qed.

(** C5: the handler's candidate list has exactly five entries, the
    relative steps -0.10, -0.05, 0, +0.05, +0.10 applied to the base price
    in this order, each raised to the floor
    [max(basePrice*(1-maxDiscount), unitCost*(1+minMargin), 0.1)] when it
    is below it; every entry is at least the floor, and an entry that
    repeats an earlier one is kept. *)
Theorem candidates_five_steps_clamped :
  forall (base_price unit_cost min_margin max_discount : Q),
    0 <= unit_cost ->
    let floor := Spec.floor base_price unit_cost min_margin max_discount in
    let candidates :=
      candidates_of base_price
        (min_allowed_price_of base_price unit_cost min_margin max_discount) in
    List.length candidates = 5%nat
    /\ Forall2 Qeq candidates
         (map (fun step => Qmax (base_price * (1 + step)) floor)
              [-0.10; -0.05; 0.0; 0.05; 0.10])
    /\ Forall (fun p => floor <= p) candidates.
Proof.
  intros base_price unit_cost min_margin max_discount Hu floor candidates.
  pose proof (min_allowed_price_of_spec base_price unit_cost min_margin max_discount Hu)
    as Hfloor.
  fold floor in Hfloor.
  split; [reflexivity|].
  split.
  - subst candidates. unfold candidates_of, steps. simpl.
    repeat (apply Forall2_cons; [rewrite Hfloor; reflexivity|]).
    apply Forall2_nil.
  - subst candidates.
    eapply Forall_impl; [|apply candidates_of_ge_floor].
    intros p Hp. simpl in Hp. rewrite <- Hfloor. exact Hp.
Qed.

Lemma candidates_five_steps_clamped_witness :
  0 <= 2.0
  /\ List.length (candidates_of 4 (min_allowed_price_of 4 2.0 0.15 0.30)) = 5%nat.
Proof.
  split; [discriminate|].
  apply (candidates_five_steps_clamped 4 2.0 0.15 0.30). discriminate.
Defined.

(** ** The reward model *)

Lemma reward_elasticity_assoc (c p b : Q) :
  0 < b -> 0.1 * ((c - p) / b) == 0.1 * (c - p) / b.
Proof.
  intros Hb. field. intros E. rewrite E in Hb. discriminate.
Qed.

Lemma search_reward_spec (c b e inv uc : Q) (h : Z) (p : Q) :
  0 < b ->
  exists r, search_reward c b e inv uc h p = Ok r /\ r == Spec.reward c b e inv uc h p.
Proof.
  intros Hb. unfold search_reward. rewrite !py_div_pos by exact Hb.
  cbv beta iota zeta delta [obind].
  eexists. split; [reflexivity|].
  unfold Spec.reward.
  assert (Hd : Qmax 0.0 (e * (1.0 + 0.1 * ((c - p) / b)))
               == Qmax 0 (e * (1 + 0.1 * (c - p) / b))).
  { apply Q.max_compat; [reflexivity|].
    rewrite (reward_elasticity_assoc c p b Hb). lra. }
  assert (Hs : Qmin inv (Qmax 0.0 (e * (1.0 + 0.1 * ((c - p) / b))))
               == Qmin inv (Qmax 0 (e * (1 + 0.1 * (c - p) / b))))
    by (apply Q.min_compat; [reflexivity | exact Hd]).
  revert Hs.
  generalize (Qmin inv (Qmax 0.0 (e * (1.0 + 0.1 * ((c - p) / b))))).
  generalize (Qmin inv (Qmax 0 (e * (1 + 0.1 * (c - p) / b)))).
  intros sold' sold Hs.
  assert (Hl : Qmax 0.0 (inv - sold) == Qmax 0 (inv - sold'))
    by (apply Q.max_compat; [reflexivity | rewrite Hs; reflexivity]).
  revert Hl.
  generalize (Qmax 0.0 (inv - sold)). generalize (Qmax 0 (inv - sold')).
  intros leftover' leftover Hl.
  generalize (if (48 <? h)%Z then 0.2 else if (24 <? h)%Z then 0.5 else 0.8).
  intros wpf.
  destruct (Qltb (Qabs (p - c) / b) 0.03); rewrite Hs, Hl; ring.
Qed.

Lemma model_reward_search_reward (c b e inv uc : Q) (h : Z) (p : Q) :
  model_reward c b e inv uc h p = search_reward c b e inv uc h p.
Proof. reflexivity. Qed.

(** C2: for a positive base price, the reward of a price is computed, in
    the search loop and in the accounting of the model path alike, and has
    the value [revenue - wasteCost + satisfactionBonus] of the
    specification's reward formula. *)
Theorem reward_is_revenue_minus_waste_plus_bonus :
  forall (competitorPrice basePrice expectedDemand inventory unitCost : Q)
         (expiryHours : Z) (p : Q),
    0 < basePrice ->
    exists r_search r_model,
      search_reward competitorPrice basePrice expectedDemand inventory unitCost
        expiryHours p = Ok r_search
      /\ model_reward competitorPrice basePrice expectedDemand inventory unitCost
           expiryHours p = Ok r_model
      /\ r_search == Spec.reward competitorPrice basePrice expectedDemand inventory
                       unitCost expiryHours p
      /\ r_model == Spec.reward competitorPrice basePrice expectedDemand inventory
                      unitCost expiryHours p.
Proof.
  intros c b e inv uc h p Hb.
  destruct (search_reward_spec c b e inv uc h p Hb) as [r [Hr Heq]].
  exists r, r. repeat split; solve [exact Hr | exact Heq].
Qed.

Lemma reward_is_revenue_minus_waste_plus_bonus_witness :
  0 < 4 /\
  exists r_search r_model,
    search_reward 3.92 4 10 100 2 72 4.4 = Ok r_search
    /\ model_reward 3.92 4 10 100 2 72 4.4 = Ok r_model
    /\ r_search == Spec.reward 3.92 4 10 100 2 72 4.4
    /\ r_model == Spec.reward 3.92 4 10 100 2 72 4.4.
Proof.
  split; [reflexivity|].
  apply (reward_is_revenue_minus_waste_plus_bonus 3.92 4 10 100 2 72 4.4). reflexivity.
Defined.

(** ** The competitor adjustment *)

(** C7: the adjustment step, which both the model path and the search
    path run on the price they selected.  With a positive competitor
    price, [p/competitor > 1.05] and ([inventory > 30] or
    [expiry_hours <= 24]), the price becomes
    [max(min_allowed, min(max(candidates), p + 0.3*(competitor - p)))] and
    the decision is marked adjusted; else with a positive competitor price,
    [p/competitor < 0.95] and [inventory < 10] the same with 0.2; in every
    other case the price is returned as it is and nothing is marked. *)
Theorem competitor_adjustment_cases :
  forall (competitor_price inventory : Q) (expiry_hours : Z)
         (min_allowed_price : Q) (candidates : list Q) (max_cand p : Q),
    py_max_list candidates = Ok max_cand ->
    let urgent :=
      0 < competitor_price /\ 1.05 < p / competitor_price
      /\ (30 < inventory \/ (expiry_hours <= 24)%Z) in
    let scarce :=
      0 < competitor_price /\ p / competitor_price < 0.95 /\ inventory < 10 in
    let run :=
      competitor_adjustment competitor_price inventory expiry_hours
        min_allowed_price candidates p in
    (urgent ->
       run = Ok (Qmax min_allowed_price
                   (Qmin max_cand (p + 0.3 * (competitor_price - p))), true))
    /\ (~ urgent -> scarce ->
          run = Ok (Qmax min_allowed_price
                      (Qmin max_cand (p + 0.2 * (competitor_price - p))), true))
    /\ (~ urgent -> ~ scarce -> run = Ok (p, false)).
Proof.
  intros c inv h floor cands max_cand p Hmax urgent scarce run.
  subst run. unfold competitor_adjustment.
  destruct (Qgtb c 0) eqn:Ec.
  - apply Qgtb_true in Ec. rewrite (py_div_pos p c Ec).
    cbv beta iota zeta delta [obind]. rewrite Hmax.
    destruct (Qgtb (p / c) 1.05 && (Qgtb inv 30 || (h <=? 24)%Z)) eqn:E1.
    + apply andb_true_iff in E1. destruct E1 as [Er Eu].
      apply Qgtb_true in Er. apply orb_true_iff in Eu.
      assert (Hu : urgent).
      { split; [exact Ec|]. split; [exact Er|].
        destruct Eu as [Ei|Eh]; [left; now apply Qgtb_true | right; now apply Z.leb_le]. }
      repeat split; intros; solve [reflexivity | contradiction].
    + assert (Hu : ~ urgent).
      { intros [_ [Hr Hor]]. apply Qgtb_true in Hr. rewrite Hr in E1.
        destruct Hor as [Hi|Hh].
        - apply Qgtb_true in Hi. rewrite Hi in E1. discriminate.
        - apply Z.leb_le in Hh. rewrite Hh, orb_true_r in E1. discriminate. }
      destruct (Qltb (p / c) 0.95 && Qltb inv 10) eqn:E2.
      * apply andb_true_iff in E2. destruct E2 as [Er Ei].
        apply Qltb_true in Er. apply Qltb_true in Ei.
        assert (Hs : scarce) by (repeat split; assumption).
        repeat split; intros; solve [reflexivity | contradiction].
      * assert (Hs : ~ scarce).
        { intros [_ [Hr Hi]]. apply Qltb_true in Hr. apply Qltb_true in Hi.
          rewrite Hr, Hi in E2. discriminate. }
        repeat split; intros; solve [reflexivity | contradiction].
  - apply Qgtb_false in Ec.
    assert (Hu : ~ urgent) by (intros [Hc _]; apply Qlt_not_le in Hc; contradiction).
    assert (Hs : ~ scarce) by (intros [Hc _]; apply Qlt_not_le in Hc; contradiction).
    repeat split; intros; solve [reflexivity | contradiction].
Qed.

Lemma competitor_adjustment_cases_witness :
  py_max_list [3.6; 3.8; 4; 4.2; 4.4] = Ok 4.4
  /\ competitor_adjustment 3.92 100 72 2.8 [3.6; 3.8; 4; 4.2; 4.4] 4.4
     = Ok (Qmax 2.8 (Qmin 4.4 (4.4 + 0.3 * (3.92 - 4.4))), true).
Proof.
  split; [reflexivity|].
  apply (competitor_adjustment_cases 3.92 100 72 2.8 [3.6; 3.8; 4; 4.2; 4.4] 4.4 4.4).
  - reflexivity.
  - split; [reflexivity|]. split; [reflexivity|]. left. reflexivity.
Defined.

(** ** The exhaustive search *)

Section Search.
Variables (c b e inv uc : Q) (h : Z).
Hypothesis b_pos : 0 < b.

Let rv := Aux.reward_value c b e inv uc h.

Lemma search_reward_value (p : Q) : search_reward c b e inv uc h p = Ok (rv p).
Proof.
  subst rv. unfold Aux.reward_value.
  destruct (search_reward_spec c b e inv uc h p b_pos) as [r [Hr _]].
  now rewrite Hr.
Qed.

Lemma gt_x_trans (r r' : Q) (x : xfloat) :
  gt_x r x = true -> r < r' -> gt_x r' x = true.
Proof.
  destruct x as [|q]; simpl; [reflexivity|].
  intros H1 H2. apply Qgtb_true in H1. apply Qgtb_true.
  eapply Qlt_trans; eassumption.
Qed.

Lemma gt_x_false_lt (r r' : Q) (x : xfloat) :
  gt_x r x = false -> gt_x r' x = true -> r < r'.
Proof.
  destruct x as [|q]; simpl; [discriminate|].
  intros H1 H2. apply Qgtb_false in H1. apply Qgtb_true in H2.
  eapply Qle_lt_trans; eassumption.
Qed.

(** The loop either keeps the pair it started from, no candidate having
    beaten it, or ends on the first candidate of maximal reward. *)
Lemma search_loop_first_max (ps : list Q) :
  forall (best_reward : xfloat) (best_price : Q),
    (search_loop c b e inv uc h ps best_reward best_price = Ok (best_reward, best_price)
     /\ Forall (fun q => gt_x (rv q) best_reward = false) ps)
    \/ (exists pre x post,
          ps = pre ++ x :: post
          /\ search_loop c b e inv uc h ps best_reward best_price = Ok (Fin (rv x), x)
          /\ gt_x (rv x) best_reward = true
          /\ Forall (fun q => rv q < rv x) pre
          /\ Forall (fun q => rv q <= rv x) post).
Proof.
  induction ps as [|p ps IH]; intros br bp.
  - left. split; [reflexivity | constructor].
  - cbn [search_loop]. rewrite search_reward_value. cbn [obind].
    destruct (gt_x (rv p) br) eqn:Egt.
    + destruct (IH (Fin (rv p)) p) as [[Hrun Hall] | (pre & x & post & Hps & Hrun & Hx & Hpre & Hpost)].
      * right. exists [], p, ps. repeat split; try assumption; try constructor.
        eapply Forall_impl; [|exact Hall].
        intros q Hq. simpl in Hq. now apply Qgtb_false in Hq.
      * right. exists (p :: pre), x, post. subst ps.
        simpl in Hx. apply Qgtb_true in Hx.
        repeat split; try assumption.
        -- eapply gt_x_trans; eassumption.
        -- constructor; assumption.
    + destruct (IH br bp) as [[Hrun Hall] | (pre & x & post & Hps & Hrun & Hx & Hpre & Hpost)].
      * left. split; [assumption | constructor; assumption].
      * right. exists (p :: pre), x, post. subst ps.
        repeat split; try assumption.
        constructor; [|assumption].
        eapply gt_x_false_lt; eassumption.
Qed.

End Search.

(** C4: when no model gives a price the handler runs the search, which
    evaluates the candidates in list order and returns the first one whose
    reward is maximal: every earlier candidate has a strictly smaller
    reward, every later one a reward that is not greater, so a later
    candidate of equal reward does not replace it. *)
Theorem exhaustive_search_first_maximal :
  forall (competitor_price base_price expected_demand inventory unit_cost : Q)
         (expiry_hours : Z) (min_allowed_price : Q) (candidates : list Q),
    0 < base_price ->
    candidates <> [] ->
    let reward_of :=
      search_reward competitor_price base_price expected_demand inventory unit_cost
        expiry_hours in
    exists earlier best later best_reward,
      candidates = earlier ++ best :: later
      /\ reward_of best = Ok best_reward
      /\ exhaustive_search competitor_price base_price expected_demand inventory
           unit_cost expiry_hours candidates = Ok (Fin best_reward, best)
      /\ Forall (fun q => exists r, reward_of q = Ok r /\ r < best_reward) earlier
      /\ Forall (fun q => exists r, reward_of q = Ok r /\ r <= best_reward) later
      /\ choose_price competitor_price base_price expected_demand inventory unit_cost
           expiry_hours min_allowed_price candidates None
         = (let! adjusted :=
              competitor_adjustment competitor_price inventory expiry_hours
                min_allowed_price candidates best in
            Ok (fst adjusted, Fin best_reward, snd adjusted, false)).
Proof.
  intros c b e inv uc h floor cands Hb Hne reward_of.
  destruct cands as [|p0 ps]; [contradiction|].
  destruct (search_loop_first_max c b e inv uc h Hb (p0 :: ps) NegInf p0)
    as [[_ Hall] | (pre & x & post & Hps & Hrun & _ & Hpre & Hpost)].
  - inversion Hall; subst. discriminate.
  - exists pre, x, post, (Aux.reward_value c b e inv uc h x).
    assert (Hsearch : exhaustive_search c b e inv uc h (p0 :: ps)
                      = Ok (Fin (Aux.reward_value c b e inv uc h x), x))
      by exact Hrun.
    split; [exact Hps|].
    split; [apply search_reward_value; exact Hb|].
    split; [exact Hsearch|].
    split.
    { eapply Forall_impl; [|exact Hpre]. intros q Hq.
      exists (Aux.reward_value c b e inv uc h q).
      split; [apply search_reward_value; exact Hb | exact Hq]. }
    split.
    { eapply Forall_impl; [|exact Hpost]. intros q Hq.
      exists (Aux.reward_value c b e inv uc h q).
      split; [apply search_reward_value; exact Hb | exact Hq]. }
    unfold choose_price. rewrite Hsearch. reflexivity.
Qed.

Lemma exhaustive_search_first_maximal_witness :
  exists earlier best later best_reward,
    [1; 1; 1.1] = earlier ++ best :: later
    /\ search_reward 1 1 10 5 0 72 best = Ok best_reward
    /\ exhaustive_search 1 1 10 5 0 72 [1; 1; 1.1] = Ok (Fin best_reward, best)
    /\ Forall (fun q => exists r, search_reward 1 1 10 5 0 72 q = Ok r /\ r < best_reward)
         earlier
    /\ Forall (fun q => exists r, search_reward 1 1 10 5 0 72 q = Ok r /\ r <= best_reward)
         later
    /\ choose_price 1 1 10 5 0 72 0.7 [1; 1; 1.1] None
       = (let! adjusted := competitor_adjustment 1 5 72 0.7 [1; 1; 1.1] best in
          Ok (fst adjusted, Fin best_reward, snd adjusted, false)).
Proof.
  apply (exhaustive_search_first_maximal 1 1 10 5 0 72 0.7 [1; 1; 1.1]).
  - reflexivity.
  - discriminate.
Defined.

(** ** Offline and online reward *)

(** The demand the elasticity leaves is not negative as long as the price
    stays within ten base prices of the competitor's. *)
Lemma elastic_demand_nonneg (base competitor_price price expected : Q) :
  0 < base -> 0 <= expected ->
  price <= competitor_price + 10 * base ->
  0 <= expected * (1.0 + 0.1 * ((competitor_price - price) / base)).
Proof.
  intros Hb He Hp.
  apply Qmult_le_0_compat; [exact He|].
  assert (Hq : -10 <= (competitor_price - price) / base).
  { apply Qle_shift_div_l; [exact Hb | lra]. }
  lra.
Qed.

(** A float is above a whole threshold exactly when the whole hours that
    stand for it are. *)
Lemma Qgtb_whole_hours (x : Q) (n h : Z) :
  (inject_Z n < x <-> (n < h)%Z) -> Qgtb x (inject_Z n) = (n <? h)%Z.
Proof.
  intros H. destruct (n <? h)%Z eqn:E.
  - apply Qgtb_true, H. now apply Z.ltb_lt.
  - apply Qgtb_false. apply Z.ltb_ge in E.
    apply Qnot_lt_le. intros Hlt. apply H in Hlt. lia.
Qed.

(** Rounding a float up to whole hours keeps it on its side of every whole
    threshold. *)
Lemma ceiling_hours_correspond (x : Q) (n : Z) :
  inject_Z n < x <-> (n < Qceiling x)%Z.
Proof.
  split.
  - intros H. apply Z.lt_nge. intros Hle.
    rewrite Zle_Qle in Hle. pose proof (Qle_ceiling x) as Hc.
    apply (Qlt_irrefl x). eapply Qle_lt_trans; [exact Hc|].
    eapply Qle_lt_trans; [exact Hle | exact H].
  - intros H. apply Qnot_le_lt. intros Hle.
    apply Qceiling_resp_le in Hle. rewrite Qceiling_Z in Hle. lia.
Qed.

(** The reward of a simulated training step and the reward of the online
    search agree on corresponding inputs whenever the price charged is at
    most the competitor price plus ten base prices.  Every input drawn by
    the training loop satisfies this: there the base price is the unit cost
    times 2.0, 1.6 or 1.3, the action is at most 0.10 and the competitor
    ratio at least 0.9.  The state's expiry is a float, the handler's a
    whole number of hours: they correspond when they lie on the same side
    of the thresholds 48 and 24, as the expiry and itself rounded up always
    do. *)
Theorem offline_reward_agrees_within_range :
  forall (inv demand quality competitor expiry_h : Q) (expiry_hours : Z)
         (action base_price unit_cost : Q),
    0 < base_price ->
    (48 < expiry_h <-> (48 < expiry_hours)%Z) ->
    (24 < expiry_h <-> (24 < expiry_hours)%Z) ->
    let price := Train_dqn.step_price action base_price unit_cost in
    (price <= base_price * competitor + 10 * base_price ->
     exists r_offline r_online,
       Train_dqn.step_reward (inv, demand, quality, competitor, expiry_h)
         action base_price unit_cost = Ok r_offline
       /\ search_reward (base_price * competitor) base_price
            (expected_demand_of demand quality (expiry_factor_of expiry_hours))
            inv unit_cost expiry_hours price = Ok r_online
       /\ r_offline == r_online)
    /\ (1.3 * unit_cost <= base_price -> action <= 0.10 -> 0.9 <= competitor ->
        price <= base_price * competitor + 10 * base_price).
Proof.
  intros inv demand quality competitor eh h action b uc Hb H48 H24 price.
  split.
  - intros Hrange. subst price.
    unfold Train_dqn.step_reward, search_reward.
    rewrite !py_div_pos by exact Hb.
    cbv beta iota zeta delta [obind].
    do 2 eexists. split; [reflexivity|]. split; [reflexivity|].
    change 48 with (inject_Z 48) in H48 |- *. change 24 with (inject_Z 24) in H24 |- *.
    rewrite !(Qgtb_whole_hours eh 48 h H48), !(Qgtb_whole_hours eh 24 h H24).
    unfold expected_demand_of, expiry_factor_of.
    set (price := Train_dqn.step_price action b uc) in *.
    set (expected := Qmax 0.0 (demand * quality *
           (if (48 <? h)%Z then 1.0 else if (24 <? h)%Z then 0.7 else 0.5))).
    assert (He : 0 <= expected)
      by (eapply Qle_trans; [|apply Q.le_max_l]; discriminate).
    pose proof (elastic_demand_nonneg b (b * competitor) price expected Hb He Hrange) as Hd.
    assert (Hs : Qmin inv (expected * (1.0 + 0.1 * ((b * competitor - price) / b)))
                 == Qmin inv (Qmax 0.0
                                (expected * (1.0 + 0.1 * ((b * competitor - price) / b))))).
    { apply Q.min_compat; [reflexivity|]. symmetry. apply Q.max_r.
      eapply Qle_trans; [|exact Hd]. discriminate. }
    revert Hs.
    generalize (Qmin inv (expected * (1.0 + 0.1 * ((b * competitor - price) / b)))).
    generalize (Qmin inv (Qmax 0.0
                            (expected * (1.0 + 0.1 * ((b * competitor - price) / b))))).
    intros sold_on sold_off Hs.
    assert (Hl : Qmax 0.0 (inv - sold_off) == Qmax 0.0 (inv - sold_on))
      by (apply Q.max_compat; [reflexivity | rewrite Hs; reflexivity]).
    revert Hl.
    generalize (Qmax 0.0 (inv - sold_off)). generalize (Qmax 0.0 (inv - sold_on)).
    intros leftover_on leftover_off Hl.
    generalize (if (48 <? h)%Z then 0.2 else if (24 <? h)%Z then 0.5 else 0.8).
    intros wpf.
    destruct (Qltb (Qabs (price - b * competitor) / b) 0.03); rewrite Hs, Hl; ring.
  - intros Hu Ha Hc. subst price.
    assert (H1 : b * (1 + action) <= b * 1.1).
    { rewrite !(Qmult_comm b). apply Qmult_le_compat_r; lra. }
    assert (H2 : b * 0.9 <= b * competitor).
    { rewrite !(Qmult_comm b). apply Qmult_le_compat_r; lra. }
    unfold Train_dqn.step_price.
    repeat apply Q.max_lub; lra.
Qed.

Lemma offline_reward_agrees_within_range_witness :
  0 < 4
  /\ Train_dqn.step_price 0.05 4 2 <= 4 * 0.98 + 10 * 4
  /\ exists r_offline r_online,
       Train_dqn.step_reward (100, 10, 1, 0.98, 48.5) 0.05 4 2 = Ok r_offline
       /\ search_reward (4 * 0.98) 4 (expected_demand_of 10 1 (expiry_factor_of 49))
            100 2 49 (Train_dqn.step_price 0.05 4 2) = Ok r_online
       /\ r_offline == r_online.
Proof.
  split; [reflexivity|].
  destruct (offline_reward_agrees_within_range 100 10 1 0.98 48.5 49 0.05 4 2)
    as [Hagree Hrange].
  - reflexivity.
  - split; intros _; reflexivity.
  - split; intros _; reflexivity.
  - assert (H : Train_dqn.step_price 0.05 4 2 <= 4 * 0.98 + 10 * 4).
    { apply Hrange; vm_compute; discriminate. }
    split; [exact H | exact (Hagree H)].
Defined.


(** ** Running computations *)

Lemma bind_Ok_inv {A B : Type} (c : M A) (k : A -> M B) (g g' : Globals) (b : B) :
  bind c k g = (Ok b, g') ->
  exists a g1, c g = (Ok a, g1) /\ k a g1 = (Ok b, g').
Proof.
  unfold bind. destruct (c g) as [[a|e] g1]; intros H.
  - exists a, g1. split; [reflexivity | exact H].
  - discriminate.
Qed.

Lemma lift_Ok_inv {A : Type} (o : outcome A) (g g' : Globals) (a : A) :
  lift o g = (Ok a, g') -> o = Ok a /\ g' = g.
Proof. unfold lift. intros H. inversion H. split; reflexivity. Qed.

Lemma ret_Ok_inv {A : Type} (a b : A) (g g' : Globals) :
  ret a g = (Ok b, g') -> b = a /\ g' = g.
Proof. unfold ret. intros H. inversion H. split; reflexivity. Qed.

(** ** The floor of the chosen price *)

Lemma rounding_step (x : Q) :
  x - (1 # 2) <= inject_Z (round_half_even x) <= x + (1 # 2).
Proof.
  unfold round_half_even.
  pose proof (Qfloor_le x) as Hlo. pose proof (Qlt_floor x) as Hhi.
  rewrite inject_Z_plus in Hhi. change (inject_Z 1) with 1 in Hhi.
  destruct (Qcompare (x - inject_Z (Qfloor x)) (1 # 2)) eqn:E.
  - apply Qeq_alt in E.
    destruct (Z.even (Qfloor x)); [|rewrite inject_Z_plus; change (inject_Z 1) with 1];
      split; lra.
  - apply Qlt_alt in E. split; lra.
  - apply Qgt_alt in E. rewrite inject_Z_plus. change (inject_Z 1) with 1. split; lra.
Qed.

Lemma round2_near (x : Q) : x - (1 # 200) <= round2 x <= x + (1 # 200).
Proof.
  unfold round2.
  pose proof (rounding_step (x * 100)) as H.
  assert (E : round_half_even (x * 100) # 100
              == inject_Z (round_half_even (x * 100)) / 100).
  { rewrite (Qmake_Qdiv (round_half_even (x * 100)) 100). reflexivity. }
  rewrite E.
  set (n := inject_Z (round_half_even (x * 100))) in *.
  assert (En : n / 100 == n * (1 # 100)) by (field; discriminate).
  rewrite En. split; lra.
Qed.

Lemma py_max_list_ge_floor (floor : Q) (ps : list Q) (m : Q) :
  Forall (fun p => floor <= p) ps -> py_max_list ps = Ok m -> floor <= m.
Proof.
  intros Hall Hm. destruct ps as [|x xs]; [discriminate|].
  inversion Hm; subst. inversion Hall; subst.
  now apply fold_left_Qmax_lower.
Qed.

Lemma competitor_adjustment_ge_floor
    (c inv : Q) (h : Z) (floor : Q) (cands : list Q) (p p' : Q) (adj : bool) :
  floor <= p ->
  competitor_adjustment c inv h floor cands p = Ok (p', adj) ->
  floor <= p'.
Proof.
  intros Hp. unfold competitor_adjustment.
  destruct (Qgtb c 0); [|intros H; inversion H; subst; exact Hp].
  destruct (py_div p c) as [ratio|]; [|discriminate]. cbn [obind].
  destruct (Qgtb ratio 1.05 && (Qgtb inv 30 || (h <=? 24)%Z)).
  - destruct (py_max_list cands); [|discriminate]. cbn [obind].
    intros H; inversion H; subst. apply Q.le_max_l.
  - destruct (Qltb ratio 0.95 && Qltb inv 10).
    + destruct (py_max_list cands); [|discriminate]. cbn [obind].
      intros H; inversion H; subst. apply Q.le_max_l.
    + intros H; inversion H; subst. exact Hp.
Qed.

Lemma search_loop_member (c b e inv uc : Q) (h : Z) (ps : list Q) :
  forall (br br' : xfloat) (bp bp' : Q),
    search_loop c b e inv uc h ps br bp = Ok (br', bp') ->
    bp' = bp \/ In bp' ps.
Proof.
  induction ps as [|p ps IH]; intros br br' bp bp' H.
  - inversion H. now left.
  - cbn [search_loop] in H.
    destruct (search_reward c b e inv uc h p) as [r|]; [|discriminate].
    cbn [obind] in H. destruct (gt_x r br).
    + apply IH in H. destruct H as [H|H]; [subst; right; now left | right; now right].
    + apply IH in H. destruct H as [H|H]; [now left | right; now right].
Qed.

Lemma exhaustive_search_member (c b e inv uc : Q) (h : Z) (cands : list Q)
    (br : xfloat) (bp : Q) :
  exhaustive_search c b e inv uc h cands = Ok (br, bp) -> In bp cands.
Proof.
  unfold exhaustive_search. destruct cands as [|p0 ps]; [discriminate|].
  cbn [py_head obind]. intros H. apply search_loop_member in H.
  destruct H as [H|H]; [subst; now left | exact H].
Qed.

Lemma choose_price_ge_floor
    (c b e inv uc : Q) (h : Z) (floor : Q) (cands : list Q) (model_price : option Q)
    (bp : Q) (br : xfloat) (adj used : bool) :
  Forall (fun p => floor <= p) cands ->
  choose_price c b e inv uc h floor cands model_price = Ok (bp, br, adj, used) ->
  floor <= bp.
Proof.
  intros Hall. unfold choose_price. destruct model_price as [mp|].
  - destruct (match cands with [] => Ok (Qmax mp floor) | _ :: _ => py_max_list cands end)
      as [max_cand|] eqn:Emax; [|discriminate].
    cbn [obind].
    assert (Hmc : floor <= max_cand).
    { destruct cands as [|x xs].
      - inversion Emax; subst. apply Q.le_max_r.
      - eapply py_max_list_ge_floor; eassumption. }
    destruct (competitor_adjustment c inv h floor cands (Qmin max_cand (Qmax mp floor)))
      as [[p' a']|] eqn:Eadj; [|discriminate].
    cbn [obind fst snd].
    destruct (model_reward c b e inv uc h p'); [|discriminate].
    cbn [obind]. intros H; inversion H; subst.
    eapply competitor_adjustment_ge_floor; [|exact Eadj].
    apply Q.min_glb; [exact Hmc | apply Q.le_max_r].
  - destruct (exhaustive_search c b e inv uc h cands) as [[br0 bp0]|] eqn:Es; [|discriminate].
    cbn [obind fst snd].
    destruct (competitor_adjustment c inv h floor cands bp0) as [[p' a']|] eqn:Eadj;
      [|discriminate].
    cbn [obind fst snd]. intros H; inversion H; subst.
    eapply competitor_adjustment_ge_floor; [|exact Eadj].
    apply exhaustive_search_member in Es.
    rewrite Forall_forall in Hall. now apply Hall.
Qed.

(** ** Conversions to float, dates, and list comprehensions *)

Lemma py_float_Ok (n : Z) (v : Q) :
  py_float n = Ok v -> v = inject_Z n /\ (Z.abs n < float_limit)%Z.
Proof.
  unfold py_float. destruct (Z.abs n <? float_limit)%Z eqn:E; [|discriminate].
  intros H. inversion H. split; [reflexivity | now apply Z.ltb_lt].
Qed.

Lemma py_float_in_range (n : Z) :
  (Z.abs n < float_limit)%Z -> py_float n = Ok (inject_Z n).
Proof. intros H. unfold py_float. apply Z.ltb_lt in H. now rewrite H. Qed.

Lemma py_float_Raise (n : Z) (e : exn) :
  py_float n = Raise e -> e = OverflowError /\ (float_limit <= Z.abs n)%Z.
Proof.
  unfold py_float. destruct (Z.abs n <? float_limit)%Z eqn:E; [discriminate|].
  intros H. inversion H. split; [reflexivity | now apply Z.ltb_ge].
Qed.

Lemma traverse_Ok_inv {A B : Type} (f : A -> outcome B) (l : list A) :
  forall ys, traverse f l = Ok ys -> Forall2 (fun x y => f x = Ok y) l ys.
Proof.
  induction l as [|x l IH]; intros ys H; cbn in H.
  - inversion H. constructor.
  - destruct (f x) as [y|] eqn:Ex; [|discriminate].
    destruct (traverse f l) as [ys'|]; [|discriminate].
    inversion H. constructor; [exact Ex | now apply IH].
Qed.

Lemma traverse_Ok_In {A B : Type} (f : A -> outcome B) (l : list A) (ys : list B) (x : A) :
  traverse f l = Ok ys -> In x l -> exists y, f x = Ok y.
Proof.
  intros H Hx. apply traverse_Ok_inv in H.
  induction H as [|x0 y0 l0 ys0 H0 _ IH]; [contradiction|].
  destruct Hx as [<- | Hx]; [eauto | now apply IH].
Qed.

Lemma traverse_Raise_inv {A B : Type} (f : A -> outcome B) (l : list A) (e : exn) :
  traverse f l = Raise e -> exists x, In x l /\ f x = Raise e.
Proof.
  induction l as [|x l IH]; intros H; cbn in H; [discriminate|].
  destruct (f x) as [y|e'] eqn:Ex.
  - destruct (traverse f l) as [ys'|e'']; [discriminate|].
    inversion H; subst. destruct (IH eq_refl) as (x' & Hin & Hx').
    exists x'. split; [now right | exact Hx'].
  - inversion H; subst. exists x. split; [now left | exact Ex].
Qed.

Lemma traverse_ext {A B : Type} (f f' : A -> outcome B) (l : list A) :
  (forall x, f x = f' x) -> traverse f l = traverse f' l.
Proof.
  intros H. induction l as [|x l IH]; [reflexivity|].
  cbn. now rewrite H, IH.
Qed.

Lemma traverse_map {A B : Type} (f : A -> outcome B) (h : A -> B) (l : list A) :
  (forall x, In x l -> f x = Ok (h x)) -> traverse f l = Ok (map h l).
Proof.
  induction l as [|x l IH]; intros H; [reflexivity|].
  cbn. rewrite (H x (or_introl eq_refl)), IH; [reflexivity|].
  intros x' Hx'. apply H. now right.
Qed.

Lemma dates_fitb_true (start : Z) (n : nat) :
  Aux.dates_fitb start n = true <-> Aux.dates_fit start n.
Proof.
  unfold Aux.dates_fitb, Aux.dates_fit.
  rewrite orb_true_iff, andb_true_iff, Nat.eqb_eq, !Z.leb_le. reflexivity.
Qed.

Lemma dates_fitb_false (start : Z) (n : nat) :
  Aux.dates_fitb start n = false <-> ~ Aux.dates_fit start n.
Proof.
  rewrite <- dates_fitb_true. destruct (Aux.dates_fitb start n); split; congruence.
Qed.

Lemma add_days_Ok (start d v : Z) : add_days start d = Ok v -> v = (start + d)%Z.
Proof.
  unfold add_days.
  destruct ((Z.abs d <=? 999999999) && (1 <=? start + d) && (start + d <=? max_ordinal))%Z;
    [|discriminate].
  intros H. now inversion H.
Qed.

Lemma add_days_Raise (start d : Z) (e : exn) : add_days start d = Raise e -> e = OverflowError.
Proof.
  unfold add_days.
  destruct ((Z.abs d <=? 999999999) && (1 <=? start + d) && (start + d <=? max_ordinal))%Z;
    [discriminate|].
  intros H. now inversion H.
Qed.

Lemma add_days_fit (start : Z) (n i : nat) :
  Aux.dates_fit start n -> (i < n)%nat ->
  add_days start (Z.of_nat i) = Ok (start + Z.of_nat i)%Z.
Proof.
  intros [-> | [H1 H2]] Hi; [lia|].
  unfold add_days, max_ordinal in *.
  assert (E1 : (Z.abs (Z.of_nat i) <=? 999999999)%Z = true) by (apply Z.leb_le; lia).
  assert (E2 : (1 <=? start + Z.of_nat i)%Z = true) by (apply Z.leb_le; lia).
  assert (E3 : (start + Z.of_nat i <=? 3652059)%Z = true) by (apply Z.leb_le; lia).
  rewrite E1, E2, E3. reflexivity.
Qed.

(** A comprehension over [range(n)] that adds each index to the start date
    returns when the dates fit, and raises [OverflowError] when they do
    not. *)
Lemma traverse_dates {A B : Type} (start : Z) (n : nat) (l : list A) (ix : A -> nat)
    (k : A -> Z -> B) :
  map ix l = seq 0 n ->
  traverse (fun x => let! day := add_days start (Z.of_nat (ix x)) in Ok (k x day)) l
  = if Aux.dates_fitb start n
    then Ok (map (fun x => k x (start + Z.of_nat (ix x))%Z) l)
    else Raise OverflowError.
Proof.
  intros Hix.
  destruct (Aux.dates_fitb start n) eqn:Efit.
  - apply dates_fitb_true in Efit.
    apply traverse_map. intros x Hx.
    assert (Hi : (ix x < n)%nat).
    { apply (in_map ix) in Hx. rewrite Hix in Hx. apply in_seq in Hx. lia. }
    rewrite (add_days_fit start n (ix x) Efit Hi). reflexivity.
  - apply dates_fitb_false in Efit.
    destruct (traverse _ l) as [ys|e] eqn:Et.
    + exfalso. apply Efit.
      destruct n as [|n]; [now left | right].
      assert (Hall : forall i, (i < S n)%nat ->
                exists v, add_days start (Z.of_nat i) = Ok v).
      { intros i Hi.
        assert (Hin : In i (map ix l)) by (rewrite Hix; apply in_seq; lia).
        apply in_map_iff in Hin. destruct Hin as (x & <- & Hx).
        destruct (traverse_Ok_In _ _ _ x Et Hx) as (y & Hy).
        destruct (add_days start (Z.of_nat (ix x))) as [v|]; [eauto | discriminate]. }
      destruct (Hall 0%nat ltac:(lia)) as [v0 H0].
      destruct (Hall n ltac:(lia)) as [vn Hn].
      unfold add_days, max_ordinal in *.
      destruct ((Z.abs (Z.of_nat 0) <=? 999999999) && (1 <=? start + Z.of_nat 0)
                && (start + Z.of_nat 0 <=? 3652059))%Z eqn:E0; [|discriminate].
      destruct ((Z.abs (Z.of_nat n) <=? 999999999) && (1 <=? start + Z.of_nat n)
                && (start + Z.of_nat n <=? 3652059))%Z eqn:En; [|discriminate].
      rewrite !andb_true_iff, !Z.leb_le in E0, En. lia.
    + apply traverse_Raise_inv in Et. destruct Et as (x & _ & Hx).
      destruct (add_days start (Z.of_nat (ix x))) as [v|e'] eqn:Ea; [discriminate|].
      apply add_days_Raise in Ea. cbn in Hx. inversion Hx; subst. reflexivity.
Qed.

Lemma map_fst_combine_seq {A : Type} (ps : list A) (s : nat) :
  map fst (combine (seq s (List.length ps)) ps) = seq s (List.length ps).
Proof.
  revert s. induction ps as [|p ps IH]; intros s; [reflexivity|].
  cbn. f_equal. apply IH.
Qed.

(** [forecast_product] is [load_model] followed by the rows. *)
Lemma forecast_product_rows (w : World) (product_id : string) (days : nat) (g : Globals) :
  Demand_forecasting.forecast_product w product_id days g
  = bind (Demand_forecasting.load_model w)
      (fun model => lift (Aux.forecast_rows w product_id days model)) g.
Proof.
  unfold Demand_forecasting.forecast_product, bind.
  destruct (Demand_forecasting.load_model w g) as [[[model|]|e] g1]; [| |reflexivity].
  - unfold Aux.forecast_rows, Demand_forecasting._build_feature_rows, lift.
    rewrite (traverse_ext _ (fun i => let! day := add_days (utc_now w) (Z.of_nat i) in Ok day))
      by (intros i; destruct (add_days (utc_now w) (Z.of_nat i)); reflexivity).
    rewrite (traverse_dates (utc_now w) days (seq 0 days) (fun i => i) (fun _ day => day))
      by apply map_id.
    destruct (Aux.dates_fitb (utc_now w) days); [|reflexivity].
    destruct (model product_id (utc_now w) days) as [ps|e]; [|reflexivity].
    cbn [obind].
    rewrite (traverse_dates (utc_now w) (List.length ps)
               (combine (seq 0 (List.length ps)) ps) fst
               (fun ip day =>
                  {| Demand_forecasting.date := day;
                     Demand_forecasting.quantity := Qmax 0.0 (snd ip);
                     Demand_forecasting.quantityLow :=
                       Qmax 0.0 (Qmax 0.0 (snd ip) * (1.0 - demand_uncertainty w));
                     Demand_forecasting.quantityHigh :=
                       Qmax 0.0 (snd ip) * (1.0 + demand_uncertainty w) |}))
      by apply map_fst_combine_seq.
    reflexivity.
  - unfold Aux.forecast_rows, lift.
    rewrite (traverse_dates (utc_now w) days (seq 0 days) (fun i => i)
               (fun d day =>
                  {| Demand_forecasting.date := day;
                     Demand_forecasting.quantity := 10.0;
                     Demand_forecasting.quantityLow :=
                       Qmax 0.0 (10.0 * (1.0 - demand_uncertainty w));
                     Demand_forecasting.quantityHigh := 10.0 * (1.0 + demand_uncertainty w) |}))
      by apply map_id.
    reflexivity.
Qed.

(** ** Which globals the collaborators write *)

Lemma load_product_catalog_frame (w : World) (g g' : Globals)
    (r : outcome (list (string * CatalogEntry))) :
  load_product_catalog w g = (r, g') ->
  _xgb_model g' = _xgb_model g /\ _dqn_state g' = _dqn_state g.
Proof.
  unfold load_product_catalog, bind, read, write, ret.
  destruct (_catalog_cache g); intros H; inversion H; subst; split; reflexivity.
Qed.

Lemma forecast_product_frame (w : World) (product_id : string) (days : nat)
    (g g' : Globals) (r : outcome (list Demand_forecasting.Prediction)) :
  Demand_forecasting.forecast_product w product_id days g = (r, g') ->
  _xgb_model g' = _xgb_model g /\ _dqn_state g' = _dqn_state g.
Proof.
  rewrite forecast_product_rows.
  unfold Demand_forecasting.load_model, bind, read, write, lift, ret.
  destruct (_model g) as [m|].
  - intros H; inversion H; subst; split; reflexivity.
  - destruct (demand_forecasting_pkl w) as [[m|e]|];
      intros H; inversion H; subst; split; reflexivity.
Qed.

Lemma get_competitor_price_frame (w : World) (product_id : string) (base_price : Q)
    (g g' : Globals) (r : outcome Q) :
  Competitors.get_competitor_price w product_id base_price g = (r, g') ->
  _xgb_model g' = _xgb_model g /\ _dqn_state g' = _dqn_state g.
Proof.
  unfold Competitors.get_competitor_price, Competitors._fetch_http,
    Competitors._load_from_file, bind, read, write, lift, ret.
  destruct (competitor_api w product_id).
  - intros H; inversion H; subst; split; reflexivity.
  - destruct (_comp_cache g) as [data|].
    + destruct (dict_lookup data product_id).
      * intros H; inversion H; subst; split; reflexivity.
      * destruct (getenv_float_default w "COMPETITOR_PRICE_FACTOR" 0.98);
          intros H; inversion H; subst; split; reflexivity.
    + destruct (dict_lookup (competitors_json w) product_id).
      * intros H; inversion H; subst; split; reflexivity.
      * destruct (getenv_float_default w "COMPETITOR_PRICE_FACTOR" 0.98);
          intros H; inversion H; subst; split; reflexivity.
Qed.

Lemma require_api_key_frame (w : World) (key : string) (g g' : Globals) (r : outcome unit) :
  require_api_key w key g = (r, g') -> g' = g.
Proof.
  unfold require_api_key, raise, ret.
  destruct (negb (String.eqb (API_KEY w) "") && negb (String.eqb key (API_KEY w)));
    intros H; inversion H; reflexivity.
Qed.

(** ** What the handler's locals are when it returns *)

Tactic Notation "invert_bind" hyp(H) "as" ident(a) ident(g1) ident(H1) :=
  apply bind_Ok_inv in H; destruct H as (a & g1 & H1 & H).

Lemma pricing_v1_locals_inv (w : World) (req : PricingV1Request) (key : string)
    (g g' : Globals) (l : Locals) :
  pricing_v1_locals w req key g = (Ok l, g') ->
  grade l = grade_of (quality_grade req)
  /\ markup l = markup_of (grade l)
  /\ quality_factor l = quality_factor_of (grade l)
  /\ base_price l = base_price_of (unit_cost l) (markup l) (min_margin l)
  /\ expected_demand_in l
     = expected_demand_of (demand_baseline l) (quality_factor l)
         (expiry_factor_of (time_to_expiry_hours req))
  /\ min_allowed_price l
     = min_allowed_price_of (base_price l) (unit_cost l) (min_margin l) (max_discount l)
  /\ candidates l = candidates_of (base_price l) (min_allowed_price l)
  /\ choose_price (competitor_price l) (base_price l) (expected_demand_in l)
       (inject_Z (current_inventory req)) (unit_cost l) (time_to_expiry_hours req)
       (min_allowed_price l) (candidates l) (model_price l)
     = Ok (best_price_chosen l, best_reward l, competitor_adjusted l, used_model l)
  /\ best_price l
     = (if String.eqb (bucket l) "B" then best_price_chosen l * 0.98
        else best_price_chosen l)
  /\ recommended l = round2 (best_price l)
  /\ exists g_before g_after,
       _xgb_model g_before = _xgb_model g
       /\ _dqn_state g_before = _dqn_state g
       /\ Serve_models.predict_with_models w (base_price l) (competitor_price l)
            (expected_demand_in l) (grade l) (current_inventory req)
            (time_to_expiry_hours req) (unit_cost l) (candidates l) g_before
          = (Ok (model_price l), g_after).
Proof.
  intros H. unfold pricing_v1_locals in H.
  invert_bind H as u1 g1 Hkey.
  invert_bind H as catalog g2 Hcat.
  invert_bind H as mm g3 Hmm. apply lift_Ok_inv in Hmm. destruct Hmm as [_ ->].
  invert_bind H as preds g4 Hpreds.
  invert_bind H as comp g5 Hcomp.
  invert_bind H as md g6 Hmd. apply lift_Ok_inv in Hmd. destruct Hmd as [_ ->].
  invert_bind H as mp g7 Hmp.
  invert_bind H as inv g7' Hinv. apply lift_Ok_inv in Hinv. destruct Hinv as [Hinv ->].
  apply py_float_Ok in Hinv. destruct Hinv as [-> _].
  invert_bind H as chosen g8 Hchoose.
  apply lift_Ok_inv in Hchoose. destruct Hchoose as [Hchoose ->].
  destruct chosen as [[[bp br] adj] used].
  invert_bind H as q g9 Hq.
  apply ret_Ok_inv in H. destruct H as [-> _].
  cbn [grade markup quality_factor base_price min_allowed_price candidates
       demand_baseline
       competitor_price expected_demand_in unit_cost min_margin max_discount
       model_price best_price_chosen best_reward competitor_adjusted used_model
       bucket best_price recommended].
  apply require_api_key_frame in Hkey. subst g1.
  apply load_product_catalog_frame in Hcat. destruct Hcat as [Hx2 Hd2].
  apply forecast_product_frame in Hpreds. destruct Hpreds as [Hx4 Hd4].
  apply get_competitor_price_frame in Hcomp. destruct Hcomp as [Hx5 Hd5].
  repeat split; try reflexivity; try exact Hchoose.
  - destruct (String.eqb (lower (getenv_default w "PRICING_AB_ENABLED" "true")) "true");
      [|reflexivity].
    destruct (hash_even w (product_id req)); reflexivity.
  - exists g5, g7. split; [congruence|]. split; [congruence|]. exact Hmp.
Qed.

(** The handler returns only for an inventory it can convert to a float
    (line 399). *)
Lemma pricing_v1_locals_inventory (w : World) (req : PricingV1Request) (key : string)
    (g g' : Globals) (l : Locals) :
  pricing_v1_locals w req key g = (Ok l, g') ->
  (Z.abs (current_inventory req) < float_limit)%Z.
Proof.
  intros H. unfold pricing_v1_locals in H.
  invert_bind H as u1 g1 Hkey.
  invert_bind H as catalog g2 Hcat.
  invert_bind H as mm g3 Hmm.
  invert_bind H as preds g4 Hpreds.
  invert_bind H as comp g5 Hcomp.
  invert_bind H as md g6 Hmd.
  invert_bind H as mp g7 Hmp.
  invert_bind H as inv g7' Hinv. apply lift_Ok_inv in Hinv. destruct Hinv as [Hinv _].
  apply py_float_Ok in Hinv. apply Hinv.
Qed.

(** C1, as the code has it: when the handler returns for a product whose
    unit cost is not negative, the price it chose, after the competitor
    adjustment and before the A/B step and the rounding, is at least
    [max(basePrice*(1-maxDiscount), unitCost*(1+minMargin), 0.1)]; the
    returned value is that price, times 0.98 in bucket B, rounded to two
    decimals, hence at least 0.98 times the floor less half a cent. *)
Theorem price_floor_holds_before_ab_and_rounding :
  forall (w : World) (req : PricingV1Request) (key : string) (g g' : Globals) (l : Locals),
    pricing_v1_locals w req key g = (Ok l, g') ->
    0 <= unit_cost l ->
    let floor := Spec.floor (base_price l) (unit_cost l) (min_margin l) (max_discount l) in
    floor <= best_price_chosen l
    /\ recommended_price (response_of l)
       = round2 (if String.eqb (bucket l) "B" then best_price_chosen l * 0.98
                 else best_price_chosen l)
    /\ 0.98 * floor - 0.005 <= recommended_price (response_of l).
Proof.
  intros w req key g g' l Hrun Hu floor.
  destruct (pricing_v1_locals_inv w req key g g' l Hrun)
    as (_ & _ & _ & _ & _ & Hfloor & Hcands & Hchoose & Hbest & Hrec & _).
  assert (Hge : floor <= best_price_chosen l).
  { subst floor. rewrite <- (min_allowed_price_of_spec _ _ _ _ Hu), <- Hfloor.
    eapply choose_price_ge_floor; [|exact Hchoose].
    rewrite Hcands. apply candidates_of_ge_floor. }
  split; [exact Hge|].
  cbn [response_of recommended_price]. rewrite Hrec, Hbest.
  split; [reflexivity|].
  assert (Hfl : 0.1 <= floor) by (subst floor; apply Q.le_max_r).
  set (x := if String.eqb (bucket l) "B" then best_price_chosen l * 0.98
            else best_price_chosen l).
  assert (Hx : 0.98 * floor <= x) by (subst x; destruct (String.eqb (bucket l) "B"); lra).
  pose proof (round2_near x) as [Hlo _]. lra.
Qed.

Lemma price_floor_holds_before_ab_and_rounding_witness :
  exists (l : Locals) (g' : Globals),
    pricing_v1_locals Examples.bare_world Examples.tomato_request "" fresh_globals
    = (Ok l, g')
    /\ 0 <= unit_cost l
    /\ Spec.floor (base_price l) (unit_cost l) (min_margin l) (max_discount l)
       <= best_price_chosen l.
Proof.
  eexists. eexists. split; [vm_compute; reflexivity|].
  split; [vm_compute; discriminate|].
  eapply (price_floor_holds_before_ab_and_rounding Examples.bare_world
            Examples.tomato_request "" fresh_globals).
  - vm_compute. reflexivity.
  - vm_compute. discriminate.
Defined.

(** C1, as the claim states it, fails.  With a regressor that predicts a
    price below the floor 2.80 the model path settles on the floor; the
    product falls in bucket B, and the handler returns 2.74. *)
Lemma returned_price_below_floor :
  exists (l : Locals) (g' : Globals),
    pricing_v1_locals Examples.cheap_model_world Examples.tomato_request ""
      fresh_globals = (Ok l, g')
    /\ Spec.floor (base_price l) (unit_cost l) (min_margin l) (max_discount l) == 2.8
    /\ recommended_price (response_of l) == 2.74
    /\ ~ Spec.floor (base_price l) (unit_cost l) (min_margin l) (max_discount l)
         <= recommended_price (response_of l).
Proof.
  eexists. eexists. split; [vm_compute; reflexivity|].
  split; [reflexivity|]. split; [reflexivity|].
  intros H. vm_compute in H. apply H. reflexivity.
Qed.

(** ** Grades outside A, B, C *)

Lemma unknown_grade_defaults (grade : string) :
  grade <> "A"%string -> grade <> "B"%string -> grade <> "C"%string ->
  markup_of grade = 1.5 /\ quality_factor_of grade = 0.85.
Proof.
  intros HA HB HC.
  apply String.eqb_neq in HA. apply String.eqb_neq in HB. apply String.eqb_neq in HC.
  unfold markup_of, quality_factor_of, dict_get, grade_markup_map, quality_factor_map,
    dict_lookup.
  rewrite HA, HB, HC. split; reflexivity.
Qed.

(** Line 361 replaces an empty grade by "B" and upper-cases any other. *)
Lemma grade_of_cases (quality_grade : string) :
  (quality_grade = ""%string /\ grade_of quality_grade = "B"%string)
  \/ (quality_grade <> ""%string /\ grade_of quality_grade = upper quality_grade).
Proof.
  unfold grade_of. destruct (String.eqb quality_grade "") eqn:E.
  - left. apply String.eqb_eq in E. split; [exact E | reflexivity].
  - right. apply String.eqb_neq in E. split; [exact E | reflexivity].
Qed.

(** C6, as the code has it: when the handler returns for a request whose
    upper-cased grade is none of A, B, C, the demand-quality multiplier it
    used for the expected demand is grade B's 0.85; the markup it used for
    the base price is 1.5, which is not grade B's 1.6, unless the grade is
    the empty string, which line 361 reads as grade B, markup 1.6
    included. *)
Theorem unknown_grade_markup_and_quality :
  forall (w : World) (req : PricingV1Request) (key : string) (g g' : Globals) (l : Locals),
    pricing_v1_locals w req key g = (Ok l, g') ->
    upper (quality_grade req) <> "A"%string ->
    upper (quality_grade req) <> "B"%string ->
    upper (quality_grade req) <> "C"%string ->
    (quality_grade req <> ""%string ->
     grade l = upper (quality_grade req)
     /\ markup l = 1.5
     /\ base_price l = base_price_of (unit_cost l) 1.5 (min_margin l))
    /\ (quality_grade req = ""%string ->
        grade l = "B"%string
        /\ markup l = 1.6
        /\ base_price l = base_price_of (unit_cost l) 1.6 (min_margin l))
    /\ quality_factor l = 0.85
    /\ expected_demand_in l
       = expected_demand_of (demand_baseline l) 0.85
           (expiry_factor_of (time_to_expiry_hours req)).
Proof.
  intros w req key g g' l Hrun HA HB HC.
  destruct (pricing_v1_locals_inv w req key g g' l Hrun)
    as (Hgrade & Hmarkup & Hquality & Hbase & Hdemand & _).
  assert (Hq : quality_factor l = 0.85).
  { rewrite Hquality, Hgrade.
    destruct (grade_of_cases (quality_grade req)) as [[_ ->] | [_ ->]]; [reflexivity|].
    apply (unknown_grade_defaults _ HA HB HC). }
  split; [|split; [|split; [exact Hq | rewrite Hq in Hdemand; exact Hdemand]]].
  - intros Hne.
    destruct (grade_of_cases (quality_grade req)) as [[He _] | [_ Hg]]; [contradiction|].
    rewrite Hg in Hgrade.
    assert (Hm : markup l = 1.5).
    { rewrite Hmarkup, Hgrade. apply (unknown_grade_defaults _ HA HB HC). }
    split; [exact Hgrade|]. split; [exact Hm|]. rewrite Hm in Hbase. exact Hbase.
  - intros He.
    destruct (grade_of_cases (quality_grade req)) as [[_ Hg] | [Hne _]]; [|contradiction].
    rewrite Hg in Hgrade.
    assert (Hm : markup l = 1.6) by (rewrite Hmarkup, Hgrade; reflexivity).
    split; [exact Hgrade|]. split; [exact Hm|]. rewrite Hm in Hbase. exact Hbase.
Qed.

Lemma unknown_grade_markup_and_quality_witness :
  exists (l : Locals) (g' : Globals),
    pricing_v1_locals Examples.bare_world Examples.ungraded_request "" fresh_globals
    = (Ok l, g')
    /\ grade l = "D"%string
    /\ markup l = 1.5
    /\ quality_factor l = 0.85.
Proof.
  eexists. eexists. split; [vm_compute; reflexivity|].
  edestruct (unknown_grade_markup_and_quality Examples.bare_world
               Examples.ungraded_request "" fresh_globals) as (Hd & _ & Hq & _).
  - vm_compute. reflexivity.
  - discriminate.
  - discriminate.
  - discriminate.
  - destruct Hd as (Hg & Hm & _); [discriminate|].
    split; [exact Hg|]. split; [exact Hm | exact Hq].
Defined.

(** C6, as the claim states it, fails on the markup: for the grade "d"
    and a unit cost of 2 the handler multiplies by 1.5 and prices from a
    base of 3, where grade B's 1.6 would give 3.2. *)
Lemma unknown_grade_markup_is_not_B :
  exists (l : Locals) (g' : Globals),
    pricing_v1_locals Examples.bare_world Examples.ungraded_request "" fresh_globals
    = (Ok l, g')
    /\ grade l = "D"%string
    /\ ~ markup l == 1.6
    /\ base_price l == 3
    /\ ~ base_price l == base_price_of (unit_cost l) 1.6 (min_margin l).
Proof.
  eexists. eexists. split; [vm_compute; reflexivity|].
  split; [reflexivity|]. split; [discriminate|]. split; [reflexivity|].
  vm_compute. discriminate.
Qed.

(** ** Model failures are not fatal *)

Lemma returns_ret {A : Type} (a : A) : Aux.returns (ret a).
Proof. intros g. exists a, g. reflexivity. Qed.

Lemma returns_bind {A B : Type} (c : M A) (k : A -> M B) :
  Aux.returns c -> (forall a, Aux.returns (k a)) -> Aux.returns (bind c k).
Proof.
  intros Hc Hk g. destruct (Hc g) as (a & g1 & Ha).
  destruct (Hk a g1) as (b & g2 & Hb).
  exists b, g2. unfold bind. now rewrite Ha.
Qed.

Lemma returns_lift {A : Type} (o : outcome A) (a : A) : o = Ok a -> Aux.returns (lift o).
Proof. intros -> g. exists a, g. reflexivity. Qed.

Lemma returns_try_except {A : Type} (c h : M A) :
  Aux.returns h -> Aux.returns (try_except c h).
Proof.
  intros Hh g. unfold try_except.
  destruct (c g) as [[a|e] g1].
  - exists a, g1. reflexivity.
  - apply Hh.
Qed.

Lemma returns_read {A : Type} (f : Globals -> A) : Aux.returns (read f).
Proof. intros g. exists (f g), g. reflexivity. Qed.

Lemma returns_write (f : Globals -> Globals) : Aux.returns (write f).
Proof. intros g. exists tt, (f g). reflexivity. Qed.

Lemma load_xgb_returns (w : World) : Aux.returns (Serve_models.load_xgb w).
Proof.
  unfold Serve_models.load_xgb. apply returns_bind; [apply returns_read|].
  intros [m|]; [apply returns_ret|].
  destruct (dynamic_pricing_xgb_pkl w); [|apply returns_ret].
  apply returns_try_except, returns_ret.
Qed.

Lemma load_dqn_returns (w : World) : Aux.returns (Serve_models.load_dqn w).
Proof.
  unfold Serve_models.load_dqn. apply returns_bind; [apply returns_read|].
  intros [m|]; [apply returns_ret|].
  destruct (dynamic_pricing_dqn_pt w); [|apply returns_ret].
  apply returns_try_except, returns_ret.
Qed.

Lemma load_xgb_run (w : World) (g : Globals) :
  Serve_models.load_xgb w g
  = (Ok (Aux.xgb_in_use w g), set_xgb_model (Aux.xgb_in_use w g) g).
Proof.
  unfold Serve_models.load_xgb, Aux.xgb_in_use, bind, read, try_except, lift, write, ret.
  destruct g as [x d m c k]. cbn.
  destruct x as [xgb|]; [reflexivity|].
  destruct (dynamic_pricing_xgb_pkl w) as [[xgb|e]|]; reflexivity.
Qed.

Lemma load_dqn_run (w : World) (g : Globals) :
  Serve_models.load_dqn w g
  = (Ok (Aux.dqn_in_use w g), set_dqn_state (Aux.dqn_in_use w g) g).
Proof.
  unfold Serve_models.load_dqn, Aux.dqn_in_use, bind, read, try_except, lift, write, ret.
  destruct g as [x d m c k]. cbn.
  destruct d as [dqn|]; [reflexivity|].
  destruct (dynamic_pricing_dqn_pt w) as [[dqn|e]|]; reflexivity.
Qed.

(** [predict_with_models] in two stages: the regressor, whose feature row
    may raise, and then the policy network, which never does. *)
Lemma predict_with_models_run (w : World)
    (base_price competitor_price expected_demand : Q) (quality_grade : string)
    (inventory expiry_hours : Z) (unit_cost : Q) (candidates : list Q) (g : Globals) :
  Serve_models.predict_with_models w base_price competitor_price expected_demand
    quality_grade inventory expiry_hours unit_cost candidates g
  = let g1 := set_xgb_model (Aux.xgb_in_use w g) g in
    match Aux.xgb_stage (Aux.xgb_in_use w g) base_price competitor_price expected_demand
            quality_grade inventory with
    | Raise e => (Raise e, g1)
    | Ok (Some pred) => (Ok (Some pred), g1)
    | Ok None =>
        (Ok (Aux.dqn_stage (Aux.dqn_in_use w g1) base_price competitor_price
               expected_demand quality_grade inventory expiry_hours),
         set_dqn_state (Aux.dqn_in_use w g1) g1)
    end.
Proof.
  unfold Serve_models.predict_with_models.
  unfold bind at 1. rewrite load_xgb_run. cbv zeta.
  set (g1 := set_xgb_model (Aux.xgb_in_use w g) g).
  assert (Hdqn :
    bind (Serve_models.load_dqn w)
      (fun dqn =>
         match dqn with
         | Some dqn =>
             try_except
               (inv <- lift (py_float inventory) ;;
                ratio <- lift (Serve_models.competitor_ratio competitor_price base_price) ;;
                expiry <- lift (py_float expiry_hours) ;;
                qvals <- lift (dqn [inv; expected_demand;
                                    Serve_models.quality_of quality_grade; ratio; expiry]) ;;
                idx <- lift (Serve_models.argmax qvals) ;;
                action <- lift (Serve_models.actions_at idx) ;;
                ret (Some (base_price * (1.0 + action))))
               (ret None)
         | None => ret None
         end) g1
    = (Ok (Aux.dqn_stage (Aux.dqn_in_use w g1) base_price competitor_price
             expected_demand quality_grade inventory expiry_hours),
       set_dqn_state (Aux.dqn_in_use w g1) g1)).
  { unfold bind at 1. rewrite load_dqn_run.
    unfold Aux.dqn_stage, Aux.dqn_price.
    destruct (Aux.dqn_in_use w g1) as [dqn|]; [|reflexivity].
    unfold try_except, bind, lift, ret.
    destruct (py_float inventory) as [inv|]; [|reflexivity]. cbn [obind].
    destruct (Serve_models.competitor_ratio competitor_price base_price) as [ratio|];
      [|reflexivity]. cbn [obind].
    destruct (py_float expiry_hours) as [expiry|]; [|reflexivity]. cbn [obind].
    destruct (dqn _) as [qvals|]; [|reflexivity]. cbn [obind].
    destruct (Serve_models.argmax qvals) as [idx|]; [|reflexivity]. cbn [obind].
    destruct (Serve_models.actions_at idx) as [action|]; reflexivity. }
  unfold Aux.xgb_stage.
  destruct (Aux.xgb_in_use w g) as [xgb|].
  - unfold bind at 1 2. unfold lift at 1.
    destruct (py_float inventory) as [inv|e]; [|reflexivity]. cbn [obind].
    unfold try_except at 1. unfold bind at 1. unfold lift at 1.
    destruct (xgb _) as [pred|e].
    + reflexivity.
    + unfold ret at 1. exact Hdqn.
  - unfold bind at 1. unfold ret at 1. exact Hdqn.
Qed.

Lemma predict_with_models_returns (w : World)
    (base_price competitor_price expected_demand : Q) (quality_grade : string)
    (inventory expiry_hours : Z) (unit_cost : Q) (candidates : list Q) :
  (Z.abs inventory < float_limit)%Z ->
  Aux.returns (Serve_models.predict_with_models w base_price competitor_price
                 expected_demand quality_grade inventory expiry_hours unit_cost candidates).
Proof.
  intros Hinv g. rewrite predict_with_models_run. cbv zeta.
  unfold Aux.xgb_stage.
  destruct (Aux.xgb_in_use w g) as [xgb|]; [|eauto].
  rewrite (py_float_in_range inventory Hinv). cbn [obind].
  destruct (xgb _) as [pred|e]; eauto.
Qed.

Lemma xgb_in_use_nothing (w : World) (g : Globals) (feat : list Q) :
  Aux.xgb_gives_nothing w -> _xgb_model g = None ->
  match Aux.xgb_in_use w g with
  | Some xgb => exists e, xgb feat = Raise e
  | None => True
  end.
Proof.
  unfold Aux.xgb_gives_nothing, Aux.xgb_in_use. intros Hx ->.
  destruct (dynamic_pricing_xgb_pkl w) as [[xgb|e]|]; auto.
Qed.

Lemma predict_with_models_nothing (w : World) (g : Globals)
    (base_price competitor_price expected_demand : Q) (quality_grade : string)
    (inventory expiry_hours : Z) (unit_cost : Q) (candidates : list Q) :
  (Z.abs inventory < float_limit)%Z ->
  Aux.xgb_gives_nothing w -> Aux.dqn_gives_nothing w ->
  _xgb_model g = None -> _dqn_state g = None ->
  exists g',
    Serve_models.predict_with_models w base_price competitor_price expected_demand
      quality_grade inventory expiry_hours unit_cost candidates g = (Ok None, g').
Proof.
  intros Hinv Hx Hd Hgx Hgd. rewrite predict_with_models_run. cbv zeta.
  assert (Hstage : Aux.dqn_stage
                     (Aux.dqn_in_use w (set_xgb_model (Aux.xgb_in_use w g) g))
                     base_price competitor_price expected_demand quality_grade
                     inventory expiry_hours = None).
  { unfold Aux.dqn_stage, Aux.dqn_in_use, Aux.dqn_price, Aux.dqn_gives_nothing in *.
    cbn [set_xgb_model _dqn_state]. rewrite Hgd.
    destruct (dynamic_pricing_dqn_pt w) as [[dqn|e]|]; [|reflexivity|reflexivity].
    destruct (py_float inventory) as [inv|]; [|reflexivity]. cbn [obind].
    destruct (Serve_models.competitor_ratio competitor_price base_price) as [ratio|];
      [|reflexivity]. cbn [obind].
    destruct (py_float expiry_hours) as [expiry|]; [|reflexivity]. cbn [obind].
    destruct (Hd [inv; expected_demand; Serve_models.quality_of quality_grade;
                  ratio; expiry]) as [e ->].
    reflexivity. }
  rewrite Hstage.
  unfold Aux.xgb_stage.
  pose proof (xgb_in_use_nothing w g
                [base_price; dict_get Serve_models.grade_map (upper quality_grade) 1;
                 inject_Z inventory; expected_demand; competitor_price] Hx Hgx) as Hn.
  destruct (Aux.xgb_in_use w g) as [xgb|]; [|eauto].
  rewrite (py_float_in_range inventory Hinv). cbn [obind].
  destruct Hn as [e ->]. eauto.
Qed.

Lemma bind_run {A B : Type} (c : M A) (k : A -> M B) (g g1 : Globals) (a : A) :
  c g = (Ok a, g1) -> bind c k g = k a g1.
Proof. intros H. unfold bind. now rewrite H. Qed.

Lemma candidates_of_nonempty (base_price min_allowed_price : Q) :
  candidates_of base_price min_allowed_price <> [].
Proof. discriminate. Qed.

Lemma competitor_adjustment_total
    (c inv : Q) (h : Z) (floor : Q) (cands : list Q) (p : Q) :
  cands <> [] -> exists r, competitor_adjustment c inv h floor cands p = Ok r.
Proof.
  intros Hne. destruct cands as [|x xs]; [contradiction|].
  unfold competitor_adjustment.
  destruct (Qgtb c 0) eqn:Ec; [|eauto].
  apply Qgtb_true in Ec. rewrite (py_div_pos p c Ec). cbn [obind py_max_list].
  destruct (Qgtb (p / c) 1.05 && (Qgtb inv 30 || (h <=? 24)%Z)); [eauto|].
  destruct (Qltb (p / c) 0.95 && Qltb inv 10); eauto.
Qed.

Lemma model_reward_total (c b e inv uc : Q) (h : Z) (p : Q) :
  0 < b -> exists r, model_reward c b e inv uc h p = Ok r.
Proof.
  intros Hb. destruct (search_reward_spec c b e inv uc h p Hb) as [r [Hr _]].
  exists r. exact Hr.
Qed.

Lemma exhaustive_search_total (c b e inv uc : Q) (h : Z) (cands : list Q) :
  0 < b -> cands <> [] ->
  exists r, exhaustive_search c b e inv uc h cands = Ok r.
Proof.
  intros Hb Hne. destruct cands as [|p0 ps]; [contradiction|].
  unfold exhaustive_search. cbn [py_head obind].
  destruct (search_loop_first_max c b e inv uc h Hb (p0 :: ps) NegInf p0)
    as [[Hrun _] | (pre & x & post & _ & Hrun & _)]; rewrite Hrun; eauto.
Qed.

Lemma choose_price_total
    (c b e inv uc : Q) (h : Z) (floor : Q) (cands : list Q) (model_price : option Q) :
  0 < b -> cands <> [] ->
  exists r, choose_price c b e inv uc h floor cands model_price = Ok r.
Proof.
  intros Hb Hne. unfold choose_price. destruct model_price as [mp|].
  - assert (Hmax : exists m,
               match cands with [] => Ok (Qmax mp floor) | _ :: _ => py_max_list cands end
               = Ok m)
      by (destruct cands; cbn; eauto).
    destruct Hmax as [m ->]. cbn [obind].
    destruct (competitor_adjustment_total c inv h floor cands (Qmin m (Qmax mp floor)) Hne)
      as [[p' a'] ->].
    cbn [obind fst snd].
    destruct (model_reward_total c b e inv uc h p' Hb) as [r ->].
    cbn [obind]. eauto.
  - destruct (exhaustive_search_total c b e inv uc h cands Hb Hne) as [[br x] Hs].
    rewrite Hs. cbn [obind fst snd].
    destruct (competitor_adjustment_total c inv h floor cands x Hne) as [[p' a'] ->].
    cbn [obind]. eauto.
Qed.

Lemma getenv_float_default_returns (w : World) (name : string) (default : Q) :
  (forall name e, getenv_float w name <> Some (Raise e)) ->
  exists q, getenv_float_default w name default = Ok q.
Proof.
  intros Henv. unfold getenv_float_default.
  destruct (getenv_float w name) as [[q|e]|] eqn:E; eauto.
  exfalso. exact (Henv name e E).
Qed.

Lemma get_competitor_price_returns (w : World) (product_id : string) (base_price : Q) :
  (forall name e, getenv_float w name <> Some (Raise e)) ->
  Aux.returns (Competitors.get_competitor_price w product_id base_price).
Proof.
  intros Henv. unfold Competitors.get_competitor_price, Competitors._fetch_http.
  apply returns_bind; [apply returns_ret|].
  intros [p|]; [apply returns_ret|].
  apply returns_bind.
  { unfold Competitors._load_from_file.
    apply returns_bind; [apply returns_read|].
    intros [data|]; [apply returns_ret|].
    apply returns_bind; [apply returns_write | intros; apply returns_ret]. }
  intros data. destruct (dict_lookup data product_id); [apply returns_ret|].
  destruct (getenv_float_default_returns w "COMPETITOR_PRICE_FACTOR" 0.98 Henv) as [q Hq].
  apply returns_bind; [eapply returns_lift; exact Hq | intros; apply returns_ret].
Qed.

(** Once the key is accepted, the catalogue read and the forecast made, the
    rest of the handler returns whatever the models do. *)
Lemma pricing_v1_locals_returns (w : World) (req : PricingV1Request) (key : string)
    (g : Globals) :
  (Z.abs (current_inventory req) < float_limit)%Z ->
  (API_KEY w = ""%string \/ key = API_KEY w) ->
  (forall name e, getenv_float w name <> Some (Raise e)) ->
  (forall g0, _model g0 = _model g ->
     exists preds g', Demand_forecasting.forecast_product w (product_id req) 3 g0
                      = (Ok preds, g')) ->
  exists l g', pricing_v1_locals w req key g = (Ok l, g').
Proof.
  intros Hinv Hkey Henv Hforecast.
  unfold pricing_v1_locals.
  assert (Hk : require_api_key w key g = (Ok tt, g)).
  { unfold require_api_key. destruct Hkey as [-> | ->].
    - reflexivity.
    - rewrite String.eqb_refl, andb_false_r. reflexivity. }
  rewrite (bind_run _ _ _ _ _ Hk).
  assert (Hc : exists catalog g1,
             load_product_catalog w g = (Ok catalog, g1) /\ _model g1 = _model g).
  { unfold load_product_catalog, bind, read, write, ret.
    destruct (_catalog_cache g); eauto. }
  destruct Hc as (catalog & g1 & Hc & Hm).
  rewrite (bind_run _ _ _ _ _ Hc).
  destruct (getenv_float_default_returns w "PRICING_MIN_MARGIN" 0.15 Henv) as [mm Hmm].
  rewrite Hmm. unfold lift at 1. unfold bind at 1.
  destruct (Hforecast g1 Hm) as (preds & g2 & Hp).
  rewrite (bind_run _ _ _ _ _ Hp).
  revert g2 Hp. intros g2 _. revert g2.
  apply returns_bind; [apply get_competitor_price_returns; exact Henv|].
  intros comp.
  destruct (getenv_float_default_returns w "PRICING_MAX_DISCOUNT" 0.30 Henv) as [md Hmd].
  apply returns_bind; [eapply returns_lift; exact Hmd|].
  intros md'.
  apply returns_bind; [apply predict_with_models_returns; exact Hinv|].
  intros mp.
  apply returns_bind; [eapply returns_lift; apply py_float_in_range; exact Hinv|].
  intros inv.
  match goal with
  | |- Aux.returns (bind (lift (choose_price ?c ?b ?e ?i ?u ?h ?f ?cs mp)) _) =>
      destruct (choose_price_total c b e i u h f cs mp) as [[[[bp br] adj] used] Hch]
  end.
  { apply base_price_of_positive, markup_of_positive. }
  { apply candidates_of_nonempty. }
  rewrite Hch. intros g3. unfold lift at 1. unfold bind at 1.
  revert g3. apply returns_bind; [|intros; apply returns_ret].
  eapply returns_lift. apply py_div_pos.
  apply base_price_of_positive, markup_of_positive.
Qed.

(** A regressor that gives nothing hands over to the policy network. *)
Lemma predict_with_models_policy (w : World) (g : Globals)
    (base_price competitor_price expected_demand : Q) (quality_grade : string)
    (inventory expiry_hours : Z) (unit_cost : Q) (candidates : list Q)
    (dqn : QNetwork) (ratio : Q) (qvals : list Q) (idx : nat) (action : Q) :
  (Z.abs inventory < float_limit)%Z ->
  (Z.abs expiry_hours < float_limit)%Z ->
  ((exists xgb e,
       _xgb_model g = Some xgb
       /\ xgb [base_price; dict_get Serve_models.grade_map (upper quality_grade) 1;
               inject_Z inventory; expected_demand; competitor_price] = Raise e)
   \/ (_xgb_model g = None /\ Aux.xgb_gives_nothing w)) ->
  (_dqn_state g = Some dqn
   \/ (_dqn_state g = None /\ dynamic_pricing_dqn_pt w = Some (Ok dqn))) ->
  Serve_models.competitor_ratio competitor_price base_price = Ok ratio ->
  dqn [inject_Z inventory; expected_demand; Serve_models.quality_of quality_grade;
       ratio; inject_Z expiry_hours] = Ok qvals ->
  Serve_models.argmax qvals = Ok idx ->
  Serve_models.actions_at idx = Ok action ->
  exists g',
    Serve_models.predict_with_models w base_price competitor_price expected_demand
      quality_grade inventory expiry_hours unit_cost candidates g
    = (Ok (Some (base_price * (1.0 + action))), g').
Proof.
  intros Hinv Hexp Hx Hdqn Hratio Hq Hidx Hact.
  rewrite predict_with_models_run. cbv zeta.
  assert (Hstage : Aux.dqn_stage
                     (Aux.dqn_in_use w (set_xgb_model (Aux.xgb_in_use w g) g))
                     base_price competitor_price expected_demand quality_grade
                     inventory expiry_hours = Some (base_price * (1.0 + action))).
  { assert (Hin : Aux.dqn_in_use w (set_xgb_model (Aux.xgb_in_use w g) g) = Some dqn).
    { unfold Aux.dqn_in_use. cbn [set_xgb_model _dqn_state].
      destruct Hdqn as [-> | [-> ->]]; reflexivity. }
    rewrite Hin. unfold Aux.dqn_stage, Aux.dqn_price.
    rewrite (py_float_in_range inventory Hinv), Hratio, (py_float_in_range expiry_hours Hexp).
    cbn [obind]. rewrite Hq. cbn [obind]. rewrite Hidx. cbn [obind]. rewrite Hact.
    reflexivity. }
  rewrite Hstage.
  unfold Aux.xgb_stage.
  assert (Hn : match Aux.xgb_in_use w g with
               | Some xgb =>
                   exists e,
                     xgb [base_price;
                          dict_get Serve_models.grade_map (upper quality_grade) 1;
                          inject_Z inventory; expected_demand; competitor_price] = Raise e
               | None => True
               end).
  { destruct Hx as [(xgb & e & Hg & He) | [Hg Hx]].
    - unfold Aux.xgb_in_use. rewrite Hg. eauto.
    - now apply xgb_in_use_nothing. }
  destruct (Aux.xgb_in_use w g) as [xgb|]; [|eauto].
  rewrite (py_float_in_range inventory Hinv). cbn [obind].
  destruct Hn as [e ->]. eauto.
Qed.

(** C8, as the code has it.  For an inventory that [float] can convert,
    [predict_with_models] never raises, it returns a price or [None]: a
    regressor that is missing, fails to load or fails at inference (be it
    cached or fresh from its file) hands over to the policy network, whose
    price is then the answer, and when the policy network is missing or
    fails as well the answer is [None].
    Whenever, besides, the API key is accepted, the environment variables
    parse and the demand forecast returns, the handler returns a complete
    decision, which comes from the exhaustive search when the models gave
    no price. *)
Theorem model_failure_is_not_fatal :
  forall (w : World) (req : PricingV1Request) (key : string) (g : Globals),
    (forall base_price competitor_price expected_demand quality_grade inventory
            expiry_hours unit_cost candidates g0,
        (Z.abs inventory < float_limit)%Z ->
        exists (r : option Q) (g' : Globals),
          Serve_models.predict_with_models w base_price competitor_price
            expected_demand quality_grade inventory expiry_hours unit_cost
            candidates g0 = (Ok r, g'))
    /\ (forall base_price competitor_price expected_demand quality_grade inventory
               expiry_hours unit_cost candidates g0 dqn ratio qvals idx action,
          (Z.abs inventory < float_limit)%Z ->
          (Z.abs expiry_hours < float_limit)%Z ->
          ((exists xgb e,
               _xgb_model g0 = Some xgb
               /\ xgb [base_price;
                       dict_get Serve_models.grade_map (upper quality_grade) 1;
                       inject_Z inventory; expected_demand; competitor_price] = Raise e)
           \/ (_xgb_model g0 = None /\ Aux.xgb_gives_nothing w)) ->
          (_dqn_state g0 = Some dqn
           \/ (_dqn_state g0 = None /\ dynamic_pricing_dqn_pt w = Some (Ok dqn))) ->
          Serve_models.competitor_ratio competitor_price base_price = Ok ratio ->
          dqn [inject_Z inventory; expected_demand;
               Serve_models.quality_of quality_grade; ratio; inject_Z expiry_hours]
          = Ok qvals ->
          Serve_models.argmax qvals = Ok idx ->
          Serve_models.actions_at idx = Ok action ->
          exists g' : Globals,
            Serve_models.predict_with_models w base_price competitor_price
              expected_demand quality_grade inventory expiry_hours unit_cost
              candidates g0 = (Ok (Some (base_price * (1.0 + action))), g'))
    /\ (Aux.xgb_gives_nothing w -> Aux.dqn_gives_nothing w ->
        forall base_price competitor_price expected_demand quality_grade inventory
               expiry_hours unit_cost candidates g0,
          (Z.abs inventory < float_limit)%Z ->
          _xgb_model g0 = None -> _dqn_state g0 = None ->
          exists g' : Globals,
            Serve_models.predict_with_models w base_price competitor_price
              expected_demand quality_grade inventory expiry_hours unit_cost
              candidates g0 = (Ok None, g'))
    /\ ((Z.abs (current_inventory req) < float_limit)%Z ->
        (API_KEY w = ""%string \/ key = API_KEY w) ->
        (forall name e, getenv_float w name <> Some (Raise e)) ->
        (forall g0, _model g0 = _model g ->
           exists preds g',
             Demand_forecasting.forecast_product w (product_id req) 3 g0
             = (Ok preds, g')) ->
        exists (l : Locals) (g' : Globals),
          pricing_v1_locals w req key g = (Ok l, g')
          /\ pricing_optimize_v1 w req key g = (Ok (response_of l), g')
          /\ (Aux.xgb_gives_nothing w -> Aux.dqn_gives_nothing w ->
              _xgb_model g = None -> _dqn_state g = None ->
              model_price l = None)
          /\ (model_price l = None ->
              used_model l = false
              /\ exists found,
                   exhaustive_search (competitor_price l) (base_price l)
                     (expected_demand_in l) (inject_Z (current_inventory req))
                     (unit_cost l) (time_to_expiry_hours req) (candidates l) = Ok found
                   /\ best_reward l = fst found
                   /\ competitor_adjustment (competitor_price l)
                        (inject_Z (current_inventory req)) (time_to_expiry_hours req)
                        (min_allowed_price l) (candidates l) (snd found)
                      = Ok (best_price_chosen l, competitor_adjusted l))).
Proof.
  intros w req key g.
  split.
  { intros. now apply predict_with_models_returns. }
  split.
  { intros. eapply predict_with_models_policy; eassumption. }
  split.
  { intros Hx Hd. intros. now apply predict_with_models_nothing. }
  intros Hinv Hkey Henv Hforecast.
  destruct (pricing_v1_locals_returns w req key g Hinv Hkey Henv Hforecast)
    as (l & g' & Hl).
  exists l, g'. split; [exact Hl|].
  split.
  { unfold pricing_optimize_v1. rewrite (bind_run _ _ _ _ _ Hl). reflexivity. }
  destruct (pricing_v1_locals_inv w req key g g' l Hl)
    as (_ & _ & _ & _ & _ & _ & _ & Hchoose & _ & _ & gb & ga & Hgx & Hgd & Hpred).
  split.
  { intros Hx Hd Hxg Hdg.
    rewrite <- Hgx in Hxg. rewrite <- Hgd in Hdg.
    destruct (predict_with_models_nothing w gb (base_price l) (competitor_price l)
                (expected_demand_in l) (grade l) (current_inventory req)
                (time_to_expiry_hours req) (unit_cost l) (candidates l)
                Hinv Hx Hd Hxg Hdg) as [g2 Hnone].
    rewrite Hnone in Hpred. now inversion Hpred. }
  intros Hnone. rewrite Hnone in Hchoose. unfold choose_price in Hchoose.
  destruct (exhaustive_search (competitor_price l) (base_price l) (expected_demand_in l)
              (inject_Z (current_inventory req)) (unit_cost l)
              (time_to_expiry_hours req) (candidates l)) as [found|] eqn:Es;
    [|discriminate].
  cbn [obind] in Hchoose.
  destruct (competitor_adjustment (competitor_price l) (inject_Z (current_inventory req))
              (time_to_expiry_hours req) (min_allowed_price l) (candidates l) (snd found))
    as [[p' a']|] eqn:Ea; [|discriminate].
  cbn [obind fst snd] in Hchoose.
  injection Hchoose as H0 H1 H2 H3.
  split; [symmetry; exact H3|].
  exists found. split; [reflexivity|]. split; [symmetry; exact H1|].
  rewrite Ea, H0, H2. reflexivity.
Qed.

Lemma model_failure_is_not_fatal_witness :
  exists (l : Locals) (g' : Globals),
    pricing_v1_locals Examples.bare_world Examples.tomato_request "" fresh_globals
    = (Ok l, g')
    /\ pricing_optimize_v1 Examples.bare_world Examples.tomato_request "" fresh_globals
       = (Ok (response_of l), g')
    /\ model_price l = None
    /\ used_model l = false.
Proof.
  destruct (model_failure_is_not_fatal Examples.bare_world Examples.tomato_request ""
              fresh_globals) as (_ & _ & _ & H).
  destruct H as (l & g' & Hl & Hr & Hnone & Hsearch).
  - vm_compute. reflexivity.
  - left. reflexivity.
  - intros name e. discriminate.
  - intros g0 H0. rewrite forecast_product_rows.
    unfold Demand_forecasting.load_model, bind, read, ret, lift.
    cbn in H0. rewrite H0. cbn [Examples.bare_world demand_forecasting_pkl].
    eexists. eexists. reflexivity.
  - exists l, g'. split; [exact Hl|]. split; [exact Hr|].
    assert (Hn : model_price l = None)
      by (apply Hnone; solve [exact I | reflexivity]).
    split; [exact Hn|]. apply Hsearch. exact Hn.
Defined.

(** C8, as the claim states it, fails for an inventory beyond the range of
    a float, here [2^1024].  With a regressor on disk,
    [predict_with_models] raises [OverflowError]: the feature row, with
    [float(inventory)] in it, is built in front of the [try].  With no
    model at all it returns [None], and the handler then raises the same
    error on its own [float(req.current_inventory)] instead of returning a
    decision. *)
Lemma model_path_raises_beyond_float_range :
  (exists g',
     Serve_models.predict_with_models Examples.cheap_model_world 4 3.92 10 "A"
       (2 ^ 1024) 72 2 [3.6; 3.8; 4; 4.2; 4.4] fresh_globals
     = (Raise OverflowError, g'))
  /\ (exists g',
        Serve_models.predict_with_models Examples.bare_world 4 3.92 10 "A"
          (2 ^ 1024) 72 2 [3.6; 3.8; 4; 4.2; 4.4] fresh_globals
        = (Ok None, g'))
  /\ (exists g',
        pricing_optimize_v1 Examples.bare_world More_examples.huge_request ""
          fresh_globals
        = (Raise OverflowError, g')).
Proof.
  split; [eexists; vm_compute; reflexivity|].
  split; eexists; vm_compute; reflexivity.
Qed.

(** ** Repeated calls *)

Lemma filled_refl {A : Type} (loadable a : option A) : Aux.filled loadable a a.
Proof. left. reflexivity. Qed.

Lemma filled_trans {A : Type} (loadable a b c : option A) :
  Aux.filled loadable a b -> Aux.filled loadable b c -> Aux.filled loadable a c.
Proof.
  intros [Hab | (Ha & v & Hv & Hb)] [Hbc | (Hb' & v' & Hv' & Hc)].
  - left. congruence.
  - subst b. right. eauto.
  - right. split; [exact Ha|]. exists v. split; [exact Hv | congruence].
  - congruence.
Qed.

Lemma filled_Some {A : Type} (loadable : option A) (v : A) (x : option A) :
  Aux.filled loadable (Some v) x -> x = Some v.
Proof. intros [H | (H & _)]; [exact H | discriminate]. Qed.

Lemma filled_None {A : Type} (x : option A) : Aux.filled None None x -> x = None.
Proof. intros [H | (_ & v & H & _)]; [exact H | discriminate]. Qed.

Lemma extends_refl (w : World) (g : Globals) : Aux.extends w g g.
Proof. repeat split; apply filled_refl. Qed.

Lemma extends_trans (w : World) (g1 g2 g3 : Globals) :
  Aux.extends w g1 g2 -> Aux.extends w g2 g3 -> Aux.extends w g1 g3.
Proof.
  intros (A1 & A2 & A3 & A4 & A5) (B1 & B2 & B3 & B4 & B5).
  repeat split; eapply filled_trans; eassumption.
Qed.

Lemma stable_ret {A : Type} (w : World) (a : A) : Aux.stable w (ret a).
Proof.
  intros g r g1 H. inversion H; subst. split; [apply extends_refl | reflexivity].
Qed.

Lemma stable_lift {A : Type} (w : World) (o : outcome A) : Aux.stable w (lift o).
Proof.
  intros g r g1 H. inversion H; subst. split; [apply extends_refl | reflexivity].
Qed.

Lemma stable_raise {A : Type} (w : World) (e : exn) : Aux.stable w (@raise A e).
Proof.
  intros g r g1 H. inversion H; subst. split; [apply extends_refl | reflexivity].
Qed.

Lemma stable_bind {A B : Type} (w : World) (c : M A) (k : A -> M B) :
  Aux.stable w c -> (forall a, Aux.stable w (k a)) -> Aux.stable w (bind c k).
Proof.
  intros Hc Hk g r g2 H. unfold bind in H.
  destruct (c g) as [[a|e] g1] eqn:Ec.
  - destruct (Hc g (Ok a) g1 Ec) as [E1 S1].
    destruct (Hk a g1 r g2 H) as [E2 S2].
    split; [eapply extends_trans; eassumption|].
    intros g3 E3. unfold bind.
    rewrite (S1 g3 (extends_trans w g1 g2 g3 E2 E3)).
    apply S2. exact E3.
  - inversion H; subst.
    destruct (Hc g (Raise e) g2 Ec) as [E1 S1].
    split; [exact E1|].
    intros g3 E3. unfold bind. now rewrite (S1 g3 E3).
Qed.

Lemma stable_try_except {A : Type} (w : World) (c h : M A) :
  Aux.stable w c -> Aux.stable w h -> Aux.stable w (try_except c h).
Proof.
  intros Hc Hh g r g2 H. unfold try_except in H.
  destruct (c g) as [[a|e] g1] eqn:Ec.
  - inversion H; subst.
    destruct (Hc g (Ok a) g2 Ec) as [E1 S1].
    split; [exact E1|].
    intros g3 E3. unfold try_except. now rewrite (S1 g3 E3).
  - destruct (Hc g (Raise e) g1 Ec) as [E1 S1].
    destruct (Hh g1 r g2 H) as [E2 S2].
    split; [eapply extends_trans; eassumption|].
    intros g3 E3. unfold try_except.
    rewrite (S1 g3 (extends_trans w g1 g2 g3 E2 E3)).
    apply S2. exact E3.
Qed.

Lemma load_xgb_stable (w : World) : Aux.stable w (Serve_models.load_xgb w).
Proof.
  intros g r g1 H.
  unfold Serve_models.load_xgb, bind, read, try_except, lift, write, ret in *.
  destruct (_xgb_model g) as [m|] eqn:Eg.
  - inversion H; subst. split; [apply extends_refl|].
    intros g2 (E & _). rewrite Eg in E. apply filled_Some in E. now rewrite E.
  - destruct (dynamic_pricing_xgb_pkl w) as [[m|e]|] eqn:Ef.
    + inversion H; subst. split.
      * repeat split; try apply filled_refl.
        right. split; [exact Eg|]. exists m. rewrite Ef. split; reflexivity.
      * intros g2 (E & _). cbn in E. apply filled_Some in E. now rewrite E.
    + inversion H; subst. split; [apply extends_refl|].
      intros g2 (E & _). rewrite Eg, Ef in E. apply filled_None in E. now rewrite E.
    + inversion H; subst. split; [apply extends_refl|].
      intros g2 (E & _). rewrite Eg, Ef in E. apply filled_None in E. now rewrite E.
Qed.

Lemma load_dqn_stable (w : World) : Aux.stable w (Serve_models.load_dqn w).
Proof.
  intros g r g1 H.
  unfold Serve_models.load_dqn, bind, read, try_except, lift, write, ret in *.
  destruct (_dqn_state g) as [m|] eqn:Eg.
  - inversion H; subst. split; [apply extends_refl|].
    intros g2 (_ & E & _). rewrite Eg in E. apply filled_Some in E. now rewrite E.
  - destruct (dynamic_pricing_dqn_pt w) as [[m|e]|] eqn:Ef.
    + inversion H; subst. split.
      * repeat split; try apply filled_refl.
        right. split; [exact Eg|]. exists m. rewrite Ef. split; reflexivity.
      * intros g2 (_ & E & _). cbn in E. apply filled_Some in E. now rewrite E.
    + inversion H; subst. split; [apply extends_refl|].
      intros g2 (_ & E & _). rewrite Eg, Ef in E. apply filled_None in E. now rewrite E.
    + inversion H; subst. split; [apply extends_refl|].
      intros g2 (_ & E & _). rewrite Eg, Ef in E. apply filled_None in E. now rewrite E.
Qed.

Lemma load_model_stable (w : World) : Aux.stable w (Demand_forecasting.load_model w).
Proof.
  intros g r g1 H.
  unfold Demand_forecasting.load_model, bind, read, lift, write, ret in *.
  destruct (_model g) as [m|] eqn:Eg.
  - inversion H; subst. split; [apply extends_refl|].
    intros g2 (_ & _ & E & _). rewrite Eg in E. apply filled_Some in E. now rewrite E.
  - destruct (demand_forecasting_pkl w) as [[m|e]|] eqn:Ef.
    + inversion H; subst. split.
      * repeat split; try apply filled_refl.
        right. split; [exact Eg|]. exists m. rewrite Ef. split; reflexivity.
      * intros g2 (_ & _ & E & _). cbn in E. apply filled_Some in E. now rewrite E.
    + inversion H; subst. split; [apply extends_refl|].
      intros g2 (_ & _ & E & _). rewrite Eg, Ef in E. apply filled_None in E.
      now rewrite E.
    + inversion H; subst. split; [apply extends_refl|].
      intros g2 (_ & _ & E & _). rewrite Eg, Ef in E. apply filled_None in E.
      now rewrite E.
Qed.

Lemma _load_from_file_stable (w : World) : Aux.stable w (Competitors._load_from_file w).
Proof.
  intros g r g1 H.
  unfold Competitors._load_from_file, bind, read, write, ret in *.
  destruct (_comp_cache g) as [d|] eqn:Eg.
  - inversion H; subst. split; [apply extends_refl|].
    intros g2 (_ & _ & _ & E & _). rewrite Eg in E. apply filled_Some in E. now rewrite E.
  - inversion H; subst. split.
    + repeat split; try apply filled_refl.
      right. split; [exact Eg|]. exists (competitors_json w). split; reflexivity.
    + intros g2 (_ & _ & _ & E & _). cbn in E. apply filled_Some in E. now rewrite E.
Qed.

Lemma load_product_catalog_stable (w : World) : Aux.stable w (load_product_catalog w).
Proof.
  intros g r g1 H.
  unfold load_product_catalog, bind, read, write, ret in *.
  destruct (_catalog_cache g) as [d|] eqn:Eg.
  - inversion H; subst. split; [apply extends_refl|].
    intros g2 (_ & _ & _ & _ & E). rewrite Eg in E. apply filled_Some in E. now rewrite E.
  - inversion H; subst. split.
    + repeat split; try apply filled_refl.
      right. split; [exact Eg|]. exists (products_json w). split; reflexivity.
    + intros g2 (_ & _ & _ & _ & E). cbn in E. apply filled_Some in E. now rewrite E.
Qed.

Lemma predict_with_models_stable (w : World)
    (base_price competitor_price expected_demand : Q) (quality_grade : string)
    (inventory expiry_hours : Z) (unit_cost : Q) (candidates : list Q) :
  Aux.stable w (Serve_models.predict_with_models w base_price competitor_price
                  expected_demand quality_grade inventory expiry_hours unit_cost candidates).
Proof.
  unfold Serve_models.predict_with_models.
  apply stable_bind; [apply load_xgb_stable|]. intros xgb.
  apply stable_bind.
  { destruct xgb; [|apply stable_ret].
    apply stable_bind; [apply stable_lift | intros inv].
    apply stable_try_except; [|apply stable_ret].
    apply stable_bind; [apply stable_lift | intros; apply stable_ret]. }
  intros [pred|]; [apply stable_ret|].
  apply stable_bind; [apply load_dqn_stable|].
  intros [dqn|]; [|apply stable_ret].
  apply stable_try_except; [|apply stable_ret].
  repeat (apply stable_bind; [apply stable_lift | intros]).
  apply stable_ret.
Qed.

Lemma get_competitor_price_stable (w : World) (product_id : string) (base_price : Q) :
  Aux.stable w (Competitors.get_competitor_price w product_id base_price).
Proof.
  unfold Competitors.get_competitor_price, Competitors._fetch_http.
  apply stable_bind; [apply stable_ret|].
  intros [p|]; [apply stable_ret|].
  apply stable_bind; [apply _load_from_file_stable|].
  intros data. destruct (dict_lookup data product_id); [apply stable_ret|].
  apply stable_bind; [apply stable_lift | intros; apply stable_ret].
Qed.

Lemma forecast_product_stable (w : World) (product_id : string) (days : nat) :
  Aux.stable w (Demand_forecasting.forecast_product w product_id days).
Proof.
  unfold Demand_forecasting.forecast_product.
  apply stable_bind; [apply load_model_stable|].
  intros [model|]; [|apply stable_lift].
  apply stable_bind; [apply stable_lift | intros rows].
  apply stable_bind; [apply stable_lift | intros; apply stable_lift].
Qed.

Lemma require_api_key_stable (w : World) (key : string) :
  Aux.stable w (require_api_key w key).
Proof.
  unfold require_api_key.
  destruct (negb (String.eqb (API_KEY w) "") && negb (String.eqb key (API_KEY w)));
    [apply stable_raise | apply stable_ret].
Qed.

Lemma pricing_v1_locals_stable (w : World) (req : PricingV1Request) (key : string) :
  Aux.stable w (pricing_v1_locals w req key).
Proof.
  unfold pricing_v1_locals.
  apply stable_bind; [apply require_api_key_stable | intros _].
  apply stable_bind; [apply load_product_catalog_stable | intros catalog].
  apply stable_bind; [apply stable_lift | intros min_margin].
  apply stable_bind; [apply forecast_product_stable | intros preds].
  apply stable_bind; [apply get_competitor_price_stable | intros competitor].
  apply stable_bind; [apply stable_lift | intros max_discount].
  apply stable_bind; [apply predict_with_models_stable | intros model_price].
  apply stable_bind; [apply stable_lift | intros inventory].
  apply stable_bind; [apply stable_lift | intros [[[bp br] adj] used]].
  apply stable_bind; [apply stable_lift | intros q].
  apply stable_ret.
Qed.

Lemma pricing_optimize_v1_stable (w : World) (req : PricingV1Request) (key : string) :
  Aux.stable w (pricing_optimize_v1 w req key).
Proof.
  unfold pricing_optimize_v1.
  apply stable_bind; [apply pricing_v1_locals_stable | intros; apply stable_ret].
Qed.

(** C9: the handler is a function of the request, the world it reads and
    the caches, so two runs on equal inputs give equal results; and a
    second call, made in the same world on the caches the first call left
    behind (or on any further filling of them), gives the result of the
    first, be it a response or an error, and changes no cache. *)
Theorem pricing_deterministic_and_repeatable :
  forall (w : World) (req : PricingV1Request) (key : string) (g : Globals),
    (forall r1 g1 r2 g2,
        pricing_optimize_v1 w req key g = (r1, g1) ->
        pricing_optimize_v1 w req key g = (r2, g2) ->
        r1 = r2 /\ g1 = g2)
    /\ (forall r1 g1,
          pricing_optimize_v1 w req key g = (r1, g1) ->
          pricing_optimize_v1 w req key g1 = (r1, g1)
          /\ forall g2, Aux.extends w g1 g2 ->
                        pricing_optimize_v1 w req key g2 = (r1, g2)).
Proof.
  intros w req key g. split.
  - intros r1 g1 r2 g2 H1 H2. rewrite H1 in H2. inversion H2. split; reflexivity.
  - intros r1 g1 H.
    destruct (pricing_optimize_v1_stable w req key g r1 g1 H) as [_ S].
    split; [apply S, extends_refl | exact S].
Qed.

Lemma pricing_deterministic_and_repeatable_witness :
  exists (resp : PricingV1Response) (g1 : Globals),
    pricing_optimize_v1 Examples.cheap_model_world Examples.tomato_request ""
      fresh_globals = (Ok resp, g1)
    /\ g1 <> fresh_globals
    /\ pricing_optimize_v1 Examples.cheap_model_world Examples.tomato_request "" g1
       = (Ok resp, g1).
Proof.
  eexists. eexists. split; [vm_compute; reflexivity|].
  split; [discriminate|].
  apply (pricing_deterministic_and_repeatable Examples.cheap_model_world
           Examples.tomato_request "" fresh_globals).
  vm_compute. reflexivity.
Defined.

(** ** The base price in the handler *)

(** C10: the base price the handler computes is strictly positive, it is
    [max(unit_cost*markup, unit_cost*(1+min_margin))] for a positive unit
    cost and [1.0] otherwise, and with it as divisor neither reward
    computation nor the policy's competitor-ratio feature divides by zero;
    it is the [base_price] the handler has when it returns. *)
Theorem base_price_positive_no_zero_division :
  forall (unit_cost min_margin : Q) (quality_grade : string),
    let markup := markup_of (grade_of quality_grade) in
    let base_price := base_price_of unit_cost markup min_margin in
    0 < base_price
    /\ (0 < unit_cost ->
        base_price = Qmax (unit_cost * markup) (unit_cost * (1.0 + min_margin)))
    /\ (unit_cost <= 0 -> base_price = 1.0)
    /\ (forall competitor_price expected_demand inventory expiry_hours p,
          exists r, search_reward competitor_price base_price expected_demand
                      inventory unit_cost expiry_hours p = Ok r)
    /\ (forall competitor_price expected_demand inventory expiry_hours p,
          exists r, model_reward competitor_price base_price expected_demand
                      inventory unit_cost expiry_hours p = Ok r)
    /\ (forall competitor_price,
          Serve_models.competitor_ratio competitor_price base_price
          = Ok (competitor_price / base_price))
    /\ (forall (w : World) (req : PricingV1Request) (key : string)
               (g g' : Globals) (l : Locals),
          pricing_v1_locals w req key g = (Ok l, g') ->
          Main.quality_grade req = quality_grade ->
          Main.unit_cost l = unit_cost -> Main.min_margin l = min_margin ->
          Main.base_price l = base_price).
Proof.
  intros unit_cost min_margin quality_grade markup base_price.
  assert (Hpos : 0 < base_price)
    by (apply base_price_of_positive, markup_of_positive).
  split; [exact Hpos|].
  split.
  { intros Hu. subst base_price. unfold base_price_of.
    apply Qgtb_true in Hu. now rewrite Hu. }
  split.
  { intros Hu. subst base_price. unfold base_price_of.
    apply Qgtb_false in Hu. now rewrite Hu. }
  split.
  { intros c e inv h p. unfold search_reward.
    rewrite !py_div_pos by exact Hpos. simpl. eauto. }
  split.
  { intros c e inv h p. unfold model_reward.
    rewrite !py_div_pos by exact Hpos. simpl. eauto. }
  split.
  { intros c. unfold Serve_models.competitor_ratio.
    apply Qgtb_true in Hpos. rewrite Hpos.
    apply py_div_pos. now apply Qgtb_true. }
  intros w req key g g' l Hrun Hq Hu Hm.
  destruct (pricing_v1_locals_inv w req key g g' l Hrun)
    as (Hgrade & Hmarkup & _ & Hbase & _).
  subst base_price markup. rewrite Hbase, Hmarkup, Hgrade, Hq, Hu, Hm. reflexivity.
Qed.

Lemma base_price_positive_no_zero_division_witness :
  0 < 2.0
  /\ 0 < base_price_of 2.0 (markup_of (grade_of "A")) 0.15
  /\ base_price_of 2.0 (markup_of (grade_of "A")) 0.15
     = Qmax (2.0 * markup_of (grade_of "A")) (2.0 * (1.0 + 0.15)).
Proof.
  split; [reflexivity|].
  destruct (base_price_positive_no_zero_division 2.0 0.15 "A") as (Hpos & Hmax & _).
  split; [exact Hpos|]. apply Hmax. reflexivity.
Defined.

(** ** Worked examples *)

(** The request of the specification's first scenario: base price 4, floor
    2.8, five candidates, none clamped, competitor estimate 3.92. *)
Example tomato_candidates :
  exists (l : Locals) (g' : Globals),
    pricing_v1_locals Examples.bare_world Examples.tomato_request "" fresh_globals
    = (Ok l, g')
    /\ base_price l == 4 /\ min_allowed_price l == 2.8
    /\ Forall2 Qeq (candidates l) [3.6; 3.8; 4; 4.2; 4.4]
    /\ competitor_price l == 3.92.
Proof.
  eexists. eexists. split; [vm_compute; reflexivity|].
  split; [reflexivity|]. split; [reflexivity|].
  split; [repeat (apply Forall2_cons; [reflexivity|]); apply Forall2_nil|].
  reflexivity.
Qed.

(** With no expected demand every candidate has the same reward and the
    search keeps the first one. *)
Example equal_rewards_keep_the_first_candidate :
  exists r,
    exhaustive_search 3.92 4 0 100 2 72 [3.6; 3.8; 4; 4.2; 4.4] = Ok (Fin r, 3.6)
    /\ search_reward 3.92 4 0 100 2 72 4.4 = Ok r.
Proof.
  eexists. split; vm_compute; reflexivity.
Qed.

(** * Further properties of the pricing code *)

(** ** The competitor price ([get_competitor_price]) *)

(** The dict [_load_from_file] hands out on the globals [g]. *)
Lemma _load_from_file_run (w : World) (g : Globals) :
  exists g',
    Competitors._load_from_file w g
    = (Ok (match _comp_cache g with Some d => d | None => competitors_json w end), g')
    /\ _comp_cache g'
       = Some (match _comp_cache g with Some d => d | None => competitors_json w end).
Proof.
  unfold Competitors._load_from_file, bind, read, write, ret.
  destruct (_comp_cache g) as [d|] eqn:E.
  - exists g. split; [reflexivity | exact E].
  - eexists. split; reflexivity.
Qed.

Lemma competitor_price_bound
    (w : World) (pid : string) (base : Q) (g g' : Globals) (p : Q) :
  Competitors.get_competitor_price w pid base g = (Ok p, g') -> 0.1 <= p.
Proof.
  unfold Competitors.get_competitor_price, Competitors._fetch_http, bind at 1, ret at 1.
  destruct (competitor_api w pid) as [h|].
  - unfold ret. intros H. inversion H; subst. apply Q.le_max_l.
  - destruct (_load_from_file_run w g) as (g1 & Hrun & _).
    rewrite (bind_run _ _ _ _ _ Hrun).
    destruct (dict_lookup _ pid) as [mp|].
    + unfold ret. intros H. inversion H; subst. apply Q.le_max_l.
    + unfold bind, lift, ret.
      destruct (getenv_float_default w "COMPETITOR_PRICE_FACTOR" 0.98) as [f|e];
        intros H; inversion H; subst. apply Q.le_max_l.
Qed.

(** Whatever source answers (feed, file or the factor on the base price),
    the competitor price handed back is at least 0.1. *)
Theorem competitor_price_at_least_a_tenth :
  forall (w : World) (product_id : string) (base_price : Q) (g g' : Globals) (p : Q),
    Competitors.get_competitor_price w product_id base_price g = (Ok p, g') ->
    0.1 <= p.
Proof.
  intros w pid base g g' p H. exact (competitor_price_bound w pid base g g' p H).
Qed.

Lemma competitor_price_at_least_a_tenth_witness :
  exists (p : Q) (g' : Globals),
    Competitors.get_competitor_price Examples.bare_world "tomato" 4 fresh_globals
    = (Ok p, g')
    /\ 0.1 <= p.
Proof.
  eexists. eexists. split; [vm_compute; reflexivity|].
  eapply (competitor_price_at_least_a_tenth Examples.bare_world "tomato" 4 fresh_globals).
  vm_compute. reflexivity.
Defined.

(** The lookup raises in one situation only: the feed has no answer, the
    file does not list the product, and COMPETITOR_PRICE_FACTOR does not
    parse as a float; the error is the one of the parse. *)
Theorem competitor_price_raises_only_on_bad_factor :
  forall (w : World) (product_id : string) (base_price : Q) (g : Globals) (e : exn),
    (exists g', Competitors.get_competitor_price w product_id base_price g = (Raise e, g'))
    <-> (competitor_api w product_id = None
         /\ dict_lookup (match _comp_cache g with Some d => d | None => competitors_json w end)
              product_id = None
         /\ getenv_float w "COMPETITOR_PRICE_FACTOR" = Some (Raise e)).
Proof.
  intros w pid base g e.
  unfold Competitors.get_competitor_price, Competitors._fetch_http, bind at 1, ret at 1.
  destruct (_load_from_file_run w g) as (g1 & Hrun & _).
  split.
  - intros [g' H].
    destruct (competitor_api w pid) as [h|]; [unfold ret in H; discriminate|].
    rewrite (bind_run _ _ _ _ _ Hrun) in H.
    destruct (dict_lookup _ pid) as [mp|]; [unfold ret in H; discriminate|].
    unfold bind, lift, ret, getenv_float_default in H.
    destruct (getenv_float w "COMPETITOR_PRICE_FACTOR") as [[f|e']|];
      inversion H; subst. repeat split; reflexivity.
  - intros (Hapi & Hfile & Henv). rewrite Hapi.
    rewrite (bind_run _ _ _ _ _ Hrun). rewrite Hfile.
    unfold bind, lift, getenv_float_default. rewrite Henv. eauto.
Qed.

(** ** Where the handler's inputs come from *)

Lemma load_product_catalog_run (w : World) (g : Globals) :
  exists g',
    load_product_catalog w g
    = (Ok (match _catalog_cache g with Some c => c | None => products_json w end), g')
    /\ _model g' = _model g /\ _comp_cache g' = _comp_cache g.
Proof.
  unfold load_product_catalog, bind, read, write, ret.
  destruct (_catalog_cache g) as [c|]; eexists; repeat split; reflexivity.
Qed.

Lemma pricing_v1_locals_inputs (w : World) (req : PricingV1Request) (key : string)
    (g g' : Globals) (l : Locals) :
  pricing_v1_locals w req key g = (Ok l, g') ->
  (API_KEY w = ""%string \/ key = API_KEY w)
  /\ unit_cost l
     = match dict_lookup
               (match _catalog_cache g with Some c => c | None => products_json w end)
               (product_id req) with
       | Some entry => entry_unitCost entry
       | None => 0.0
       end
  /\ getenv_float_default w "PRICING_MIN_MARGIN" 0.15 = Ok (min_margin l)
  /\ getenv_float_default w "PRICING_MAX_DISCOUNT" 0.30 = Ok (max_discount l)
  /\ (exists preds g_f g_f',
        _model g_f = _model g
        /\ Demand_forecasting.forecast_product w (product_id req) 3 g_f = (Ok preds, g_f')
        /\ demand_baseline l
           = match preds with
             | pred :: _ => Demand_forecasting.quantity pred
             | [] => 0.0
             end)
  /\ (exists g_c g_c',
        Competitors.get_competitor_price w (product_id req) (base_price l) g_c
        = (Ok (competitor_price l), g_c'))
  /\ impact l
     = round2_sub_x (best_reward l)
         (Qmin (inject_Z (current_inventory req)) (expected_demand_in l) * base_price l)
  /\ expected_demand_out l
     = Qmax 0.0 (expected_demand_in l
                 * (1.0 + 0.1 * ((competitor_price l - recommended l) / base_price l)))
  /\ reason l
     = (if competitor_adjusted l
        then (if used_model l then "Competitor-adjusted model price"
              else "Competitor-adjusted heuristic price")
        else if used_model l then "Model-driven price"
        else if Qltb (recommended l) (base_price l) then "Expiry-driven discount"
        else "Demand/margin-driven markup")%string.
Proof.
  intros H. unfold pricing_v1_locals in H.
  invert_bind H as u1 g1 Hkey.
  assert (Hk : API_KEY w = ""%string \/ key = API_KEY w).
  { unfold require_api_key in Hkey.
    destruct (String.eqb (API_KEY w) "") eqn:E1.
    - left. now apply String.eqb_eq.
    - destruct (String.eqb key (API_KEY w)) eqn:E2.
      + right. now apply String.eqb_eq.
      + discriminate. }
  apply require_api_key_frame in Hkey. subst g1.
  destruct (load_product_catalog_run w g) as (gc & Hcat' & Hmodel & _).
  invert_bind H as catalog g2 Hcat.
  rewrite Hcat' in Hcat. inversion Hcat; subst catalog g2. clear Hcat.
  invert_bind H as mm g3 Hmm. apply lift_Ok_inv in Hmm. destruct Hmm as [Hmm ->].
  invert_bind H as preds g4 Hpreds.
  invert_bind H as comp g5 Hcomp.
  invert_bind H as md g6 Hmd. apply lift_Ok_inv in Hmd. destruct Hmd as [Hmd ->].
  invert_bind H as mp g7 Hmp.
  invert_bind H as inv g7' Hinv. apply lift_Ok_inv in Hinv. destruct Hinv as [Hinv ->].
  apply py_float_Ok in Hinv. destruct Hinv as [-> _].
  invert_bind H as chosen g8 Hchoose.
  apply lift_Ok_inv in Hchoose. destruct Hchoose as [Hchoose ->].
  destruct chosen as [[[bp br] adj] used].
  invert_bind H as q g9 Hq. apply lift_Ok_inv in Hq. destruct Hq as [Hq ->].
  apply ret_Ok_inv in H. destruct H as [-> _].
  cbn [unit_cost min_margin max_discount demand_baseline base_price competitor_price
       impact best_reward expected_demand_in expected_demand_out recommended reason
       competitor_adjusted used_model].
  split; [exact Hk|]. split; [reflexivity|].
  split; [exact Hmm|]. split; [exact Hmd|].
  split; [exists preds, gc, g4; repeat split; [exact Hmodel | exact Hpreds]|].
  split; [exists g4, g5; exact Hcomp|].
  split; [reflexivity|].
  split.
  { assert (Hb : 0 < base_price_of
                      match dict_lookup
                              match _catalog_cache g with
                              | Some c => c
                              | None => products_json w
                              end (product_id req) with
                      | Some entry => entry_unitCost entry
                      | None => 0.0
                      end (markup_of (grade_of (quality_grade req))) mm)
      by apply base_price_of_positive, markup_of_positive.
    rewrite (py_div_pos _ _ Hb) in Hq. inversion Hq. reflexivity. }
  destruct adj, used; reflexivity.
Qed.

(** In the handler the competitor price is at least 0.1, so the test
    [competitor_price > 0] that guards the competitor adjustment never
    fails. *)
Theorem handler_competitor_price_positive :
  forall (w : World) (req : PricingV1Request) (key : string) (g g' : Globals) (l : Locals),
    pricing_v1_locals w req key g = (Ok l, g') ->
    0.1 <= competitor_price l /\ Qgtb (competitor_price l) 0 = true.
Proof.
  intros w req key g g' l Hrun.
  destruct (pricing_v1_locals_inputs w req key g g' l Hrun)
    as (_ & _ & _ & _ & _ & (gc & gc' & Hcomp) & _).
  assert (H : 0.1 <= competitor_price l).
  { eapply (competitor_price_bound w (product_id req) (base_price l) gc gc').
    exact Hcomp. }
  split; [exact H|]. apply Qgtb_true. lra.
Qed.

Lemma handler_competitor_price_positive_witness :
  exists (l : Locals) (g' : Globals),
    pricing_v1_locals Examples.bare_world Examples.tomato_request "" fresh_globals
    = (Ok l, g')
    /\ 0.1 <= competitor_price l.
Proof.
  eexists. eexists. split; [vm_compute; reflexivity|].
  eapply (handler_competitor_price_positive Examples.bare_world Examples.tomato_request
            "" fresh_globals).
  vm_compute. reflexivity.
Defined.

(** ** Rounding *)

Lemma round_half_even_mono (x y : Q) :
  x <= y -> (round_half_even x <= round_half_even y)%Z.
Proof.
  intros Hxy. pose proof (Qfloor_resp_le x y Hxy) as Hf.
  unfold round_half_even.
  destruct (Z.eq_dec (Qfloor x) (Qfloor y)) as [E|N].
  - rewrite <- E.
    destruct (Qcompare (x - inject_Z (Qfloor x)) (1 # 2)) eqn:Cx;
      destruct (Qcompare (y - inject_Z (Qfloor x)) (1 # 2)) eqn:Cy;
      first [apply Qeq_alt in Cx | apply Qlt_alt in Cx | apply Qgt_alt in Cx];
      first [apply Qeq_alt in Cy | apply Qlt_alt in Cy | apply Qgt_alt in Cy];
      destruct (Z.even (Qfloor x)); try lia; exfalso; lra.
  - assert (Hlt : (Qfloor x + 1 <= Qfloor y)%Z) by lia.
    destruct (Qcompare (x - inject_Z (Qfloor x)) (1 # 2));
      destruct (Qcompare (y - inject_Z (Qfloor y)) (1 # 2));
      destruct (Z.even (Qfloor x)); destruct (Z.even (Qfloor y)); lia.
Qed.

Lemma round2_mono (x y : Q) : x <= y -> round2 x <= round2 y.
Proof.
  intros Hxy. unfold round2.
  assert (H : x * 100 <= y * 100) by lra.
  apply round_half_even_mono in H.
  unfold Qle. cbn [Qnum Qden]. lia.
Qed.

(** ** Bounds on what the handler returns *)

Lemma fold_left_Qmax_upper (xs : list Q) :
  forall (x p : Q), In p (x :: xs) -> p <= fold_left Qmax xs x.
Proof.
  induction xs as [|y ys IH]; intros x p Hin.
  - destruct Hin as [->|[]]. apply Qle_refl.
  - cbn [fold_left]. destruct Hin as [->|[->|Hin]].
    + eapply Qle_trans; [apply Q.le_max_l | apply fold_left_Qmax_ge_init].
    + eapply Qle_trans; [apply Q.le_max_r | apply fold_left_Qmax_ge_init].
    + apply IH. right. exact Hin.
Qed.

Lemma competitor_adjustment_le_max
    (c inv : Q) (h : Z) (floor : Q) (cands : list Q) (mc p p' : Q) (adj : bool) :
  py_max_list cands = Ok mc -> floor <= mc -> p <= mc ->
  competitor_adjustment c inv h floor cands p = Ok (p', adj) ->
  p' <= mc.
Proof.
  intros Hmax Hfloor Hp. unfold competitor_adjustment. rewrite Hmax.
  destruct (Qgtb c 0); [|intros H; inversion H; subst; exact Hp].
  destruct (py_div p c) as [ratio|]; [|discriminate]. cbn [obind].
  destruct (Qgtb ratio 1.05 && (Qgtb inv 30 || (h <=? 24)%Z)).
  - intros H; inversion H; subst.
    apply Q.max_lub; [exact Hfloor | apply Q.le_min_l].
  - destruct (Qltb ratio 0.95 && Qltb inv 10).
    + intros H; inversion H; subst.
      apply Q.max_lub; [exact Hfloor | apply Q.le_min_l].
    + intros H; inversion H; subst. exact Hp.
Qed.

Lemma choose_price_le_max
    (c b e inv uc : Q) (h : Z) (floor : Q) (cands : list Q) (mc : Q)
    (model_price : option Q) (bp : Q) (br : xfloat) (adj used : bool) :
  Forall (fun p => floor <= p) cands ->
  py_max_list cands = Ok mc ->
  choose_price c b e inv uc h floor cands model_price = Ok (bp, br, adj, used) ->
  bp <= mc.
Proof.
  intros Hall Hmax.
  assert (Hfloor : floor <= mc) by (eapply py_max_list_ge_floor; eassumption).
  unfold choose_price. destruct model_price as [mp|].
  - destruct cands as [|x xs]; [discriminate|]. rewrite Hmax. cbn [obind].
    destruct (competitor_adjustment c inv h floor (x :: xs) (Qmin mc (Qmax mp floor)))
      as [[p' a']|] eqn:Eadj; [|discriminate].
    cbn [obind fst snd].
    destruct (model_reward c b e inv uc h p'); [|discriminate].
    cbn [obind]. intros H; inversion H; subst.
    eapply competitor_adjustment_le_max; [exact Hmax | exact Hfloor | | exact Eadj].
    apply Q.le_min_l.
  - destruct (exhaustive_search c b e inv uc h cands) as [[br0 bp0]|] eqn:Es; [|discriminate].
    cbn [obind fst snd].
    destruct (competitor_adjustment c inv h floor cands bp0) as [[p' a']|] eqn:Eadj;
      [|discriminate].
    cbn [obind fst snd]. intros H; inversion H; subst.
    eapply competitor_adjustment_le_max; [exact Hmax | exact Hfloor | | exact Eadj].
    apply exhaustive_search_member in Es.
    destruct cands as [|x xs]; [discriminate|].
    inversion Hmax; subst. now apply fold_left_Qmax_upper.
Qed.

Lemma locals_chosen_between (w : World) (req : PricingV1Request) (key : string)
    (g g' : Globals) (l : Locals) :
  pricing_v1_locals w req key g = (Ok l, g') ->
  exists mc,
    py_max_list (candidates l) = Ok mc
    /\ 0.1 <= min_allowed_price l
    /\ min_allowed_price l <= best_price_chosen l
    /\ best_price_chosen l <= mc.
Proof.
  intros Hrun.
  destruct (pricing_v1_locals_inv w req key g g' l Hrun)
    as (_ & _ & _ & _ & _ & Hfloor & Hcands & Hchoose & _).
  assert (Hall : Forall (fun p => min_allowed_price l <= p) (candidates l))
    by (rewrite Hcands; apply candidates_of_ge_floor).
  assert (Hmc : exists mc, py_max_list (candidates l) = Ok mc)
    by (rewrite Hcands; cbn; eauto).
  destruct Hmc as [mc Hmc]. exists mc.
  split; [exact Hmc|].
  split; [rewrite Hfloor; apply Q.le_max_r|].
  split.
  - eapply choose_price_ge_floor; eassumption.
  - eapply choose_price_le_max; eassumption.
Qed.

(** The price the handler chooses lies between the floor and the largest
    candidate; the A/B step only lowers it, and the returned price exceeds
    the largest candidate by at most half a cent of rounding. *)
Theorem chosen_price_within_floor_and_ceiling :
  forall (w : World) (req : PricingV1Request) (key : string) (g g' : Globals) (l : Locals),
    pricing_v1_locals w req key g = (Ok l, g') ->
    exists max_cand,
      py_max_list (candidates l) = Ok max_cand
      /\ min_allowed_price l <= best_price_chosen l <= max_cand
      /\ best_price l <= best_price_chosen l
      /\ recommended_price (response_of l) <= max_cand + 0.005.
Proof.
  intros w req key g g' l Hrun.
  destruct (locals_chosen_between w req key g g' l Hrun) as (mc & Hmc & H01 & Hlo & Hhi).
  destruct (pricing_v1_locals_inv w req key g g' l Hrun)
    as (_ & _ & _ & _ & _ & _ & _ & _ & Hbest & Hrec & _).
  exists mc. split; [exact Hmc|]. split; [split; assumption|].
  assert (Hb : best_price l <= best_price_chosen l).
  { rewrite Hbest. destruct (String.eqb (bucket l) "B"); lra. }
  split; [exact Hb|].
  cbn [response_of recommended_price]. rewrite Hrec.
  pose proof (round2_near (best_price l)) as [_ Hup]. lra.
Qed.

Lemma chosen_price_within_floor_and_ceiling_witness :
  exists (l : Locals) (g' : Globals) (max_cand : Q),
    pricing_v1_locals Examples.cheap_model_world Examples.tomato_request ""
      fresh_globals = (Ok l, g')
    /\ py_max_list (candidates l) = Ok max_cand
    /\ min_allowed_price l <= best_price_chosen l <= max_cand.
Proof.
  eexists. eexists.
  edestruct (chosen_price_within_floor_and_ceiling Examples.cheap_model_world
               Examples.tomato_request "" fresh_globals) as (mc & Hmc & Hbetween & _).
  - vm_compute. reflexivity.
  - exists mc. split; [vm_compute; reflexivity|]. split; [exact Hmc | exact Hbetween].
Defined.

(** Every price the handler returns is at least 0.10, whatever the
    catalogue, the models, the competitor feed and the bucket are. *)
Theorem recommended_price_at_least_ten_cents :
  forall (w : World) (req : PricingV1Request) (key : string) (g g' : Globals)
         (resp : PricingV1Response),
    pricing_optimize_v1 w req key g = (Ok resp, g') ->
    0.1 <= recommended_price resp.
Proof.
  intros w req key g g' resp H. unfold pricing_optimize_v1 in H.
  invert_bind H as l g1 Hrun. apply ret_Ok_inv in H. destruct H as [-> _].
  destruct (locals_chosen_between w req key g g1 l Hrun) as (mc & _ & H01 & Hlo & _).
  destruct (pricing_v1_locals_inv w req key g g1 l Hrun)
    as (_ & _ & _ & _ & _ & _ & _ & _ & Hbest & Hrec & _).
  cbn [response_of recommended_price]. rewrite Hrec.
  assert (Hb : 0.098 <= best_price l).
  { rewrite Hbest. destruct (String.eqb (bucket l) "B"); lra. }
  apply round2_mono in Hb.
  eapply Qle_trans; [|exact Hb]. vm_compute. discriminate.
Qed.

Lemma recommended_price_at_least_ten_cents_witness :
  exists (resp : PricingV1Response) (g' : Globals),
    pricing_optimize_v1 Examples.cheap_model_world Examples.tomato_request ""
      fresh_globals = (Ok resp, g')
    /\ 0.1 <= recommended_price resp.
Proof.
  eexists. eexists. split; [vm_compute; reflexivity|].
  eapply (recommended_price_at_least_ten_cents Examples.cheap_model_world
            Examples.tomato_request "" fresh_globals).
  vm_compute. reflexivity.
Defined.

Lemma competitor_price_raises_only_on_bad_factor_witness :
  exists g',
    Competitors.get_competitor_price More_examples.bad_factor_world "tomato" 4 fresh_globals
    = (Raise ValueError, g').
Proof.
  apply (competitor_price_raises_only_on_bad_factor More_examples.bad_factor_world
           "tomato" 4 fresh_globals ValueError).
  repeat split; reflexivity.
Defined.

(** The expected demand in the response is never negative. *)
Theorem expected_demand_is_not_negative :
  forall (w : World) (req : PricingV1Request) (key : string) (g g' : Globals)
         (resp : PricingV1Response),
    pricing_optimize_v1 w req key g = (Ok resp, g') ->
    0 <= expected_demand resp.
Proof.
  intros w req key g g' resp H. unfold pricing_optimize_v1 in H.
  invert_bind H as l g1 Hrun. apply ret_Ok_inv in H. destruct H as [-> _].
  destruct (pricing_v1_locals_inputs w req key g g1 l Hrun)
    as (_ & _ & _ & _ & _ & _ & _ & Hout & _).
  cbn [response_of expected_demand].
  assert (H0 : 0 <= expected_demand_out l)
    by (rewrite Hout; eapply Qle_trans; [|apply Q.le_max_l]; discriminate).
  apply round2_mono in H0. eapply Qle_trans; [|exact H0]. vm_compute. discriminate.
Qed.

Lemma expected_demand_is_not_negative_witness :
  exists (resp : PricingV1Response) (g' : Globals),
    pricing_optimize_v1 Examples.bare_world Examples.tomato_request "" fresh_globals
    = (Ok resp, g')
    /\ 0 <= expected_demand resp.
Proof.
  eexists. eexists. split; [vm_compute; reflexivity|].
  eapply (expected_demand_is_not_negative Examples.bare_world Examples.tomato_request ""
            fresh_globals).
  vm_compute. reflexivity.
Defined.

(** ** Errors the handler lets through *)

(** With a key configured, a request carrying another key is refused with
    status 401 before anything else happens: no cache is filled. *)
Theorem wrong_api_key_is_refused_first :
  forall (w : World) (req : PricingV1Request) (key : string) (g : Globals),
    API_KEY w <> ""%string -> key <> API_KEY w ->
    pricing_optimize_v1 w req key g = (Raise (HTTPException 401), g).
Proof.
  intros w req key g Hset Hkey.
  apply String.eqb_neq in Hset. apply String.eqb_neq in Hkey.
  unfold pricing_optimize_v1, pricing_v1_locals, bind at 1 2, require_api_key.
  rewrite Hset, Hkey. reflexivity.
Qed.

Lemma wrong_api_key_is_refused_first_witness :
  pricing_optimize_v1 More_examples.locked_world Examples.tomato_request "guess"
    fresh_globals
  = (Raise (HTTPException 401), fresh_globals).
Proof.
  apply (wrong_api_key_is_refused_first More_examples.locked_world
           Examples.tomato_request "guess" fresh_globals); discriminate.
Defined.

Lemma forecast_product_raises (w : World) (pid : string) (days : nat) (g : Globals)
    (e : exn) :
  let start := utc_now w in
  let model_fails (model : DemandModel) :=
    (~ Aux.dates_fit start days /\ e = OverflowError)
    \/ (Aux.dates_fit start days /\ model pid start days = Raise e)
    \/ (Aux.dates_fit start days
        /\ exists ps, model pid start days = Ok ps
                      /\ ~ Aux.dates_fit start (List.length ps) /\ e = OverflowError) in
  (exists g', Demand_forecasting.forecast_product w pid days g = (Raise e, g'))
  <-> match _model g with
      | Some model => model_fails model
      | None =>
          match demand_forecasting_pkl w with
          | None => ~ Aux.dates_fit start days /\ e = OverflowError
          | Some (Raise e') => e' = e
          | Some (Ok model) => model_fails model
          end
      end.
Proof.
  cbv zeta.
  assert (Hmodel : forall (m : DemandModel) (g1 : Globals),
            (exists g', lift (Aux.forecast_rows w pid days (Some m)) g1 = (Raise e, g'))
            <-> (~ Aux.dates_fit (utc_now w) days /\ e = OverflowError)
                \/ (Aux.dates_fit (utc_now w) days /\ m pid (utc_now w) days = Raise e)
                \/ (Aux.dates_fit (utc_now w) days
                    /\ exists ps, m pid (utc_now w) days = Ok ps
                                  /\ ~ Aux.dates_fit (utc_now w) (List.length ps)
                                  /\ e = OverflowError)).
  { intros m g1. unfold lift, Aux.forecast_rows.
    destruct (Aux.dates_fitb (utc_now w) days) eqn:Ed.
    - apply dates_fitb_true in Ed.
      destruct (m pid (utc_now w) days) as [ps|e'] eqn:Em; cbn [obind].
      + destruct (Aux.dates_fitb (utc_now w) (List.length ps)) eqn:Ep.
        * apply dates_fitb_true in Ep. split.
          -- intros [g' H]. discriminate.
          -- intros [[Hn _] | [[_ H] | (_ & ps' & H & Hn & _)]];
               [contradiction | discriminate | inversion H; subst; contradiction].
        * apply dates_fitb_false in Ep. split.
          -- intros [g' H]. inversion H; subst. right. right.
             split; [exact Ed|]. exists ps. repeat split; [exact Ep].
          -- intros [[Hn _] | [[_ H] | (_ & ps' & H & Hn & ->)]];
               [contradiction | discriminate | eauto].
      + split.
        * intros [g' H]. inversion H; subst. right. left. split; [exact Ed | reflexivity].
        * intros [[Hn _] | [[_ H] | (_ & ps' & H & _)]];
            [contradiction | inversion H; eauto | discriminate].
    - apply dates_fitb_false in Ed. split.
      + intros [g' H]. inversion H; subst. left. split; [exact Ed | reflexivity].
      + intros [[_ ->] | [[Hf _] | [Hf _]]]; [eauto | contradiction | contradiction]. }
  assert (Hnone : forall g1 : Globals,
            (exists g', lift (Aux.forecast_rows w pid days None) g1 = (Raise e, g'))
            <-> (~ Aux.dates_fit (utc_now w) days /\ e = OverflowError)).
  { intros g1. unfold lift, Aux.forecast_rows.
    destruct (Aux.dates_fitb (utc_now w) days) eqn:Ed.
    - apply dates_fitb_true in Ed. split; [intros [g' H]; discriminate|].
      intros [Hn _]. contradiction.
    - apply dates_fitb_false in Ed. split.
      + intros [g' H]. inversion H; subst. split; [exact Ed | reflexivity].
      + intros [_ ->]. eauto. }
  assert (Hrun : forall r,
            Demand_forecasting.forecast_product w pid days g = r <->
            match _model g with
            | Some m => lift (Aux.forecast_rows w pid days (Some m)) g
            | None =>
                match demand_forecasting_pkl w with
                | None => lift (Aux.forecast_rows w pid days None) g
                | Some (Raise e') => (Raise e', g)
                | Some (Ok m) =>
                    lift (Aux.forecast_rows w pid days (Some m)) (set_model (Some m) g)
                end
            end = r).
  { intros r. rewrite forecast_product_rows.
    unfold Demand_forecasting.load_model, bind at 1 2, read, write, ret.
    destruct (_model g) as [m|]; [reflexivity|].
    destruct (demand_forecasting_pkl w) as [[m|e']|]; reflexivity. }
  split.
  - intros [g' H]. apply Hrun in H.
    destruct (_model g) as [m|].
    + apply (proj1 (Hmodel m g)). eauto.
    + destruct (demand_forecasting_pkl w) as [[m|e']|].
      * apply (proj1 (Hmodel m (set_model (Some m) g))). eauto.
      * now inversion H.
      * apply (proj1 (Hnone g)). eauto.
  - intros H.
    assert (E : exists g',
              match _model g with
              | Some m => lift (Aux.forecast_rows w pid days (Some m)) g
              | None =>
                  match demand_forecasting_pkl w with
                  | None => lift (Aux.forecast_rows w pid days None) g
                  | Some (Raise e') => (Raise e', g)
                  | Some (Ok m) =>
                      lift (Aux.forecast_rows w pid days (Some m)) (set_model (Some m) g)
                  end
              end = (Raise e, g')).
    { destruct (_model g) as [m|].
      - apply (proj2 (Hmodel m g)). exact H.
      - destruct (demand_forecasting_pkl w) as [[m|e']|].
        + apply (proj2 (Hmodel m (set_model (Some m) g))). exact H.
        + subst e'. eauto.
        + apply (proj2 (Hnone g)). exact H. }
    destruct E as [g' E]. exists g'. apply Hrun. exact E.
Qed.

(** [forecast_product] has no handler of its own.  It raises exactly when
    unpickling the demand model raises, when the model's prediction raises,
    or when one of the forecast dates falls beyond the year 9999, which is
    an [OverflowError] of [start_date + timedelta(days=i)]: for one of the
    [days] dates of the request, or, with a model, for one of the dates of
    its predictions.  The error is that of the failing call. *)
Theorem forecast_raises_for_model_or_date_errors :
  forall (w : World) (product_id : string) (days : nat) (g : Globals) (e : exn),
    let start := utc_now w in
    let model_fails (model : DemandModel) :=
      (~ Aux.dates_fit start days /\ e = OverflowError)
      \/ (Aux.dates_fit start days /\ model product_id start days = Raise e)
      \/ (Aux.dates_fit start days
          /\ exists ps, model product_id start days = Ok ps
                        /\ ~ Aux.dates_fit start (List.length ps) /\ e = OverflowError) in
    (exists g', Demand_forecasting.forecast_product w product_id days g = (Raise e, g'))
    <-> match _model g with
        | Some model => model_fails model
        | None =>
            match demand_forecasting_pkl w with
            | None => ~ Aux.dates_fit start days /\ e = OverflowError
            | Some (Raise e') => e' = e
            | Some (Ok model) => model_fails model
            end
        end.
Proof. intros. apply forecast_product_raises. Qed.

Lemma forecast_raises_for_model_or_date_errors_witness :
  (exists g',
     Demand_forecasting.forecast_product More_examples.broken_forecast_world "tomato" 3
       fresh_globals = (Raise Exception, g'))
  /\ (exists g',
        Demand_forecasting.forecast_product More_examples.last_day_world "tomato" 3
          fresh_globals = (Raise OverflowError, g')).
Proof.
  split.
  - apply (forecast_raises_for_model_or_date_errors More_examples.broken_forecast_world
             "tomato" 3 fresh_globals Exception).
    reflexivity.
  - apply (forecast_raises_for_model_or_date_errors More_examples.last_day_world
             "tomato" 3 fresh_globals OverflowError).
    split; [|reflexivity].
    intros [H | [_ H]]; [discriminate | vm_compute in H; apply H; reflexivity].
Defined.

(** Unlike a failure of the pricing models, a failure of the demand model
    is fatal for the pricing endpoint: when the key is accepted and
    PRICING_MIN_MARGIN parses, an error of [forecast_product] is the
    outcome of the request. *)
Theorem demand_model_failure_fails_the_request :
  forall (w : World) (req : PricingV1Request) (key : string) (g : Globals) (e : exn),
    (API_KEY w = ""%string \/ key = API_KEY w) ->
    (forall e', getenv_float w "PRICING_MIN_MARGIN" <> Some (Raise e')) ->
    (forall g0, _model g0 = _model g ->
       exists g', Demand_forecasting.forecast_product w (product_id req) 3 g0
                  = (Raise e, g')) ->
    exists g', pricing_optimize_v1 w req key g = (Raise e, g').
Proof.
  intros w req key g e Hkey Henv Hforecast.
  unfold pricing_optimize_v1, pricing_v1_locals.
  assert (Hk : require_api_key w key g = (Ok tt, g)).
  { unfold require_api_key. destruct Hkey as [-> | ->].
    - reflexivity.
    - rewrite String.eqb_refl, andb_false_r. reflexivity. }
  unfold bind at 1. rewrite (bind_run _ _ _ _ _ Hk).
  destruct (load_product_catalog_run w g) as (g1 & Hcat & Hm & _).
  rewrite (bind_run _ _ _ _ _ Hcat).
  assert (Hmm : exists mm, getenv_float_default w "PRICING_MIN_MARGIN" 0.15 = Ok mm).
  { unfold getenv_float_default.
    destruct (getenv_float w "PRICING_MIN_MARGIN") as [[q|e']|]; eauto.
    exfalso. exact (Henv e' eq_refl). }
  destruct Hmm as [mm Hmm]. rewrite Hmm.
  unfold lift at 1. unfold bind at 1.
  destruct (Hforecast g1 Hm) as [g2 Hf].
  unfold bind at 1. rewrite Hf. eauto.
Qed.

Lemma demand_model_failure_fails_the_request_witness :
  exists g',
    pricing_optimize_v1 More_examples.broken_forecast_world Examples.tomato_request ""
      fresh_globals = (Raise Exception, g').
Proof.
  apply (demand_model_failure_fails_the_request More_examples.broken_forecast_world
           Examples.tomato_request "" fresh_globals Exception).
  - left. reflexivity.
  - intros e'. discriminate.
  - intros g0 H0.
    apply (forecast_product_raises More_examples.broken_forecast_world "tomato" 3 g0
             Exception).
    cbn in H0. rewrite H0. reflexivity.
Defined.

(** ** The demand forecast ([forecast_product]) *)

Lemma nth_error_combine_seq {A : Type} (ps : list A) :
  forall (s i : nat) (ip : nat * A),
    nth_error (combine (seq s (List.length ps)) ps) i = Some ip ->
    fst ip = (s + i)%nat /\ nth_error ps i = Some (snd ip).
Proof.
  induction ps as [|p ps IH]; intros s i ip H.
  - destruct i; discriminate.
  - destruct i as [|i]; cbn in H.
    + inversion H; subst. cbn. split; [lia | reflexivity].
    + apply IH in H. destruct H as [H1 H2]. split; [lia | exact H2].
Qed.

Lemma forecast_row_ordered (q u : Q) :
  0 <= q -> 0 <= u ->
  Qmax 0.0 (q * (1.0 - u)) <= q /\ q <= q * (1.0 + u).
Proof.
  intros Hq Hu. pose proof (Qmult_le_0_compat q u Hq Hu) as Hqu.
  split.
  - apply Q.max_lub; lra.
  - lra.
Qed.

Lemma forecast_product_run (w : World) (pid : string) (days : nat) (g g' : Globals)
    (preds : list Demand_forecasting.Prediction) :
  Demand_forecasting.forecast_product w pid days g = (Ok preds, g') ->
  let u := demand_uncertainty w in
  let row (i : nat) (q : Q) :=
    {| Demand_forecasting.date := (utc_now w + Z.of_nat i)%Z;
       Demand_forecasting.quantity := q;
       Demand_forecasting.quantityLow := Qmax 0.0 (q * (1.0 - u));
       Demand_forecasting.quantityHigh := q * (1.0 + u) |} in
  (_model g = None /\ demand_forecasting_pkl w = None
   /\ preds = map (fun d => row d 10.0) (seq 0 days))
  \/ (exists model ps,
        (_model g = Some model
         \/ (_model g = None /\ demand_forecasting_pkl w = Some (Ok model)))
        /\ model pid (utc_now w) days = Ok ps
        /\ preds = map (fun ip => row (fst ip) (Qmax 0.0 (snd ip)))
                       (combine (seq 0 (List.length ps)) ps)).
Proof.
  rewrite forecast_product_rows.
  assert (Hmodel : forall (m : DemandModel) (g1 : Globals),
            lift (Aux.forecast_rows w pid days (Some m)) g1 = (Ok preds, g') ->
            exists ps,
              m pid (utc_now w) days = Ok ps
              /\ preds = map (fun ip => Aux.forecast_row w (fst ip) (Qmax 0.0 (snd ip)))
                             (combine (seq 0 (List.length ps)) ps)).
  { intros m g1. unfold lift, Aux.forecast_rows.
    destruct (Aux.dates_fitb (utc_now w) days); [|discriminate].
    destruct (m pid (utc_now w) days) as [ps|]; [|discriminate]. cbn [obind].
    destruct (Aux.dates_fitb (utc_now w) (List.length ps)); [|discriminate].
    intros H. inversion H. eauto. }
  unfold Demand_forecasting.load_model, bind at 1 2, read, write, ret. cbv zeta.
  destruct (_model g) as [m|] eqn:Eg.
  - intros H. apply Hmodel in H. destruct H as (ps & Hps & ->).
    right. exists m, ps. repeat split; auto.
  - destruct (demand_forecasting_pkl w) as [[m|e]|] eqn:Ef; unfold lift at 1.
    + intros H. apply Hmodel in H. destruct H as (ps & Hps & ->).
      right. exists m, ps. repeat split; auto.
    + discriminate.
    + unfold bind, lift, Aux.forecast_rows.
      destruct (Aux.dates_fitb (utc_now w) days); [|discriminate].
      intros H; inversion H; subst. left. repeat split; reflexivity.
Qed.

(** Every row [forecast_product] returns has a quantity and a lower bound
    that are not negative; the i-th row is dated i days after today; with
    an uncertainty that is not negative the lower bound, the quantity and
    the upper bound are in this order.  Without a demand model there are
    exactly [days] rows, each of quantity 10; with one there is a row per
    model output, negative outputs being raised to 0. *)
Theorem forecast_rows_are_well_formed :
  forall (w : World) (product_id : string) (days : nat) (g g' : Globals)
         (preds : list Demand_forecasting.Prediction),
    Demand_forecasting.forecast_product w product_id days g = (Ok preds, g') ->
    Forall (fun p =>
              0 <= Demand_forecasting.quantity p
              /\ 0 <= Demand_forecasting.quantityLow p
              /\ (0 <= demand_uncertainty w ->
                  Demand_forecasting.quantityLow p <= Demand_forecasting.quantity p
                  /\ Demand_forecasting.quantity p <= Demand_forecasting.quantityHigh p))
           preds
    /\ (forall i p, nth_error preds i = Some p ->
                    Demand_forecasting.date p = (utc_now w + Z.of_nat i)%Z)
    /\ (_model g = None -> demand_forecasting_pkl w = None ->
        List.length preds = days
        /\ Forall (fun p => Demand_forecasting.quantity p = 10.0) preds)
    /\ (forall model ps,
          (_model g = Some model
           \/ (_model g = None /\ demand_forecasting_pkl w = Some (Ok model))) ->
          model product_id (utc_now w) days = Ok ps ->
          map Demand_forecasting.quantity preds = map (Qmax 0.0) ps).
Proof.
  intros w pid days g g' preds Hrun.
  apply forecast_product_run in Hrun. cbv zeta in Hrun.
  assert (H0 : 0 <= 0.0) by discriminate.
  destruct Hrun as [(Hg & Hf & ->) | (m & ps & Hm & Hps & ->)].
  - split.
    { rewrite Forall_map. apply Forall_forall. intros d _.
      cbn [Demand_forecasting.quantity Demand_forecasting.quantityLow
           Demand_forecasting.quantityHigh].
      split; [discriminate|]. split; [eapply Qle_trans; [exact H0 | apply Q.le_max_l]|].
      intros Hu. apply forecast_row_ordered; [discriminate | exact Hu]. }
    split.
    { intros i p Hi. rewrite nth_error_map, nth_error_seq in Hi.
      destruct (i <? days)%nat; [|discriminate].
      cbn in Hi. inversion Hi; subst. reflexivity. }
    split.
    { intros _ _. split; [now rewrite length_map, length_seq|].
      rewrite Forall_map. apply Forall_forall. intros d _. reflexivity. }
    intros m ps [Hm | [_ Hm]]; rewrite ?Hg, ?Hf in Hm; discriminate.
  - split.
    { rewrite Forall_map. apply Forall_forall. intros ip _.
      cbn [Demand_forecasting.quantity Demand_forecasting.quantityLow
           Demand_forecasting.quantityHigh].
      assert (Hq : 0 <= Qmax 0.0 (snd ip))
        by (eapply Qle_trans; [exact H0 | apply Q.le_max_l]).
      split; [exact Hq|]. split; [eapply Qle_trans; [exact H0 | apply Q.le_max_l]|].
      intros Hu. apply forecast_row_ordered; assumption. }
    split.
    { intros i p Hi. rewrite nth_error_map in Hi.
      destruct (nth_error (combine (seq 0 (List.length ps)) ps) i) as [ip|] eqn:E;
        [|discriminate].
      cbn in Hi. inversion Hi; subst.
      apply nth_error_combine_seq in E. destruct E as [E _].
      cbn [Demand_forecasting.date]. now rewrite E. }
    split.
    { intros Hg Hf. destruct Hm as [Hm | [_ Hm]]; rewrite ?Hg, ?Hf in Hm; discriminate. }
    intros m' ps' Hm' Hps'.
    assert (m' = m).
    { destruct Hm as [Hm | [Hm1 Hm2]]; destruct Hm' as [Hm' | [Hm1' Hm2']]; congruence. }
    subst m'. rewrite Hps in Hps'. inversion Hps'; subst ps'.
    rewrite map_map. cbn [Demand_forecasting.quantity].
    clear. generalize 0%nat. induction ps as [|p ps IH]; intros s; [reflexivity|].
    cbn. f_equal. apply IH.
Qed.

Lemma forecast_rows_are_well_formed_witness :
  exists (preds : list Demand_forecasting.Prediction) (g' : Globals),
    Demand_forecasting.forecast_product More_examples.forecasting_world "tomato" 3
      fresh_globals = (Ok preds, g')
    /\ map Demand_forecasting.quantity preds = map (Qmax 0.0) [-3; 4; 5].
Proof.
  eexists. eexists. split; [vm_compute; reflexivity|].
  eapply (forecast_rows_are_well_formed More_examples.forecasting_world "tomato" 3
            fresh_globals).
  - vm_compute. reflexivity.
  - right. split; reflexivity.
  - reflexivity.
Defined.

(** ** The model selector ([predict_with_models]) *)

Lemma actions_at_member (idx : nat) (a : Q) :
  Serve_models.actions_at idx = Ok a -> In a Serve_models.actions.
Proof.
  unfold Serve_models.actions_at.
  destruct (nth_error Serve_models.actions idx) as [a'|] eqn:E; [|discriminate].
  intros H; inversion H; subst. eapply nth_error_In. exact E.
Qed.

Lemma predict_with_models_cases (w : World)
    (base_price competitor_price expected_demand : Q) (quality_grade : string)
    (inventory expiry_hours : Z) (unit_cost : Q) (candidates : list Q)
    (g g' : Globals) (r : option Q) :
  Serve_models.predict_with_models w base_price competitor_price expected_demand
    quality_grade inventory expiry_hours unit_cost candidates g = (Ok r, g') ->
  let feat := [base_price; dict_get Serve_models.grade_map (upper quality_grade) 1;
               inject_Z inventory; expected_demand; competitor_price] in
  let xgb_in_use :=
    match _xgb_model g with
    | Some xgb => Some xgb
    | None => Aux.loaded (dynamic_pricing_xgb_pkl w)
    end in
  match xgb_in_use with
  | Some xgb =>
      _xgb_model g' = Some xgb
      /\ ((xgb feat = Ok match r with Some p => p | None => 0 end
           /\ r <> None /\ _dqn_state g' = _dqn_state g)
          \/ ((exists e, xgb feat = Raise e)
              /\ match r with
                 | Some p => exists a, In a Serve_models.actions /\ p = base_price * (1.0 + a)
                 | None => True
                 end))
  | None =>
      _xgb_model g' = None
      /\ match r with
         | Some p => exists a, In a Serve_models.actions /\ p = base_price * (1.0 + a)
         | None => True
         end
  end.
Proof.
  intros H. rewrite predict_with_models_run in H. cbv zeta in H |- *.
  assert (Hpol : forall dqn,
            match Aux.dqn_stage dqn base_price competitor_price expected_demand
                    quality_grade inventory expiry_hours with
            | Some p => exists a, In a Serve_models.actions /\ p = base_price * (1.0 + a)
            | None => True
            end).
  { intros [dqn|]; unfold Aux.dqn_stage; [|exact I].
    destruct (Aux.dqn_price dqn base_price competitor_price expected_demand quality_grade
                inventory expiry_hours) as [p|] eqn:E; [|exact I].
    unfold Aux.dqn_price in E.
    destruct (py_float inventory) as [inv|]; [|discriminate]. cbn [obind] in E.
    destruct (Serve_models.competitor_ratio competitor_price base_price) as [ratio|];
      [|discriminate]. cbn [obind] in E.
    destruct (py_float expiry_hours) as [expiry|]; [|discriminate]. cbn [obind] in E.
    destruct (dqn _) as [qvals|]; [|discriminate]. cbn [obind] in E.
    destruct (Serve_models.argmax qvals) as [idx|]; [|discriminate]. cbn [obind] in E.
    destruct (Serve_models.actions_at idx) as [a|] eqn:Ea; [|discriminate].
    cbn [obind] in E. inversion E; subst.
    exists a. split; [eapply actions_at_member; exact Ea | reflexivity]. }
  change (match _xgb_model g with
          | Some xgb => Some xgb
          | None => Aux.loaded (dynamic_pricing_xgb_pkl w)
          end) with (Aux.xgb_in_use w g).
  unfold Aux.xgb_stage in H.
  destruct (Aux.xgb_in_use w g) as [xgb|] eqn:Eu.
  - destruct (py_float inventory) as [inv|e] eqn:Ei; [|discriminate].
    cbn [obind] in H. apply py_float_Ok in Ei. destruct Ei as [-> _].
    destruct (xgb _) as [pred|e] eqn:Ex.
    + inversion H; subst. split; [reflexivity|]. left.
      split; [first [exact Ex | reflexivity] | split; [discriminate | reflexivity]].
    + inversion H; subst. split; [reflexivity|]. right.
      split; [eauto | apply Hpol].
  - inversion H; subst. split; [reflexivity | apply Hpol].
Qed.

(** The regressor has priority: when it is cached or loads, and predicts a
    price for the feature row (of which [float(inventory)] is an entry),
    that price is the answer, the regressor is cached, and the policy
    network is not even loaded. *)
Theorem regressor_takes_priority :
  forall (w : World) (base_price competitor_price expected_demand : Q)
         (quality_grade : string) (inventory expiry_hours : Z) (unit_cost : Q)
         (candidates : list Q) (g : Globals) (xgb : XgbRegressor) (inv pred : Q),
    (_xgb_model g = Some xgb
     \/ (_xgb_model g = None /\ dynamic_pricing_xgb_pkl w = Some (Ok xgb))) ->
    py_float inventory = Ok inv ->
    xgb [base_price; dict_get Serve_models.grade_map (upper quality_grade) 1;
         inv; expected_demand; competitor_price] = Ok pred ->
    exists g',
      Serve_models.predict_with_models w base_price competitor_price expected_demand
        quality_grade inventory expiry_hours unit_cost candidates g
      = (Ok (Some pred), g')
      /\ _xgb_model g' = Some xgb
      /\ _dqn_state g' = _dqn_state g.
Proof.
  intros w bp cp ed qg inv eh uc cands g xgb inv_f pred Hx Hinv Hpred.
  apply py_float_Ok in Hinv. destruct Hinv as [-> Hinv].
  destruct (predict_with_models_returns w bp cp ed qg inv eh uc cands Hinv g)
    as (r & g' & Hrun).
  pose proof (predict_with_models_cases w bp cp ed qg inv eh uc cands g g' r Hrun) as Hc.
  cbv zeta in Hc.
  assert (Huse : match _xgb_model g with
                 | Some x => Some x
                 | None => Aux.loaded (dynamic_pricing_xgb_pkl w)
                 end = Some xgb).
  { destruct Hx as [-> | [-> ->]]; reflexivity. }
  rewrite Huse in Hc. destruct Hc as [Hcache [(Hp & Hr & Hd) | ([e He] & _)]].
  - exists g'. destruct r as [p|]; [|contradiction].
    rewrite Hpred in Hp. inversion Hp; subst.
    repeat split; assumption.
  - rewrite Hpred in He. discriminate.
Qed.

Lemma regressor_takes_priority_witness :
  exists g',
    Serve_models.predict_with_models More_examples.both_models_world 4 3.92 10 "A" 100 72
      2 [3.6; 3.8; 4; 4.2; 4.4] fresh_globals = (Ok (Some 4.1), g')
    /\ _dqn_state g' = None.
Proof.
  edestruct (regressor_takes_priority More_examples.both_models_world 4 3.92 10 "A" 100 72
               2 [3.6; 3.8; 4; 4.2; 4.4] fresh_globals (fun _ => Ok 4.1) 100 4.1)
    as (g' & Hrun & _ & Hd).
  - right. split; reflexivity.
  - vm_compute. reflexivity.
  - reflexivity.
  - exists g'. split; [exact Hrun | exact Hd].
Defined.

(** A price that the model selector returns is either what the regressor
    predicts for the feature row or the base price moved by one of the five
    actions, hence within ten percent of a base price that is not
    negative. *)
Theorem model_price_is_prediction_or_action_step :
  forall (w : World) (base_price competitor_price expected_demand : Q)
         (quality_grade : string) (inventory expiry_hours : Z) (unit_cost : Q)
         (candidates : list Q) (g g' : Globals) (p : Q),
    Serve_models.predict_with_models w base_price competitor_price expected_demand
      quality_grade inventory expiry_hours unit_cost candidates g = (Ok (Some p), g') ->
    (exists xgb,
        (_xgb_model g = Some xgb
         \/ (_xgb_model g = None /\ dynamic_pricing_xgb_pkl w = Some (Ok xgb)))
        /\ xgb [base_price; dict_get Serve_models.grade_map (upper quality_grade) 1;
                inject_Z inventory; expected_demand; competitor_price] = Ok p)
    \/ (exists a,
          In a [-0.10; -0.05; 0.0; 0.05; 0.10]
          /\ p = base_price * (1.0 + a)
          /\ (0 <= base_price -> base_price * 0.9 <= p <= base_price * 1.1)).
Proof.
  intros w bp cp ed qg inv eh uc cands g g' p Hrun.
  pose proof (predict_with_models_cases w bp cp ed qg inv eh uc cands g g' (Some p) Hrun)
    as Hc.
  cbv zeta in Hc.
  assert (Hstep : (exists a, In a Serve_models.actions /\ p = bp * (1.0 + a)) ->
                  exists a, In a [-0.10; -0.05; 0.0; 0.05; 0.10]
                            /\ p = bp * (1.0 + a)
                            /\ (0 <= bp -> bp * 0.9 <= p <= bp * 1.1)).
  { intros (a & Ha & Hp). exists a. split; [exact Ha|]. split; [exact Hp|].
    intros Hb. subst p. unfold Serve_models.actions in Ha. cbn [In] in Ha.
    destruct Ha as [<-|[<-|[<-|[<-|[<-|[]]]]]]; split; lra. }
  destruct (_xgb_model g) as [xgb|] eqn:Eg.
  - destruct Hc as [_ [(Hp & _) | (_ & Hr)]].
    + left. exists xgb. split; [now left | exact Hp].
    + right. apply Hstep. exact Hr.
  - destruct (dynamic_pricing_xgb_pkl w) as [[xgb|e]|] eqn:Ef; cbn [Aux.loaded] in Hc.
    + destruct Hc as [_ [(Hp & _) | (_ & Hr)]].
      * left. exists xgb. split; [right; split; reflexivity | exact Hp].
      * right. apply Hstep. exact Hr.
    + right. apply Hstep. apply Hc.
    + right. apply Hstep. apply Hc.
Qed.

Lemma model_price_is_prediction_or_action_step_witness :
  exists (p : Q) (g' : Globals),
    Serve_models.predict_with_models More_examples.policy_world 4 3.92 10 "A" 100 72
      2 [3.6; 3.8; 4; 4.2; 4.4] fresh_globals = (Ok (Some p), g')
    /\ exists a, In a [-0.10; -0.05; 0.0; 0.05; 0.10] /\ p = 4 * (1.0 + a).
Proof.
  eexists. eexists. split; [vm_compute; reflexivity|].
  edestruct (model_price_is_prediction_or_action_step More_examples.policy_world
               4 3.92 10 "A" 100 72 2 [3.6; 3.8; 4; 4.2; 4.4] fresh_globals)
    as [(xgb & [Hx | [_ Hx]] & _) | (a & Ha & Hp & _)].
  - vm_compute. reflexivity.
  - discriminate.
  - discriminate.
  - exists a. split; [exact Ha | exact Hp].
Defined.

(** ** Direction of the competitor adjustment, bounds of the reward *)

Lemma ratio_gt (a p c : Q) : 0 < c -> a < p / c -> a * c < p.
Proof.
  intros Hc H.
  assert (E : p == p / c * c) by (field; intros E; rewrite E in Hc; discriminate).
  rewrite E. apply Qmult_lt_compat_r; assumption.
Qed.

Lemma ratio_lt (a p c : Q) : 0 < c -> p / c < a -> p < a * c.
Proof.
  intros Hc H.
  assert (E : p == p / c * c) by (field; intros E; rewrite E in Hc; discriminate).
  rewrite E. apply Qmult_lt_compat_r; assumption.
Qed.

(** The competitor adjustment moves the price toward the competitor and
    not past it: a price between the floor and the largest candidate is
    either left as it is and not marked, or it was above the competitor
    and is lowered to a price still above the competitor, or it was below
    the competitor and is not lowered. *)
Theorem competitor_adjustment_moves_toward_competitor :
  forall (competitor_price inventory : Q) (expiry_hours : Z) (min_allowed_price : Q)
         (candidates : list Q) (max_cand p p' : Q) (adjusted : bool),
    py_max_list candidates = Ok max_cand ->
    min_allowed_price <= p -> p <= max_cand ->
    competitor_adjustment competitor_price inventory expiry_hours min_allowed_price
      candidates p = Ok (p', adjusted) ->
    (adjusted = false /\ p' = p)
    \/ (adjusted = true /\ competitor_price < p' /\ p' <= p)
    \/ (adjusted = true /\ p < competitor_price /\ p <= p').
Proof.
  intros c inv h floor cands mc p p' adj Hmax Hlo Hhi.
  unfold competitor_adjustment. rewrite Hmax.
  destruct (Qgtb c 0) eqn:Ec; [|intros H; inversion H; subst; left; split; reflexivity].
  apply Qgtb_true in Ec. rewrite (py_div_pos p c Ec). cbn [obind].
  destruct (Qgtb (p / c) 1.05 && (Qgtb inv 30 || (h <=? 24)%Z)) eqn:E1.
  - apply andb_true_iff in E1. destruct E1 as [Er _]. apply Qgtb_true in Er.
    apply ratio_gt in Er; [|exact Ec].
    intros H; inversion H; subst. right. left. split; [reflexivity|].
    split.
    + eapply Qlt_le_trans; [|apply Q.le_max_r].
      apply Q.min_glb_lt; lra.
    + apply Q.max_lub; [exact Hlo|].
      eapply Qle_trans; [apply Q.le_min_r|]. lra.
  - destruct (Qltb (p / c) 0.95 && Qltb inv 10) eqn:E2.
    + apply andb_true_iff in E2. destruct E2 as [Er _]. apply Qltb_true in Er.
      apply ratio_lt in Er; [|exact Ec].
      intros H; inversion H; subst. right. right. split; [reflexivity|].
      split; [lra|].
      eapply Qle_trans; [|apply Q.le_max_r].
      apply Q.min_glb; lra.
    + intros H; inversion H; subst. left. split; reflexivity.
Qed.

Lemma competitor_adjustment_moves_toward_competitor_witness :
  competitor_adjustment 3.92 100 72 2.8 [3.6; 3.8; 4; 4.2; 4.4] 4.4
  = Ok (Qmax 2.8 (Qmin 4.4 (4.4 + 0.3 * (3.92 - 4.4))), true)
  /\ 3.92 < Qmax 2.8 (Qmin 4.4 (4.4 + 0.3 * (3.92 - 4.4))) <= 4.4.
Proof.
  split; [reflexivity|].
  destruct (competitor_adjustment_moves_toward_competitor 3.92 100 72 2.8
              [3.6; 3.8; 4; 4.2; 4.4] 4.4 4.4
              (Qmax 2.8 (Qmin 4.4 (4.4 + 0.3 * (3.92 - 4.4)))) true)
    as [[H _] | [(_ & H1 & H2) | (_ & H & _)]].
  - reflexivity.
  - discriminate.
  - discriminate.
  - reflexivity.
  - discriminate.
  - split; assumption.
  - vm_compute in H. discriminate.
Defined.



(** ** Products without a cost *)

(** A product the catalogue in use does not list has unit cost 0, and a
    product whose unit cost is not positive is priced from the base price
    1.0: the floor is [max(1 - max_discount, 0, 0.1)], no margin applies,
    and the candidates are 0.9, 0.95, 1, 1.05 and 1.1, each raised to the
    floor. *)
Theorem product_without_cost_is_priced_from_one :
  forall (w : World) (req : PricingV1Request) (key : string) (g g' : Globals) (l : Locals),
    pricing_v1_locals w req key g = (Ok l, g') ->
    (dict_lookup (match _catalog_cache g with Some c => c | None => products_json w end)
       (product_id req) = None ->
     unit_cost l = 0.0)
    /\ (unit_cost l <= 0 ->
        base_price l = 1.0
        /\ min_allowed_price l = Qmax (Qmax (1.0 * (1.0 - max_discount l)) 0.0) 0.1
        /\ Forall2 Qeq (candidates l)
             (map (fun c => Qmax c (min_allowed_price l)) [0.9; 0.95; 1; 1.05; 1.1])).
Proof.
  intros w req key g g' l Hrun.
  destruct (pricing_v1_locals_inv w req key g g' l Hrun)
    as (_ & _ & _ & Hbase & _ & Hfloor & Hcands & _).
  destruct (pricing_v1_locals_inputs w req key g g' l Hrun) as (_ & Hcost & _).
  split.
  - intros Hmiss. rewrite Hcost, Hmiss. reflexivity.
  - intros Hu. apply Qgtb_false in Hu.
    assert (Hb : base_price l = 1.0)
      by (rewrite Hbase; unfold base_price_of; rewrite Hu; reflexivity).
    split; [exact Hb|]. split.
    + rewrite Hfloor. unfold min_allowed_price_of. rewrite Hu, Hb. reflexivity.
    + rewrite Hcands, Hb. unfold candidates_of, steps. cbn [map].
      repeat (apply Forall2_cons;
              [apply Q.max_compat; [vm_compute; reflexivity | reflexivity]|]).
      apply Forall2_nil.
Qed.

Lemma product_without_cost_is_priced_from_one_witness :
  exists (l : Locals) (g' : Globals),
    pricing_v1_locals Examples.bare_world More_examples.unlisted_request ""
      fresh_globals = (Ok l, g')
    /\ unit_cost l = 0.0 /\ base_price l = 1.0.
Proof.
  eexists. eexists. split; [vm_compute; reflexivity|].
  edestruct (product_without_cost_is_priced_from_one Examples.bare_world
               More_examples.unlisted_request "" fresh_globals) as [Hmiss Hfree].
  - vm_compute. reflexivity.
  - split; [apply Hmiss; reflexivity|].
    apply Hfree. vm_compute. discriminate.
Defined.

(** * The first pricing endpoint *)

Lemma recommend_price_inv (MAX_DISCOUNT : Q) (AB_ENABLED : bool)
    (pkl : option (outcome Dynamic_pricing_serve.PriceModel))
    (base competitor demand : Q) (stock : Z) (ab_bucket : string)
    (cache cache' : option Dynamic_pricing_serve.PriceModel)
    (r : Dynamic_pricing_serve.Recommendation) :
  Dynamic_pricing_serve.recommend_price MAX_DISCOUNT AB_ENABLED pkl base competitor demand
    stock ab_bucket cache = (Ok r, cache') ->
  exists rec,
    Qmax 0.1 (base * (1 - MAX_DISCOUNT)) <= rec
    /\ Dynamic_pricing_serve.recommended_price r
       = round2 (if AB_ENABLED && String.eqb (upper ab_bucket) "B" then rec * 0.98 else rec)
    /\ Dynamic_pricing_serve.bucket r = ab_bucket.
Proof.
  unfold Dynamic_pricing_serve.recommend_price.
  destruct (Dynamic_pricing_serve.load_model pkl cache) as [[model|e] c]; [|discriminate].
  destruct model as [m|].
  - destruct (py_float stock) as [st|e]; [|discriminate]. cbn [obind].
    destruct (m _) as [rec|e]; [|discriminate].
    intros H; inversion H; subst. cbn.
    eexists. split; [apply Q.le_max_r|]. split; reflexivity.
  - intros H; inversion H; subst. cbn.
    eexists. split; [apply Q.le_max_r|]. split; reflexivity.
Qed.

(** Whatever the price model predicts, the first endpoint returns a price
    of at least 0.10 and echoes the bucket it was given; when the A/B
    factor does not apply (A/B off, or a bucket that is not B in any
    letter case) the price is not below the rounded discount floor
    [max(0.1, base_price*(1 - MAX_DISCOUNT))]. *)
Theorem recommend_price_respects_floor :
  forall (MAX_DISCOUNT : Q) (AB_ENABLED : bool)
         (pkl : option (outcome Dynamic_pricing_serve.PriceModel))
         (base_price competitor_price demand_index : Q) (stock_level : Z)
         (ab_bucket : string)
         (cache cache' : option Dynamic_pricing_serve.PriceModel)
         (r : Dynamic_pricing_serve.Recommendation),
    Dynamic_pricing_serve.recommend_price MAX_DISCOUNT AB_ENABLED pkl base_price
      competitor_price demand_index stock_level ab_bucket cache = (Ok r, cache') ->
    0.1 <= Dynamic_pricing_serve.recommended_price r
    /\ Dynamic_pricing_serve.bucket r = ab_bucket
    /\ (AB_ENABLED = false \/ upper ab_bucket <> "B"%string ->
        round2 (Qmax 0.1 (base_price * (1 - MAX_DISCOUNT)))
        <= Dynamic_pricing_serve.recommended_price r).
Proof.
  intros md ab pkl base comp dem stock bucket cache cache' r H.
  destruct (recommend_price_inv md ab pkl base comp dem stock bucket cache cache' r H)
    as (rec & Hrec & Hprice & Hbucket).
  assert (H01 : 0.1 <= rec) by (eapply Qle_trans; [apply Q.le_max_l | exact Hrec]).
  split.
  - rewrite Hprice.
    assert (Hb : 0.098 <= (if ab && String.eqb (upper bucket) "B" then rec * 0.98 else rec))
      by (destruct (ab && String.eqb (upper bucket) "B"); lra).
    apply round2_mono in Hb. eapply Qle_trans; [|exact Hb]. vm_compute. discriminate.
  - split; [exact Hbucket|].
    intros Hoff. rewrite Hprice.
    assert (E : ab && String.eqb (upper bucket) "B" = false).
    { destruct Hoff as [-> | Hne]; [reflexivity|].
      apply String.eqb_neq in Hne. rewrite Hne. apply andb_false_r. }
    rewrite E. apply round2_mono. exact Hrec.
Qed.

Lemma recommend_price_respects_floor_witness :
  exists r cache',
    Dynamic_pricing_serve.recommend_price 0.30 true None 4 3.9 0.2 60 "b" None
    = (Ok r, cache')
    /\ 0.1 <= Dynamic_pricing_serve.recommended_price r
    /\ Dynamic_pricing_serve.bucket r = "b"%string.
Proof.
  eexists. eexists. split; [vm_compute; reflexivity|].
  edestruct (recommend_price_respects_floor 0.30 true None 4 3.9 0.2 60 "b" None)
    as (H1 & H2 & _).
  - vm_compute. reflexivity.
  - split; [exact H1 | exact H2].
Defined.

(** On the first endpoint a request without a bucket, or with an empty
    one, is priced in bucket A: the response says "A" and the A/B factor
    is not applied, so the price is at least the rounded discount floor.
    A request with a wrong key is refused before the price model is
    touched. *)
Theorem pricing_optimize_default_bucket_and_key :
  forall (w : World) (MAX_DISCOUNT : Q) (AB_ENABLED : bool)
         (pkl : option (outcome Dynamic_pricing_serve.PriceModel))
         (req : Main_more.PricingRequest) (key : string) (g : Globals)
         (cache : option Dynamic_pricing_serve.PriceModel),
    (API_KEY w <> ""%string -> key <> API_KEY w ->
     Main_more.pricing_optimize w MAX_DISCOUNT AB_ENABLED pkl req key g cache
     = (Raise (HTTPException 401), (g, cache)))
    /\ (forall r st,
          Main_more.abBucket req = None \/ Main_more.abBucket req = Some ""%string ->
          Main_more.pricing_optimize w MAX_DISCOUNT AB_ENABLED pkl req key g cache
          = (Ok r, st) ->
          Dynamic_pricing_serve.bucket r = "A"%string
          /\ round2 (Qmax 0.1 (Main_more.basePrice req * (1 - MAX_DISCOUNT)))
             <= Dynamic_pricing_serve.recommended_price r).
Proof.
  intros w md ab pkl req key g cache. split.
  - intros Hset Hkey.
    apply String.eqb_neq in Hset. apply String.eqb_neq in Hkey.
    unfold Main_more.pricing_optimize, require_api_key. rewrite Hset, Hkey. reflexivity.
  - intros r st Hb. unfold Main_more.pricing_optimize.
    destruct (require_api_key w key g) as [[u|e] g1]; [|discriminate].
    assert (E : match Main_more.abBucket req with
                | Some s => if String.eqb s "" then "A"%string else s
                | None => "A"%string
                end = "A"%string)
      by (destruct Hb as [-> | ->]; reflexivity).
    rewrite E.
    destruct (Dynamic_pricing_serve.recommend_price md ab pkl (Main_more.basePrice req)
                (Main_more.competitorPrice req) (Main_more.demandIndex req)
                (Main_more.stockLevel req) "A" cache) as [o c] eqn:Erun.
    cbn [fst snd]. intros H. inversion H; subst o st. clear H.
    destruct (recommend_price_inv md ab pkl _ _ _ _ _ _ _ _ Erun)
      as (rec & Hrec & Hprice & Hbucket).
    split; [exact Hbucket|].
    rewrite Hprice. cbn. rewrite andb_false_r. apply round2_mono. exact Hrec.
Qed.

Lemma pricing_optimize_default_bucket_and_key_witness :
  exists r st,
    Main_more.pricing_optimize Examples.bare_world 0.30 true None
      {| Main_more.basePrice := 4; Main_more.competitorPrice := 3.9;
         Main_more.demandIndex := 0.2; Main_more.stockLevel := 60;
         Main_more.abBucket := None |} "" fresh_globals None = (Ok r, st)
    /\ Dynamic_pricing_serve.bucket r = "A"%string.
Proof.
  eexists. eexists. split; [vm_compute; reflexivity|].
  edestruct (pricing_optimize_default_bucket_and_key Examples.bare_world 0.30 true None
               {| Main_more.basePrice := 4; Main_more.competitorPrice := 3.9;
                  Main_more.demandIndex := 0.2; Main_more.stockLevel := 60;
                  Main_more.abBucket := None |} "" fresh_globals None) as [_ H].
  edestruct H as [Hb _].
  - left. reflexivity.
  - vm_compute. reflexivity.
  - exact Hb.
Defined.

(** The first endpoint has no fallback for a failing price model.  It
    raises exactly when unpickling the model raises, when the stock level
    is beyond the range of a float ([float(stock_level)] in the feature
    row), or when the model's prediction raises.  The heuristic is used
    only when there is neither a model file nor a cached model, and then
    the call returns the clamped heuristic price; with a model, a price
    that is returned is the clamped prediction. *)
Theorem recommend_price_model_errors_are_fatal :
  forall (MAX_DISCOUNT : Q) (AB_ENABLED : bool)
         (pkl : option (outcome Dynamic_pricing_serve.PriceModel))
         (base_price competitor_price demand_index : Q) (stock_level : Z)
         (ab_bucket : string) (cache : option Dynamic_pricing_serve.PriceModel) (e : exn),
    let model_fails (model : Dynamic_pricing_serve.PriceModel) :=
      py_float stock_level = Raise e
      \/ (py_float stock_level = Ok (inject_Z stock_level)
          /\ model [base_price; competitor_price; demand_index; inject_Z stock_level]
             = Raise e) in
    let result (rec : Q) :=
      {| Dynamic_pricing_serve.recommended_price :=
           round2 (let rec := Qmax rec (Qmax 0.1 (base_price * (1 - MAX_DISCOUNT))) in
                   if AB_ENABLED && String.eqb (upper ab_bucket) "B"
                   then rec * 0.98 else rec);
         Dynamic_pricing_serve.bucket := ab_bucket |} in
    ((exists cache',
         Dynamic_pricing_serve.recommend_price MAX_DISCOUNT AB_ENABLED pkl base_price
           competitor_price demand_index stock_level ab_bucket cache = (Raise e, cache'))
     <-> match cache with
         | Some model => model_fails model
         | None =>
             match pkl with
             | None => False
             | Some (Raise e') => e' = e
             | Some (Ok model) => model_fails model
             end
         end)
    /\ (cache = None -> pkl = None ->
        Dynamic_pricing_serve.recommend_price MAX_DISCOUNT AB_ENABLED pkl base_price
          competitor_price demand_index stock_level ab_bucket cache
        = (Ok (result
                 (Qmax 0.1
                    (base_price * (1 + demand_index)
                     * (1 - (0.05 + demand_index * 0.1)
                            * (if (50 <? stock_level)%Z then 1 else 0.5))))),
           None))
    /\ (forall model r cache',
          (cache = Some model \/ (cache = None /\ pkl = Some (Ok model))) ->
          Dynamic_pricing_serve.recommend_price MAX_DISCOUNT AB_ENABLED pkl base_price
            competitor_price demand_index stock_level ab_bucket cache = (Ok r, cache') ->
          exists pred,
            model [base_price; competitor_price; demand_index; inject_Z stock_level]
            = Ok pred
            /\ r = result pred /\ cache' = Some model).
Proof.
  intros md ab pkl base comp dem stock bucket cache e. cbv zeta.
  assert (Hmodel : forall (m : Dynamic_pricing_serve.PriceModel) (o : outcome Q),
            (let! st := py_float stock in m [base; comp; dem; st]) = o ->
            match o with
            | Raise e0 =>
                py_float stock = Raise e0
                \/ (py_float stock = Ok (inject_Z stock)
                    /\ m [base; comp; dem; inject_Z stock] = Raise e0)
            | Ok pred =>
                py_float stock = Ok (inject_Z stock)
                /\ m [base; comp; dem; inject_Z stock] = Ok pred
            end).
  { intros m o <-. destruct (py_float stock) as [st|e0] eqn:Es; cbn [obind].
    - apply py_float_Ok in Es. destruct Es as [-> _].
      destruct (m _) as [pred|e0]; [split; reflexivity | right; split; reflexivity].
    - left. reflexivity. }
  assert (Hfails : forall (m : Dynamic_pricing_serve.PriceModel),
            py_float stock = Raise e
            \/ (py_float stock = Ok (inject_Z stock)
                /\ m [base; comp; dem; inject_Z stock] = Raise e) ->
            (let! st := py_float stock in m [base; comp; dem; st]) = Raise e).
  { intros m [H | [H1 H2]]; [rewrite H; reflexivity|].
    rewrite H1. cbn [obind]. exact H2. }
  unfold Dynamic_pricing_serve.recommend_price, Dynamic_pricing_serve.load_model.
  split; [|split].
  - destruct cache as [m|].
    + cbv beta iota.
      pose proof (Hmodel m _ eq_refl) as Hm. pose proof (Hfails m) as Hf.
      destruct (let! st := py_float stock in m [base; comp; dem; st]) as [pred|e0].
      * split; [intros [c H]; discriminate|]. intros H. apply Hf in H. discriminate.
      * split.
        -- intros [c H]. inversion H; subst. exact Hm.
        -- intros H. apply Hf in H. inversion H; subst. eauto.
    + destruct pkl as [[m|e']|].
      * pose proof (Hmodel m _ eq_refl) as Hm. pose proof (Hfails m) as Hf.
        destruct (let! st := py_float stock in m [base; comp; dem; st]) as [pred|e0].
        -- split; [intros [c H]; discriminate|]. intros H. apply Hf in H. discriminate.
        -- split.
           ++ intros [c H]. inversion H; subst. exact Hm.
           ++ intros H. apply Hf in H. inversion H; subst. eauto.
      * split; [intros [c H]; inversion H; reflexivity | intros ->; eauto].
      * split; [intros [c H]; discriminate | contradiction].
  - intros -> ->. reflexivity.
  - intros model r cache' Hin.
    assert (E : match cache, pkl with
                | None, Some (Ok m0) => (Ok (Some m0), Some m0)
                | None, Some (Raise e0) => (Raise e0, None)
                | _, _ => (Ok cache, cache)
                end = (Ok (Some model), Some model)).
    { destruct Hin as [-> | [-> ->]]; reflexivity. }
    rewrite E. clear E. cbv beta iota.
    pose proof (Hmodel model _ eq_refl) as Hm.
    destruct (let! st := py_float stock in model [base; comp; dem; st]) as [pred|e0];
      [|discriminate].
    intros H. inversion H; subst. exists pred. destruct Hm as [_ Hm].
    split; [exact Hm|]. split; reflexivity.
Qed.

Lemma recommend_price_model_errors_are_fatal_witness :
  (exists cache',
     Dynamic_pricing_serve.recommend_price 0.30 true (Some (Raise Exception)) 4 3.9 0.2 60
       "A" None = (Raise Exception, cache'))
  /\ (exists cache',
        Dynamic_pricing_serve.recommend_price 0.30 true (Some (Ok (fun _ => Ok 4))) 4 3.9
          0.2 (2 ^ 1024) "A" None = (Raise OverflowError, cache')).
Proof.
  split.
  - apply (recommend_price_model_errors_are_fatal 0.30 true (Some (Raise Exception)) 4 3.9
             0.2 60 "A" None Exception).
    reflexivity.
  - apply (recommend_price_model_errors_are_fatal 0.30 true (Some (Ok (fun _ => Ok 4))) 4
             3.9 0.2 (2 ^ 1024) "A" None OverflowError).
    left. vm_compute. reflexivity.
Defined.

(** * The forecast uncertainty *)

(** [_load_uncertainty] always returns: the value of DEMAND_UNCERTAINTY
    as it is when the variable parses, even outside [0, 1]; otherwise the
    meta file's value clamped to [0, 1], or 0.15 when the file is missing or
    unreadable.  Without the variable the result is within [0, 1]. *)
Theorem uncertainty_is_clamped_unless_overridden :
  forall (env_val meta : option (outcome Q)),
    (forall v, env_val = Some (Ok v) ->
               Demand_uncertainty._load_uncertainty env_val meta = v)
    /\ ((forall v, env_val <> Some (Ok v)) ->
        0 <= Demand_uncertainty._load_uncertainty env_val meta <= 1
        /\ (forall u, meta = Some (Ok u) -> 0 <= u <= 1 ->
                      Demand_uncertainty._load_uncertainty env_val meta == u)
        /\ ((forall u, meta <> Some (Ok u)) ->
            Demand_uncertainty._load_uncertainty env_val meta = 0.15)).
Proof.
  intros env_val meta. split.
  - intros v ->. reflexivity.
  - intros Hno.
    assert (E : Demand_uncertainty._load_uncertainty env_val meta
                = match meta with
                  | Some (Ok u) => Qmax 0.0 (Qmin 1.0 u)
                  | _ => 0.15
                  end).
    { unfold Demand_uncertainty._load_uncertainty.
      destruct env_val as [[v|e]|]; try reflexivity.
      exfalso. exact (Hno v eq_refl). }
    rewrite E. split; [|split].
    + destruct meta as [[u|e]|].
      * split.
        -- eapply Qle_trans; [|apply Q.le_max_l]. discriminate.
        -- apply Q.max_lub; [discriminate|].
           eapply Qle_trans; [apply Q.le_min_l|]. discriminate.
      * split; discriminate.
      * split; discriminate.
    + intros u -> [Hu0 Hu1].
      assert (Hmin : Qmin 1.0 u == u) by (apply Q.min_r; lra).
      rewrite Hmin. apply Q.max_r. lra.
    + intros Hm. destruct meta as [[u|e]|]; try reflexivity.
      exfalso. exact (Hm u eq_refl).
Qed.

Lemma uncertainty_is_clamped_unless_overridden_witness :
  Demand_uncertainty._load_uncertainty (Some (Ok 2)) (Some (Ok 0.3)) = 2
  /\ 0 <= Demand_uncertainty._load_uncertainty (Some (Raise ValueError)) (Some (Ok 7)) <= 1.
Proof.
  split.
  - apply (uncertainty_is_clamped_unless_overridden (Some (Ok 2)) (Some (Ok 0.3))).
    reflexivity.
  - apply (uncertainty_is_clamped_unless_overridden (Some (Raise ValueError)) (Some (Ok 7))).
    intros v. discriminate.
Defined.

(** * The procurement forecast *)

Lemma or_zero_positive (v : Q) : 0 < v -> Main_more.or_zero (Some v) = v.
Proof.
  intros Hv. unfold Main_more.or_zero. destruct (Qeq_bool v 0) eqn:E; [|reflexivity].
  apply Qeq_bool_iff in E. rewrite E in Hv. discriminate.
Qed.

Lemma recommended_for_bounds (MIN MAX : Z) (preds : list Demand_forecasting.Prediction)
    (lead_time stock recommended : Z) :
  Main_more.recommended_for MIN MAX preds lead_time stock = Ok recommended ->
  (0 <= recommended)%Z /\ ((0 < MAX)%Z -> (recommended <= MAX)%Z).
Proof.
  unfold Main_more.recommended_for.
  destruct (match Main_more.slice_to preds lead_time with
            | [] => Ok (inject_Z stock)
            | _ :: _ => py_float stock
            end) as [operand|]; [|discriminate].
  cbn [obind]. intros H. inversion H. clear H.
  destruct (0 <? MIN)%Z eqn:Emin; destruct (0 <? MAX)%Z eqn:Emax;
    try apply Z.ltb_lt in Emin; try apply Z.ltb_lt in Emax;
    try apply Z.ltb_ge in Emax; split; lia.
Qed.

Lemma forecast_item_inv (w : World) (MIN MAX : Z) (catalog : list (string * CatalogEntry))
    (stock_on_hand : list (string * Z)) (unit_costs : list (string * Q))
    (days lead_time : Z) (pid : string) (g g' : Globals) (item : Main_more.ForecastItem) :
  Main_more.forecast_item w MIN MAX catalog stock_on_hand unit_costs days lead_time pid g
  = (Ok item, g') ->
  Main_more.productId item = pid /\ Aux_more.item_consistent MAX item.
Proof.
  unfold Main_more.forecast_item. intros H.
  invert_bind H as preds g1 Hpreds.
  invert_bind H as recommended g2 Hrec.
  apply lift_Ok_inv in Hrec. destruct Hrec as [Hrec ->].
  invert_bind H as cost g3 Hcost.
  apply lift_Ok_inv in Hcost. destruct Hcost as [Hcost ->].
  apply ret_Ok_inv in H. destruct H as [-> _].
  split; [reflexivity|].
  unfold Aux_more.item_consistent.
  cbn [Main_more.recommendedProcurement Main_more.unitCost Main_more.totalCost].
  destruct (recommended_for_bounds MIN MAX preds lead_time
              (dict_get stock_on_hand pid 0%Z) recommended Hrec) as [H0 Hmax].
  split; [exact H0|]. split; [exact Hmax|].
  destruct (Qgtb _ 0) eqn:E; [|reflexivity].
  apply Qgtb_true in E. split; [exact E|].
  destruct (py_float recommended) as [quantity|] eqn:Eq; [|discriminate].
  apply py_float_Ok in Eq. destruct Eq as [-> _].
  cbn [obind] in Hcost. inversion Hcost. reflexivity.
Qed.

Lemma forecast_items_inv (w : World) (MIN MAX : Z) (catalog : list (string * CatalogEntry))
    (stock_on_hand : list (string * Z)) (unit_costs : list (string * Q))
    (days lead_time : Z) (pids : list string) :
  forall (acc : list Main_more.ForecastItem) (g g' : Globals)
         (forecasts : list Main_more.ForecastItem),
    Main_more.forecast_items w MIN MAX catalog stock_on_hand unit_costs days lead_time
      pids acc g = (Ok forecasts, g') ->
    exists items,
      forecasts = acc ++ items
      /\ map Main_more.productId items = pids
      /\ Forall (Aux_more.item_consistent MAX) items.
Proof.
  induction pids as [|pid pids IH]; intros acc g g' forecasts H.
  - apply ret_Ok_inv in H. destruct H as [-> _].
    exists []. rewrite app_nil_r. repeat split. constructor.
  - cbn [Main_more.forecast_items] in H.
    invert_bind H as item g1 Hitem.
    apply forecast_item_inv in Hitem. destruct Hitem as [Hpid Hok].
    apply IH in H. destruct H as (items & -> & Hpids & Hall).
    exists (item :: items). rewrite <- app_assoc. cbn [app map].
    split; [reflexivity|]. split; [now rewrite Hpid, Hpids|].
    constructor; assumption.
Qed.

(** What the budget loop does to one item when it does not raise. *)
Lemma scale_item_inv (MAX : Z) (scale : Q) (item item' : Main_more.ForecastItem) :
  Main_more.scale_item MAX scale item = Ok item' ->
  let new_rec :=
    if (0 <? MAX)%Z
    then Z.min (Z.max 0 (Qfloor (inject_Z (Main_more.recommendedProcurement item) * scale)))
           MAX
    else Z.max 0 (Qfloor (inject_Z (Main_more.recommendedProcurement item) * scale)) in
  Main_more.productId item' = Main_more.productId item
  /\ Main_more.predictions item' = Main_more.predictions item
  /\ Main_more.unitCost item' = Main_more.unitCost item
  /\ Main_more.recommendedProcurement item' = new_rec
  /\ Main_more.totalCost item'
     = (if Qgtb (Main_more.or_zero (Main_more.unitCost item)) 0
        then Some (inject_Z new_rec * Main_more.or_zero (Main_more.unitCost item))
        else None).
Proof.
  unfold Main_more.scale_item.
  destruct (py_float (Main_more.recommendedProcurement item)) as [quantity|] eqn:Eq;
    [|discriminate].
  apply py_float_Ok in Eq. destruct Eq as [-> _]. cbn [obind].
  destruct (Qgtb (Main_more.or_zero (Main_more.unitCost item)) 0).
  - destruct (py_float _) as [new_quantity|] eqn:En; [|discriminate].
    apply py_float_Ok in En. destruct En as [-> _]. cbn [obind].
    intros H. inversion H. cbv zeta. repeat split; reflexivity.
  - cbn [obind]. intros H. inversion H. cbv zeta. repeat split; reflexivity.
Qed.

Lemma scale_item_consistent (MAX : Z) (scale : Q) (item item' : Main_more.ForecastItem) :
  Main_more.scale_item MAX scale item = Ok item' ->
  Aux_more.item_consistent MAX item ->
  Aux_more.item_consistent MAX item'.
Proof.
  intros Hrun (H0 & Hmax & Hcost).
  apply scale_item_inv in Hrun. cbv zeta in Hrun.
  destruct Hrun as (_ & _ & Huc & Hrec & Htotal).
  unfold Aux_more.item_consistent. rewrite Huc, Htotal, Hrec.
  split; [destruct (0 <? MAX)%Z eqn:E; [apply Z.ltb_lt in E|]; lia|].
  split; [intros Hpos; apply Z.ltb_lt in Hpos; rewrite Hpos; lia|].
  destruct (Main_more.unitCost item) as [uc|].
  - destruct Hcost as [Huc' _]. rewrite (or_zero_positive uc Huc').
    apply Qgtb_true in Huc'. rewrite Huc'. apply Qgtb_true in Huc'.
    split; [exact Huc' | reflexivity].
  - reflexivity.
Qed.

Lemma scale_item_not_more (MAX : Z) (scale : Q) (item item' : Main_more.ForecastItem) :
  Main_more.scale_item MAX scale item = Ok item' ->
  scale <= 1 ->
  (0 <= Main_more.recommendedProcurement item)%Z ->
  (Main_more.recommendedProcurement item' <= Main_more.recommendedProcurement item)%Z.
Proof.
  intros Hrun Hs H0.
  apply scale_item_inv in Hrun. cbv zeta in Hrun.
  destruct Hrun as (_ & _ & _ & -> & _).
  set (rec := Main_more.recommendedProcurement item) in *.
  assert (Hrec : 0 <= inject_Z rec)
    by (change 0 with (inject_Z 0); rewrite <- Zle_Qle; exact H0).
  assert (Hprod : inject_Z rec * scale <= inject_Z rec).
  { rewrite <- (Qmult_1_r (inject_Z rec)) at 2.
    rewrite !(Qmult_comm (inject_Z rec)). apply Qmult_le_compat_r; assumption. }
  assert (Hfloor : (Qfloor (inject_Z rec * scale) <= rec)%Z).
  { pose proof (Qfloor_resp_le _ _ Hprod) as Hf. rewrite Qfloor_Z in Hf. exact Hf. }
  destruct (0 <? MAX)%Z; lia.
Qed.

Lemma Forall2_refl_on {A : Type} (P : A -> A -> Prop) (l : list A) :
  (forall a, P a a) -> Forall2 P l l.
Proof. intros H. induction l; constructor; auto. Qed.

Lemma Forall2_under {A B : Type} (C : A -> Prop) (R P : A -> B -> Prop)
    (l : list A) (l' : list B) :
  Forall C l -> Forall2 R l l' -> (forall a b, C a -> R a b -> P a b) -> Forall2 P l l'.
Proof.
  intros Hall H2 Himp. induction H2 as [|a b l l' Hab _ IH]; constructor.
  - apply Himp; [now inversion Hall | exact Hab].
  - apply IH. now inversion Hall.
Qed.

Lemma Forall2_right {A B : Type} (P : B -> Prop) (R : A -> B -> Prop)
    (l : list A) (l' : list B) :
  Forall2 R l l' -> (forall a b, R a b -> P b) -> Forall P l'.
Proof.
  intros H2 Himp. induction H2 as [|a b l l' Hab _ IH]; constructor; eauto.
Qed.

Lemma Forall2_map_eq {A B C : Type} (f : A -> C) (f' : B -> C) (l : list A) (l' : list B) :
  Forall2 (fun a b => f' b = f a) l l' -> map f' l' = map f l.
Proof.
  induction 1 as [|a b l l' Hab _ IH]; [reflexivity|]. cbn. now rewrite Hab, IH.
Qed.

Lemma apply_budget_inv (MAX : Z) (budget : option Q)
    (forecasts : list Main_more.ForecastItem) (resp : Main_more.DemandForecastResponse) :
  Forall (Aux_more.item_consistent MAX) forecasts ->
  Main_more.apply_budget MAX budget forecasts = Ok resp ->
  Forall (Aux_more.item_consistent MAX) (Main_more.forecasts resp)
  /\ map Main_more.productId (Main_more.forecasts resp) = map Main_more.productId forecasts
  /\ (budget = None -> Main_more.forecasts resp = forecasts).
Proof.
  intros Hall. unfold Main_more.apply_budget.
  destruct budget as [b|].
  - destruct (Qgtb (Main_more.total_cost_of forecasts) 0
              && Qgtb (Main_more.total_cost_of forecasts) b) eqn:E.
    + apply andb_true_iff in E. destruct E as [Epos Eover].
      apply Qgtb_true in Epos.
      rewrite (py_div_pos b _ Epos). cbn [obind].
      destruct (traverse _ forecasts) as [scaled|] eqn:Et; [|discriminate].
      cbn [obind fst snd]. intros H; inversion H; subst resp. clear H.
      cbn [Main_more.forecasts].
      apply traverse_Ok_inv in Et.
      assert (Hboth : Forall2 (fun item item' =>
                                 Aux_more.item_consistent MAX item'
                                 /\ Main_more.productId item' = Main_more.productId item)
                        forecasts scaled).
      { apply (Forall2_under _ _ _ _ _ Hall Et). intros item item' Hok Hrun.
        split; [eapply scale_item_consistent; eassumption|].
        apply scale_item_inv in Hrun. apply Hrun. }
      split; [eapply Forall2_right; [exact Hboth | intros a b' Hab; apply Hab]|].
      split; [|discriminate].
      apply Forall2_map_eq. eapply Forall2_impl; [|exact Hboth].
      intros a b' Hab. apply Hab.
    + cbn [obind fst snd]. intros H; inversion H; subst resp. clear H.
      cbn [Main_more.forecasts].
      split; [assumption|]. split; [reflexivity | discriminate].
  - cbn [obind fst snd]. intros H; inversion H; subst resp. clear H.
    cbn [Main_more.forecasts].
    split; [assumption|]. split; reflexivity.
Qed.

Lemma demand_forecast_inv (w : World) (MIN MAX : Z) (req : Main_more.DemandForecastRequest)
    (key : string) (g g' : Globals) (resp : Main_more.DemandForecastResponse) :
  Main_more.demand_forecast w MIN MAX req key g = (Ok resp, g') ->
  exists forecasts,
    map Main_more.productId forecasts = Main_more.productIds req
    /\ Forall (Aux_more.item_consistent MAX) forecasts
    /\ Main_more.apply_budget MAX (Main_more.budget req) forecasts = Ok resp.
Proof.
  unfold Main_more.demand_forecast. intros H.
  invert_bind H as u g1 Hkey.
  invert_bind H as catalog g2 Hcat.
  invert_bind H as forecasts g3 Hitems.
  apply lift_Ok_inv in H. destruct H as [H _].
  apply forecast_items_inv in Hitems. destruct Hitems as (items & -> & Hpids & Hall).
  exists items. cbn [app]. repeat split; assumption.
Qed.

(** The forecast handler returns one item per requested product, in the
    order of the request; every quantity to procure is at least 0 and, when
    PROCUREMENT_MAX is positive, at most PROCUREMENT_MAX; and an item has a
    total cost, the quantity times the unit cost, exactly when it has a
    positive unit cost. *)
Theorem forecast_items_follow_the_request :
  forall (w : World) (PROCUREMENT_MIN PROCUREMENT_MAX : Z)
         (req : Main_more.DemandForecastRequest) (key : string) (g g' : Globals)
         (resp : Main_more.DemandForecastResponse),
    Main_more.demand_forecast w PROCUREMENT_MIN PROCUREMENT_MAX req key g = (Ok resp, g') ->
    map Main_more.productId (Main_more.forecasts resp) = Main_more.productIds req
    /\ Forall (fun item =>
                 (0 <= Main_more.recommendedProcurement item)%Z
                 /\ ((0 < PROCUREMENT_MAX)%Z ->
                     (Main_more.recommendedProcurement item <= PROCUREMENT_MAX)%Z)
                 /\ match Main_more.unitCost item with
                    | Some unit_cost =>
                        0 < unit_cost
                        /\ Main_more.totalCost item
                           = Some (inject_Z (Main_more.recommendedProcurement item)
                                   * unit_cost)
                    | None => Main_more.totalCost item = None
                    end)
         (Main_more.forecasts resp).
Proof.
  intros w MIN MAX req key g g' resp Hrun.
  destruct (demand_forecast_inv w MIN MAX req key g g' resp Hrun)
    as (forecasts & Hpids & Hall & Happly).
  destruct (apply_budget_inv MAX (Main_more.budget req) forecasts resp Hall Happly)
    as (Hok & Hids & _).
  split; [now rewrite Hids|]. exact Hok.
Qed.

Lemma forecast_items_follow_the_request_witness :
  exists (resp : Main_more.DemandForecastResponse) (g' : Globals),
    Main_more.demand_forecast Examples.bare_world 0 0 Aux_more.two_products ""
      fresh_globals = (Ok resp, g')
    /\ map Main_more.productId (Main_more.forecasts resp)
       = ["tomato"%string; "durian"%string].
Proof.
  eexists. eexists. split; [vm_compute; reflexivity|].
  eapply (forecast_items_follow_the_request Examples.bare_world 0 0 Aux_more.two_products
            "" fresh_globals).
  vm_compute. reflexivity.
Defined.

(** Budget-aware scaling never raises a quantity and keeps each item's
    product and predictions; without a budget the items are returned as
    they were built. *)
Theorem budget_scaling_only_lowers :
  forall (PROCUREMENT_MAX : Z) (budget : option Q)
         (forecasts : list Main_more.ForecastItem)
         (resp : Main_more.DemandForecastResponse),
    Forall (fun item => (0 <= Main_more.recommendedProcurement item)%Z) forecasts ->
    Main_more.apply_budget PROCUREMENT_MAX budget forecasts = Ok resp ->
    Forall2 (fun item item' =>
               (Main_more.recommendedProcurement item'
                <= Main_more.recommendedProcurement item)%Z
               /\ Main_more.productId item' = Main_more.productId item
               /\ Main_more.predictions item' = Main_more.predictions item)
      forecasts (Main_more.forecasts resp)
    /\ (budget = None -> Main_more.forecasts resp = forecasts).
Proof.
  intros MAX budget forecasts resp Hall. unfold Main_more.apply_budget.
  assert (Hsame : Forall2 (fun item item' =>
                             (Main_more.recommendedProcurement item'
                              <= Main_more.recommendedProcurement item)%Z
                             /\ Main_more.productId item' = Main_more.productId item
                             /\ Main_more.predictions item' = Main_more.predictions item)
                    forecasts forecasts).
  { apply Forall2_refl_on. intros item. repeat split. lia. }
  destruct budget as [b|].
  - destruct (Qgtb (Main_more.total_cost_of forecasts) 0
              && Qgtb (Main_more.total_cost_of forecasts) b) eqn:E.
    + apply andb_true_iff in E. destruct E as [Epos Eover].
      apply Qgtb_true in Epos. apply Qgtb_true in Eover.
      rewrite (py_div_pos b _ Epos). cbn [obind].
      destruct (traverse _ forecasts) as [scaled|] eqn:Et; [|discriminate].
      cbn [obind fst snd].
      intros H; inversion H; subst resp. clear H. cbn [Main_more.forecasts].
      split; [|discriminate].
      assert (Hscale1 : b / Main_more.total_cost_of forecasts <= 1).
      { apply Qlt_le_weak. apply Qlt_shift_div_r; [exact Epos | lra]. }
      apply traverse_Ok_inv in Et.
      apply (Forall2_under _ _ _ _ _ Hall Et). intros item item' Hok Hrun.
      split; [eapply scale_item_not_more; eassumption|].
      apply scale_item_inv in Hrun. split; apply Hrun.
    + cbn [obind fst snd]. intros H; inversion H; subst resp.
      cbn [Main_more.forecasts]. split; [exact Hsame | discriminate].
  - cbn [obind fst snd]. intros H; inversion H; subst resp.
    cbn [Main_more.forecasts]. split; [exact Hsame | reflexivity].
Qed.

Lemma budget_scaling_only_lowers_witness :
  exists resp,
    Main_more.apply_budget 0 (Some 10)
      [{| Main_more.productId := "tomato"; Main_more.productName := None;
          Main_more.predictions := []; Main_more.recommendedProcurement := 25;
          Main_more.uncertainty := 0.15; Main_more.unitCost := Some 2;
          Main_more.totalCost := Some 50 |}] = Ok resp
    /\ map Main_more.recommendedProcurement (Main_more.forecasts resp) = [5%Z].
Proof.
  eexists. split; [vm_compute; reflexivity|].
  edestruct (budget_scaling_only_lowers 0 (Some 10)
               [{| Main_more.productId := "tomato"; Main_more.productName := None;
                   Main_more.predictions := []; Main_more.recommendedProcurement := 25;
                   Main_more.uncertainty := 0.15; Main_more.unitCost := Some 2;
                   Main_more.totalCost := Some 50 |}]) as [H _].
  - constructor; [cbn; lia | constructor].
  - vm_compute. reflexivity.
  - reflexivity.
Defined.

(** * The farmer score *)

Lemma round3_mono (x y : Q) : x <= y -> Main_more.round3 x <= Main_more.round3 y.
Proof.
  intros Hxy. unfold Main_more.round3.
  assert (H : x * 1000 <= y * 1000) by lra.
  apply round_half_even_mono in H.
  unfold Qle. cbn [Qnum Qden]. lia.
Qed.

Lemma farmer_score_inv (w : World) (req : Main_more.FarmerScoreRequest) (key : string)
    (g g' : Globals) (r : Main_more.FarmerScoreResponse) :
  Main_more.farmer_score w req key g = (Ok r, g') ->
  let used :=
    match Main_more.metrics req with
    | Some (kv :: m) => kv :: m
    | _ => Main_more.default_metrics
    end in
  Main_more.breakdown r = used
  /\ Main_more.score r
     = Main_more.round3
         (0 + dict_get used "on_time" 0.0 * 0.3 + dict_get used "quality" 0.0 * 0.5
          + dict_get used "consistency" 0.0 * 0.2).
Proof.
  unfold Main_more.farmer_score. intros H.
  invert_bind H as u g1 Hkey.
  apply ret_Ok_inv in H. destruct H as [-> _].
  split; reflexivity.
Qed.

(** A request without metrics, or with an empty metrics dict, is scored on
    the default metrics: the score is 0.815, not 0, and the breakdown
    returned is the default one. *)
Theorem farmer_score_defaults_for_empty_metrics :
  forall (w : World) (req : Main_more.FarmerScoreRequest) (key : string) (g : Globals),
    (API_KEY w = ""%string \/ key = API_KEY w) ->
    Main_more.metrics req = None \/ Main_more.metrics req = Some [] ->
    exists r,
      Main_more.farmer_score w req key g = (Ok r, g)
      /\ Main_more.score r == 0.815
      /\ Main_more.breakdown r = Main_more.default_metrics.
Proof.
  intros w req key g Hkey Hm.
  assert (Hk : require_api_key w key g = (Ok tt, g)).
  { unfold require_api_key. destruct Hkey as [-> | ->].
    - reflexivity.
    - rewrite String.eqb_refl, andb_false_r. reflexivity. }
  unfold Main_more.farmer_score. rewrite (bind_run _ _ _ _ _ Hk).
  eexists. split; [reflexivity|].
  destruct Hm as [-> | ->]; split; reflexivity.
Qed.

Lemma farmer_score_defaults_for_empty_metrics_witness :
  exists r,
    Main_more.farmer_score Examples.bare_world
      {| Main_more.fs_farmerId := "f1"; Main_more.metrics := Some [] |} "" fresh_globals
    = (Ok r, fresh_globals)
    /\ Main_more.score r == 0.815.
Proof.
  edestruct (farmer_score_defaults_for_empty_metrics Examples.bare_world
               {| Main_more.fs_farmerId := "f1"; Main_more.metrics := Some [] |} ""
               fresh_globals) as (r & Hrun & Hscore & _).
  - left. reflexivity.
  - right. reflexivity.
  - exists r. split; [exact Hrun | exact Hscore].
Defined.

(** The score depends on the three weighted metrics only, a missing one
    counting as 0, and is within [0, 1] whenever these three are. *)
Theorem farmer_score_within_unit_interval :
  forall (w : World) (req : Main_more.FarmerScoreRequest) (key : string)
         (g g' : Globals) (r : Main_more.FarmerScoreResponse),
    Main_more.farmer_score w req key g = (Ok r, g') ->
    (forall k, In k ["on_time"%string; "quality"%string; "consistency"%string] ->
               0 <= dict_get (Main_more.breakdown r) k 0.0 <= 1) ->
    0 <= Main_more.score r <= 1.
Proof.
  intros w req key g g' r Hrun Hrange.
  destruct (farmer_score_inv w req key g g' r Hrun) as [Hb Hs]. cbv zeta in Hb, Hs.
  rewrite <- Hb in Hs. rewrite Hs.
  pose proof (Hrange "on_time"%string (or_introl eq_refl)) as H1.
  pose proof (Hrange "quality"%string (or_intror (or_introl eq_refl))) as H2.
  pose proof (Hrange "consistency"%string (or_intror (or_intror (or_introl eq_refl)))) as H3.
  set (s := 0 + dict_get (Main_more.breakdown r) "on_time" 0.0 * 0.3
            + dict_get (Main_more.breakdown r) "quality" 0.0 * 0.5
            + dict_get (Main_more.breakdown r) "consistency" 0.0 * 0.2).
  assert (Hs01 : 0 <= s <= 1) by (subst s; split; lra).
  destruct Hs01 as [Hs0 Hs1].
  apply round3_mono in Hs0. apply round3_mono in Hs1.
  split.
  - eapply Qle_trans; [|exact Hs0]. vm_compute. discriminate.
  - eapply Qle_trans; [exact Hs1|]. vm_compute. discriminate.
Qed.

Lemma farmer_score_within_unit_interval_witness :
  exists r g',
    Main_more.farmer_score Examples.bare_world
      {| Main_more.fs_farmerId := "f1";
         Main_more.metrics := Some [("quality"%string, 1); ("speed"%string, 9)] |}
      "" fresh_globals = (Ok r, g')
    /\ 0 <= Main_more.score r <= 1.
Proof.
  eexists. eexists. split; [vm_compute; reflexivity|].
  eapply (farmer_score_within_unit_interval Examples.bare_world
            {| Main_more.fs_farmerId := "f1";
               Main_more.metrics := Some [("quality"%string, 1); ("speed"%string, 9)] |}
            "" fresh_globals).
  - vm_compute. reflexivity.
  - intros k [<- | [<- | [<- | []]]]; vm_compute; split; discriminate.
Defined.

(** * The route *)

Lemma route_loop_spec (rest : list Main_more.RouteWaypoint) :
  forall (previous : Main_more.RouteWaypoint) (legs0 : list Main_more.RouteLeg)
         (d0 t0 : Z),
  exists new_legs,
    Main_more.route_loop previous rest (legs0, d0, t0)
    = (legs0 ++ new_legs,
       (d0 + 1000 * Z.of_nat (List.length rest))%Z,
       (t0 + 300 * Z.of_nat (List.length rest))%Z)
    /\ List.length new_legs = List.length rest
    /\ forall i leg,
         nth_error new_legs i = Some leg ->
         exists a b,
           nth_error (previous :: rest) i = Some a
           /\ nth_error rest i = Some b
           /\ leg = {| Main_more.startAddress := dict_get (Main_more.address a) "street" ""%string;
                       Main_more.endAddress := dict_get (Main_more.address b) "street" ""%string;
                       Main_more.distance := 1000;
                       Main_more.duration := 300 |}.
Proof.
  induction rest as [|wp rest IH]; intros previous legs0 d0 t0.
  - exists []. cbn [Main_more.route_loop List.length]. rewrite app_nil_r.
    split; [f_equal; [f_equal|]; lia|]. split; [reflexivity|].
    intros i leg H. destruct i; discriminate.
  - cbn [Main_more.route_loop].
    destruct (IH wp
                (legs0 ++ [{| Main_more.startAddress :=
                                dict_get (Main_more.address previous) "street" ""%string;
                              Main_more.endAddress :=
                                dict_get (Main_more.address wp) "street" ""%string;
                              Main_more.distance := 1000;
                              Main_more.duration := 300 |}])
                (d0 + 1000)%Z (t0 + 300)%Z) as (new & Hrun & Hlen & Hnth).
    eexists (_ :: new). rewrite Hrun. rewrite <- app_assoc. cbn [app].
    split; [f_equal; [f_equal|]; cbn [List.length]; lia|].
    split; [cbn [List.length]; now rewrite Hlen|].
    intros i leg H. destruct i as [|i].
    + cbn in H. inversion H; subst.
      exists previous, wp. repeat split; reflexivity.
    + cbn [nth_error] in H. destruct (Hnth i leg H) as (a & b & Ha & Hb & Hleg).
      exists a, b. repeat split; assumption.
Qed.

(** The route has one leg per pair of consecutive waypoints: none for an
    empty or single-waypoint request, otherwise one less than the
    waypoints.  Leg i runs from the street of waypoint i to the street of
    waypoint i+1 (an address without a street gives the empty string), so
    each leg starts where the previous one ends; every leg counts 1000 of
    distance and 300 of duration, and the fuel cost is 0.2 per leg. *)
Theorem route_legs_join_consecutive_waypoints :
  forall (w : World) (timestamp_id : string) (waypoints : list Main_more.RouteWaypoint)
         (key : string) (g g' : Globals) (route : Main_more.OptimizedRoute),
    Main_more.route_optimize w timestamp_id waypoints key g = (Ok route, g') ->
    List.length (Main_more.legs route) = Nat.pred (List.length waypoints)
    /\ Main_more.totalDistance route
       = (1000 * Z.of_nat (List.length (Main_more.legs route)))%Z
    /\ Main_more.totalDuration route
       = (300 * Z.of_nat (List.length (Main_more.legs route)))%Z
    /\ Main_more.estimatedFuelCost route
       == 0.2 * inject_Z (Z.of_nat (List.length (Main_more.legs route)))
    /\ (forall i leg,
          nth_error (Main_more.legs route) i = Some leg ->
          exists a b,
            nth_error waypoints i = Some a
            /\ nth_error waypoints (S i) = Some b
            /\ Main_more.startAddress leg = dict_get (Main_more.address a) "street" ""%string
            /\ Main_more.endAddress leg = dict_get (Main_more.address b) "street" ""%string
            /\ Main_more.distance leg = 1000%Z /\ Main_more.duration leg = 300%Z).
Proof.
  intros w tid wps key g g' route H. unfold Main_more.route_optimize in H.
  invert_bind H as u g1 Hkey.
  assert (Hloop : exists legs n,
            match wps with
            | [] => ([], 0%Z, 0%Z)
            | first :: rest => Main_more.route_loop first rest ([], 0%Z, 0%Z)
            end = (legs, (1000 * Z.of_nat n)%Z, (300 * Z.of_nat n)%Z)
            /\ n = List.length legs
            /\ List.length legs = Nat.pred (List.length wps)
            /\ forall i leg,
                 nth_error legs i = Some leg ->
                 exists a b,
                   nth_error wps i = Some a /\ nth_error wps (S i) = Some b
                   /\ leg = {| Main_more.startAddress :=
                                 dict_get (Main_more.address a) "street" ""%string;
                               Main_more.endAddress :=
                                 dict_get (Main_more.address b) "street" ""%string;
                               Main_more.distance := 1000;
                               Main_more.duration := 300 |}).
  { destruct wps as [|first rest].
    - exists [], 0%nat. repeat split. intros i leg Hi. destruct i; discriminate.
    - destruct (route_loop_spec rest first [] 0%Z 0%Z) as (new & Hrun & Hlen & Hnth).
      exists new, (List.length rest). cbn [app] in Hrun. rewrite Hrun.
      split; [reflexivity|]. split; [now rewrite Hlen|].
      split; [cbn [List.length Nat.pred]; exact Hlen|].
      intros i leg Hi. destruct (Hnth i leg Hi) as (a & b & Ha & Hb & Hleg).
      exists a, b. repeat split; assumption. }
  destruct Hloop as (legs & n & Hrun & Hn & Hlen & Hnth). subst n.
  remember (1000 * Z.of_nat (List.length legs))%Z as td eqn:Etd.
  remember (300 * Z.of_nat (List.length legs))%Z as tdur eqn:Etdur.
  rewrite Hrun in H.
  invert_bind H as q g2 Hq. apply lift_Ok_inv in Hq. destruct Hq as [Hq _].
  apply ret_Ok_inv in H. destruct H as [-> _].
  cbn [Main_more.legs Main_more.totalDistance Main_more.totalDuration
       Main_more.estimatedFuelCost].
  split; [exact Hlen|]. split; [exact Etd|]. split; [exact Etdur|].
  split.
  - rewrite py_div_pos in Hq by reflexivity. injection Hq as <-.
    rewrite Etd.
    set (k := Z.of_nat (List.length legs)).
    assert (E : inject_Z (1000 * k) / 1000 * 0.2 == (20 * k # 100)).
    { rewrite inject_Z_mult. unfold Qeq, Qdiv, Qmult, Qinv, inject_Z.
      cbn [Qnum Qden]. lia. }
    unfold round2.
    assert (Er : round_half_even (inject_Z (1000 * k) / 1000 * 0.2 * 100) = (20 * k)%Z).
    { assert (E' : inject_Z (1000 * k) / 1000 * 0.2 * 100 == inject_Z (20 * k)).
      { rewrite E. unfold Qeq, Qmult, inject_Z. cbn [Qnum Qden]. lia. }
      unfold round_half_even. rewrite (Qfloor_comp _ _ E'), Qfloor_Z.
      assert (Ec : Qcompare (inject_Z (1000 * k) / 1000 * 0.2 * 100 - inject_Z (20 * k))
                     (1 # 2) = Lt).
      { apply Qlt_alt.
        assert (E0 : inject_Z (1000 * k) / 1000 * 0.2 * 100 - inject_Z (20 * k) == 0)
          by (rewrite E'; ring).
        rewrite E0. reflexivity. }
      rewrite Ec. reflexivity. }
    rewrite Er. unfold Qeq, Qmult, inject_Z. cbn [Qnum Qden]. lia.
  - intros i leg Hi. destruct (Hnth i leg Hi) as (a & b & Ha & Hb & ->).
    exists a, b. repeat split; assumption.
Qed.

Lemma route_legs_join_consecutive_waypoints_witness :
  exists route g',
    Main_more.route_optimize Examples.bare_world "route-0.0"
      [{| Main_more.wp_id := "a"; Main_more.address := [("street"%string, "Mill Lane"%string)];
          Main_more.coordinates := [] |};
       {| Main_more.wp_id := "b"; Main_more.address := [];
          Main_more.coordinates := [] |}] "" fresh_globals = (Ok route, g')
    /\ List.length (Main_more.legs route) = 1%nat.
Proof.
  eexists. eexists. split; [vm_compute; reflexivity|].
  eapply (route_legs_join_consecutive_waypoints Examples.bare_world "route-0.0"
            [{| Main_more.wp_id := "a";
                Main_more.address := [("street"%string, "Mill Lane"%string)];
                Main_more.coordinates := [] |};
             {| Main_more.wp_id := "b"; Main_more.address := [];
                Main_more.coordinates := [] |}] "" fresh_globals).
  vm_compute. reflexivity.
Defined.

(** * How the price arose *)

Lemma choose_price_flags
    (c b e inv uc : Q) (h : Z) (floor : Q) (cands : list Q) (model_price : option Q)
    (bp : Q) (br : xfloat) (adj used : bool) :
  choose_price c b e inv uc h floor cands model_price = Ok (bp, br, adj, used) ->
  (used = true <-> model_price <> None)
  /\ (used = false -> adj = false -> In bp cands).
Proof.
  unfold choose_price. destruct model_price as [mp|].
  - destruct (match cands with [] => _ | _ :: _ => _ end); [|discriminate].
    cbn [obind].
    destruct (competitor_adjustment _ _ _ _ _ _) as [[p' a']|]; [|discriminate].
    cbn [obind fst snd].
    destruct (model_reward _ _ _ _ _ _ _); [|discriminate].
    cbn [obind]. intros H; inversion H; subst.
    split; [split; [discriminate | reflexivity] | discriminate].
  - destruct (exhaustive_search c b e inv uc h cands) as [[br0 bp0]|] eqn:Es; [|discriminate].
    cbn [obind fst snd].
    destruct (competitor_adjustment c inv h floor cands bp0) as [[p' a']|] eqn:Ea;
      [|discriminate].
    cbn [obind fst snd]. intros H; inversion H; subst.
    split; [split; [discriminate | intros Hn; now contradiction Hn]|].
    intros _ ->. apply exhaustive_search_member in Es.
    unfold competitor_adjustment in Ea.
    destruct (Qgtb c 0); [|inversion Ea; subst; exact Es].
    destruct (py_div bp0 c); [|discriminate]. cbn [obind] in Ea.
    destruct (Qgtb _ 1.05 && _).
    + destruct (py_max_list cands); discriminate.
    + destruct (Qltb _ 0.95 && _).
      * destruct (py_max_list cands); discriminate.
      * inversion Ea; subst. exact Es.
Qed.

(** The reason in the response tells how the price arose: it names the
    model exactly when a model gave a price, it says competitor-adjusted
    exactly when the adjustment changed the price, and of the two remaining
    reasons "Expiry-driven discount" is given when the returned price is
    below the base price and "Demand/margin-driven markup" when it is not. *)
Theorem reason_tells_the_path :
  forall (w : World) (req : PricingV1Request) (key : string) (g g' : Globals) (l : Locals),
    pricing_v1_locals w req key g = (Ok l, g') ->
    let reason := price_adjustment_reason (response_of l) in
    (model_price l <> None
     <-> reason = "Model-driven price"%string
         \/ reason = "Competitor-adjusted model price"%string)
    /\ (competitor_adjusted l = true
        <-> reason = "Competitor-adjusted model price"%string
            \/ reason = "Competitor-adjusted heuristic price"%string)
    /\ (reason = "Expiry-driven discount"%string
        <-> model_price l = None /\ competitor_adjusted l = false
            /\ recommended l < base_price l)
    /\ (reason = "Demand/margin-driven markup"%string
        <-> model_price l = None /\ competitor_adjusted l = false
            /\ base_price l <= recommended l).
Proof.
  intros w req key g g' l Hrun reason.
  destruct (pricing_v1_locals_inv w req key g g' l Hrun)
    as (_ & _ & _ & _ & _ & _ & _ & Hchoose & _).
  destruct (pricing_v1_locals_inputs w req key g g' l Hrun)
    as (_ & _ & _ & _ & _ & _ & _ & _ & Hreason).
  apply choose_price_flags in Hchoose. destruct Hchoose as [Hused _].
  subst reason. cbn [response_of price_adjustment_reason]. rewrite Hreason.
  assert (Hu : used_model l = match model_price l with Some _ => true | None => false end).
  { destruct (model_price l); destruct (used_model l); try reflexivity.
    - apply Hused. discriminate.
    - exfalso. destruct Hused as [H _]. apply (H eq_refl). reflexivity. }
  rewrite Hu. clear Hu Hused Hreason.
  destruct (model_price l) as [mp|]; destruct (competitor_adjusted l);
    [| | | destruct (Qltb (recommended l) (base_price l)) eqn:Er;
           [apply Qltb_true in Er | apply Qltb_false in Er]];
    repeat match goal with
           | |- _ /\ _ => split
           | |- _ <-> _ => split; intros
           | H : _ \/ _ |- _ => destruct H
           | H : _ /\ _ |- _ => destruct H
           end;
    try discriminate; try congruence; try assumption;
    try (left; reflexivity); try (right; reflexivity);
    try (exfalso; eapply Qlt_not_le; eassumption).
Qed.

Lemma reason_tells_the_path_witness :
  exists (l : Locals) (g' : Globals),
    pricing_v1_locals Examples.cheap_model_world Examples.tomato_request ""
      fresh_globals = (Ok l, g')
    /\ model_price l <> None
    /\ price_adjustment_reason (response_of l) = "Model-driven price"%string.
Proof.
  eexists. eexists. split; [vm_compute; reflexivity|].
  split; [discriminate|].
  edestruct (reason_tells_the_path Examples.cheap_model_world Examples.tomato_request ""
               fresh_globals) as ([Hm _] & _).
  - vm_compute. reflexivity.
  - destruct Hm as [H | H]; [discriminate | exact H |].
    vm_compute in H. discriminate.
Defined.

(** When no model gave a price and the competitor adjustment did not
    apply, the chosen price is one of the five candidates. *)
Theorem unadjusted_search_price_is_a_candidate :
  forall (w : World) (req : PricingV1Request) (key : string) (g g' : Globals) (l : Locals),
    pricing_v1_locals w req key g = (Ok l, g') ->
    model_price l = None -> competitor_adjusted l = false ->
    In (best_price_chosen l) (candidates l)
    /\ used_model l = false.
Proof.
  intros w req key g g' l Hrun Hnone Hadj.
  destruct (pricing_v1_locals_inv w req key g g' l Hrun)
    as (_ & _ & _ & _ & _ & _ & _ & Hchoose & _).
  apply choose_price_flags in Hchoose. destruct Hchoose as [Hused Hin].
  assert (Hu : used_model l = false).
  { destruct (used_model l); [|reflexivity].
    exfalso. destruct Hused as [Hu _]. apply (Hu eq_refl). exact Hnone. }
  split; [apply Hin; assumption | exact Hu].
Qed.

Lemma unadjusted_search_price_is_a_candidate_witness :
  exists (l : Locals) (g' : Globals),
    pricing_v1_locals Examples.bare_world More_examples.unlisted_request ""
      fresh_globals = (Ok l, g')
    /\ In (best_price_chosen l) (candidates l).
Proof.
  eexists. eexists. split; [vm_compute; reflexivity|].
  eapply (unadjusted_search_price_is_a_candidate Examples.bare_world
            More_examples.unlisted_request "" fresh_globals).
  - vm_compute. reflexivity.
  - reflexivity.
  - reflexivity.
Defined.
